(** * slurm_digest: a shallow embedding of [slurm_digest/slurm_digest.py]

    The script condenses the rows of a SLURM change file into an e-mail
    digest.  This development embeds its pure core (classification of
    hosts, the four row splits, reason grouping, node-range compression
    and the two renderers) and states the properties of the digest
    specification over that embedding.

    Modelling conventions.
    - A Python [str] is a [string]; the text is taken to be ASCII, so
      [\d] is ['0'..'9'], [str.lower] acts on ['A'..'Z'] and whitespace
      is the ASCII whitespace of [str.isspace].
    - A Python [int] is a [Z].
    - A Python [dict] is an association list in insertion order (the
      order in which CPython 3.7+ iterates), updated in place.
    - A Python exception is a value of [exn] carried by [result].
    - A row, which [parse_change_file] always builds with one entry per
      key of [FIELDS], is a record of seven strings.
    - The change file is given by its lines, or by its contents, of
      which [file_lines] gives the lines as text mode yields them;
      sending the e-mail and emptying the file are left out, and the
      pretty-printer of [lxml] is a parameter.

    The first part holds the definitions: the helpers of Python, the
    functions of the script under their own names, and the notions of
    the specification.  The second part holds the properties, the
    claims of the specification, C1 to C10, and further properties of
    the script, X1 and following. *)

From Stdlib Require Import List String Ascii ZArith Bool Lia Arith.
From Stdlib Require Import Permutation Sorted DecimalString.
From Stdlib Require Decimal DecimalZ.
Import ListNotations.

Open Scope string_scope.
Open Scope Z_scope.

Set Implicit Arguments.

(** ** Exceptions *)

Inductive exn : Type :=
| IndexError
| ValueError
| KeyError.

Inductive result (A : Type) : Type :=
| OK (a : A)
| Raise (e : exn).

Arguments OK {A} a.
Arguments Raise {A} e.

Definition bind {A B : Type} (m : result A) (k : A -> result B) : result B :=
  match m with
  | OK a => k a
  | Raise e => Raise e
  end.

Definition fmap {A B : Type} (f : A -> B) (m : result A) : result B :=
  bind m (fun a => OK (f a)).

Notation "x <- m ;; k" := (bind m (fun x => k))
  (at level 61, m at next level, right associativity).

(** A [for] loop whose body may raise. *)
Fixpoint foldM {A S : Type} (body : S -> A -> result S) (l : list A) (s : S)
  : result S :=
  match l with
  | [] => OK s
  | a :: l' => s' <- body s a ;; foldM body l' s'
  end.

(** ** Python strings *)

Module Py.

Definition ascii_leb (a b : ascii) : bool := (nat_of_ascii a <=? nat_of_ascii b)%nat.

Definition in_range (lo hi c : ascii) : bool := ascii_leb lo c && ascii_leb c hi.

Definition is_digit (c : ascii) : bool := in_range "0" "9" c.
Definition is_lower (c : ascii) : bool := in_range "a" "z" c.
Definition is_upper (c : ascii) : bool := in_range "A" "Z" c.
Definition is_alnum (c : ascii) : bool := is_digit c || is_lower c || is_upper c.

(** [str.isspace] on ASCII: TAB, LF, VT, FF, CR, FS, GS, RS, US and SPACE. *)
Definition is_space (c : ascii) : bool :=
  let n := nat_of_ascii c in
  ((9 <=? n) && (n <=? 13) || (28 <=? n) && (n <=? 32))%nat.

Definition newline : ascii := ascii_of_nat 10.
Definition carriage_return : ascii := ascii_of_nat 13.
Definition tab : ascii := ascii_of_nat 9.
Definition nl : string := String newline "".
Definition dq : string := String (ascii_of_nat 34) "".
Definition tb : string := String tab "".

Definition lower_char (c : ascii) : ascii :=
  if is_upper c then ascii_of_nat (nat_of_ascii c + 32) else c.

(** [s.lower()] *)
Fixpoint lower (s : string) : string :=
  match s with
  | "" => ""
  | String c s' => String (lower_char c) (lower s')
  end.

Definition is_empty (s : string) : bool :=
  match s with "" => true | _ => false end.

Fixpoint lstrip (s : string) : string :=
  match s with
  | "" => ""
  | String c s' => if is_space c then lstrip s' else s
  end.

Fixpoint rstrip (s : string) : string :=
  match s with
  | "" => ""
  | String c s' =>
      let r := rstrip s' in
      if is_space c && is_empty r then "" else String c r
  end.

(** [s.strip()] *)
Definition strip (s : string) : string := rstrip (lstrip s).

(** [s.split()]: the maximal runs of non-whitespace characters. *)
Fixpoint words_from (s cur : string) : list string :=
  match s with
  | "" => if is_empty cur then [] else [cur]
  | String c s' =>
      if is_space c
      then (if is_empty cur then words_from s' "" else cur :: words_from s' "")
      else words_from s' (cur ++ String c "")
  end.

Definition split_ws (s : string) : list string := words_from s "".

(** [sep.join(l)] *)
Fixpoint join (sep : string) (l : list string) : string :=
  match l with
  | [] => ""
  | [x] => x
  | x :: l' => x ++ sep ++ join sep l'
  end.

(** [s.startswith(p)] *)
Definition startswith (s p : string) : bool := String.prefix p s.

(** [s.startswith((p1, ..., pn))] *)
Definition startswith_any (s : string) (ps : list string) : bool :=
  existsb (startswith s) ps.

(** The characters still to be skipped, the field being read, the rest. *)
Fixpoint split_from (sep s : string) (skip : nat) (cur : string) : list string :=
  match s with
  | "" => [cur]
  | String c s' =>
      match skip with
      | S k => split_from sep s' k cur
      | O =>
          if String.prefix sep s
          then cur :: split_from sep s' (String.length sep - 1) ""
          else split_from sep s' 0 (cur ++ String c "")
      end
  end.

(** [s.split(sep)]: an empty separator is a [ValueError]. *)
Definition split (s sep : string) : result (list string) :=
  if is_empty sep then Raise ValueError else OK (split_from sep s 0 "").

(** [s.find(c)] for a one-character needle: the first index, or [-1]. *)
Fixpoint find_from (c : ascii) (s : string) (i : Z) : Z :=
  match s with
  | "" => -1
  | String c' s' => if Ascii.eqb c c' then i else find_from c s' (i + 1)
  end.

Definition find (s : string) (c : ascii) : Z := find_from c s 0.

Fixpoint drop (n : nat) (s : string) : string :=
  match n, s with
  | O, _ => s
  | S k, "" => ""
  | S k, String _ s' => drop k s'
  end.

(** [s[i:]] for [i >= 0]; a negative start counts from the end. *)
Definition slice_from (s : string) (i : Z) : string :=
  if i <? 0
  then drop (String.length s - Z.to_nat (- i)) s
  else drop (Z.to_nat i) s.

(** [str(n)] *)
Definition str (n : Z) : string := NilZero.string_of_int (Z.to_int n).

Fixpoint zeros (n : nat) : string :=
  match n with
  | O => ""
  | S k => String "0" (zeros k)
  end.

(** [s.zfill(width)]: a leading sign stays in front of the padding. *)
Definition zfill (s : string) (width : nat) : string :=
  let fill := (width - String.length s)%nat in
  match s with
  | String c s' =>
      if Ascii.eqb c "+" || Ascii.eqb c "-"
      then String c (zeros fill ++ s')
      else zeros fill ++ s
  | "" => zeros fill
  end.

Definition digit_value (c : ascii) : Z :=
  Z.of_nat (nat_of_ascii c - nat_of_ascii "0").

(** The digits of a literal, single underscores allowed between digits;
    [after_digit] tells whether the previous character was a digit. *)
Fixpoint digits_value (s : string) (acc : Z) (after_digit : bool) : option Z :=
  match s with
  | "" => if after_digit then Some acc else None
  | String c s' =>
      if is_digit c then digits_value s' (10 * acc + digit_value c) true
      else if Ascii.eqb c "_" && after_digit then digits_value s' acc false
      else None
  end.

(** The whitespace that [int] skips around an ASCII literal: TAB, LF, VT,
    FF, CR and SPACE, and not FS, GS, RS, US as [str.strip] does. *)
Definition is_literal_space (c : ascii) : bool :=
  let n := nat_of_ascii c in
  ((9 <=? n) && (n <=? 13) || (n =? 32))%nat.

Fixpoint skip_left (s : string) : string :=
  match s with
  | "" => ""
  | String c s' => if is_literal_space c then skip_left s' else s
  end.

Fixpoint skip_right (s : string) : string :=
  match s with
  | "" => ""
  | String c s' =>
      let r := skip_right s' in
      if is_literal_space c && is_empty r then "" else String c r
  end.

(** [int(s)] in base ten: surrounding whitespace and one sign are
    accepted, anything else is a [ValueError]. *)
Definition int (s : string) : result Z :=
  let body (t : string) (sign : Z) :=
    match digits_value t 0 false with
    | Some v => OK (sign * v)
    | None => Raise ValueError
    end in
  match skip_right (skip_left s) with
  | String c t =>
      if Ascii.eqb c "-" then body t (-1)
      else if Ascii.eqb c "+" then body t 1
      else body (String c t) 1
  | "" => Raise ValueError
  end.

(** Insertion sort by a key: stable, as [sorted] is. *)
Section Sorted.
Variables (A K : Type) (key : A -> K) (leb : K -> K -> bool).

Fixpoint insert_sorted (x : A) (l : list A) : list A :=
  match l with
  | [] => [x]
  | y :: l' =>
      if leb (key y) (key x) then y :: insert_sorted x l' else x :: l
  end.

Definition sorted (l : list A) : list A :=
  fold_left (fun acc x => insert_sorted x acc) l [].
End Sorted.

End Py.

(** ** Regular expressions

    The fragment of [re] that [COMPUTE_PATTERN] is written in: a sequence
    of single-character atoms, one-or-more repetitions of an atom, and
    the end anchor. *)

Module Re.

Inductive atom : Type :=
| Lit (c : ascii)                       (* a literal character *)
| Digit                                 (* \d *)
| AnyChar                               (* .  : anything but a newline *)
| Class (ranges : list (ascii * ascii)) (* [a-z0-9] *).

Inductive item : Type :=
| One (a : atom)
| Plus (a : atom)   (* a+ *)
| EndAnchor         (* $  *).

Definition pattern : Type := list item.

Definition atom_matches (a : atom) (c : ascii) : bool :=
  match a with
  | Lit c' => Ascii.eqb c' c
  | Digit => Py.is_digit c
  | AnyChar => negb (Ascii.eqb c Py.newline)
  | Class ranges => existsb (fun r => Py.in_range (fst r) (snd r) c) ranges
  end.

(** Without [re.MULTILINE], [$] matches at the end of the string and
    just before a newline that ends the string. *)
Definition at_end (s : string) : bool :=
  match s with
  | "" => true
  | String c "" => Ascii.eqb c Py.newline
  | _ => false
  end.

(** Does the pattern match a prefix of [s]? *)
Fixpoint match_here (p : pattern) (s : string) {struct p} : bool :=
  match p with
  | [] => true
  | One a :: p' =>
      match s with
      | String c s' => atom_matches a c && match_here p' s'
      | "" => false
      end
  | Plus a :: p' =>
      (fix more (t : string) : bool :=
         match t with
         | String c t' => atom_matches a c && (match_here p' t' || more t')
         | "" => false
         end) s
  | EndAnchor :: p' => at_end s && match_here p' s
  end.

(** [re.search(p, s)] as a truth value: a match starting anywhere. *)
Fixpoint search (p : pattern) (s : string) : bool :=
  match_here p s ||
  match s with
  | "" => false
  | String _ s' => search p s'
  end.

End Re.

(** ** Module-level constants *)

(** A row of the change file: one string per key of [FIELDS]. *)
Record Row : Type := mkRow {
  notification_type : string;
  service : string;
  host : string;
  address : string;
  state : string;
  date_time : string;
  additional_info : string
}.

(** [FIELDS.keys()], in the order of the dictionary literal. *)
Definition FIELDS_keys : list string :=
  ["NOTIFICATION TYPE"; "SERVICE"; "HOST"; "ADDRESS"; "STATE"; "DATE/TIME";
   "ADDITIONAL INFO"].

(** The row as the list that the script holds: [row[FIELDS[k]]] for each key. *)
Definition row_fields (r : Row) : list string :=
  [notification_type r; service r; host r; address r; state r; date_time r;
   additional_info r].

(** [COMPUTE_PATTERN = "n0\d\d\d.[a-z0-9]+$"] *)
Definition COMPUTE_PATTERN : Re.pattern :=
  [Re.One (Re.Lit "n"); Re.One (Re.Lit "0");
   Re.One Re.Digit; Re.One Re.Digit; Re.One Re.Digit;
   Re.One Re.AnyChar;
   Re.Plus (Re.Class [("a", "z"); ("0", "9")]);
   Re.EndAnchor]%char.

Definition NODE_NUM_DIGITS : nat := 4.

(** ** Dictionaries *)

Module Dict.

Section Dict.
Variable V : Type.

Definition t : Type := list (string * V).

Definition keys (d : t) : list string := map fst d.

(** [k in d.keys()] *)
Definition contains (d : t) (k : string) : bool :=
  existsb (String.eqb k) (keys d).

Fixpoint get (d : t) (k : string) : option V :=
  match d with
  | [] => None
  | (k', v) :: d' => if String.eqb k k' then Some v else get d' k
  end.

(** [d[k]] *)
Definition getitem (d : t) (k : string) : result V :=
  match get d k with
  | Some v => OK v
  | None => Raise KeyError
  end.

(** [d[k] = v]: an existing key keeps its place, a new one goes last. *)
Fixpoint set (d : t) (k : string) (v : V) : t :=
  match d with
  | [] => [(k, v)]
  | (k', v') :: d' =>
      if String.eqb k k' then (k', v) :: d' else (k', v') :: set d' k v
  end.
End Dict.

(** [d[k].append(x)] *)
Definition append_at {A : Type} (d : t (list A)) (k : string) (x : A)
  : result (t (list A)) :=
  l <- getitem d k ;; OK (set d k (l ++ [x])%list).

End Dict.

Definition HW_label : string := "Hardware".
Definition NHC_label : string := "NHC".
Definition SW_label : string := "Software".

Definition SLURM_CATEGORIES : Dict.t string :=
  [("HW", HW_label); ("NHC", NHC_label); ("SW", SW_label)].

(** ** Hosts and node lists *)

(** [re.search(re.compile(COMPUTE_PATTERN), host)] as a truth value. *)
Definition is_compute_host (h : string) : bool := Re.search COMPUTE_PATTERN h.

Definition get_nodes_by_cluster_step (cluster_nodes : Dict.t (list Z)) (row : Row)
  : result (Dict.t (list Z)) :=
  let host := host row in
  if is_compute_host host then
    fields <- Py.split host "." ;;
    match map Py.strip fields with
    | [number; cluster] =>
        integer <- Py.int (Py.slice_from number 1) ;;
        let cluster_nodes :=
          if Dict.contains cluster_nodes cluster then cluster_nodes
          else Dict.set cluster_nodes cluster [] in
        Dict.append_at cluster_nodes cluster integer
    | _ => Raise ValueError   (* number, cluster = [...] *)
    end
  else OK cluster_nodes.

Definition get_nodes_by_cluster (rows : list Row) : result (Dict.t (list Z)) :=
  foldM get_nodes_by_cluster_step rows [].

Definition str_form (number : Z) : string :=
  "n" ++ Py.zfill (Py.str number) NODE_NUM_DIGITS.

(** [consecutive] is the empty tuple or a pair [(start, end)]. *)
Definition get_consecutive_string (consecutive : option (Z * Z)) : result string :=
  match consecutive with
  | None => Raise IndexError   (* consecutive[0] on () *)
  | Some (first, last) =>
      OK (if first =? last then str_form first
          else Py.join "-" [str_form first; str_form last])
  end.

Definition sweep_state : Type := (list string * option (Z * Z))%type.

Definition sweep_step (st : sweep_state) (node_number : Z) : result sweep_state :=
  let '(node_list_entries, consecutive) := st in
  match consecutive with
  | None => OK (node_list_entries, Some (node_number, node_number))
  | Some (first, last) =>
      if node_number =? last + 1
      then OK (node_list_entries, Some (first, node_number))
      else
        entry <- get_consecutive_string consecutive ;;
        OK ((node_list_entries ++ [entry])%list, Some (node_number, node_number))
  end.

(** [sorted(list(set(node_list)))] *)
Definition sorted_set (node_list : list Z) : list Z :=
  Py.sorted (fun n => n) Z.leb (nodup Z.eq_dec node_list).

Definition get_node_list_string (node_list : list Z) : result string :=
  let node_list := sorted_set node_list in
  st <- foldM sweep_step node_list ([], None) ;;
  entry <- get_consecutive_string (snd st) ;;
  OK (Py.join ", " (fst st ++ [entry])%list).

(** ** The four splits *)

Definition get_rows_by_host_type (rows : list Row) : Dict.t (list Row) :=
  let '(compute, other) :=
    fold_left
      (fun (acc : list Row * list Row) row =>
         let '(compute, other) := acc in
         if is_compute_host (host row)
         then ((compute ++ [row])%list, other)
         else (compute, (other ++ [row])%list))
      rows ([], []) in
  [("COMPUTE", compute); ("OTHER", other)].

Definition get_rows_by_notification_type (rows : list Row) : Dict.t (list Row) :=
  let '(problem, recovery, other) :=
    fold_left
      (fun (acc : list Row * list Row * list Row) row =>
         let '(problem, recovery, other) := acc in
         let notification_type := notification_type row in
         if String.eqb notification_type "PROBLEM"
         then ((problem ++ [row])%list, recovery, other)
         else if String.eqb notification_type "RECOVERY"
         then (problem, (recovery ++ [row])%list, other)
         else (problem, recovery, (other ++ [row])%list))
      rows ([], [], []) in
  [("PROBLEM", problem); ("RECOVERY", recovery); ("OTHER", other)].

Definition get_rows_by_service (rows : list Row) : Dict.t (list Row) :=
  let '(slurm, other) :=
    fold_left
      (fun (acc : list Row * list Row) row =>
         let '(slurm, other) := acc in
         if String.eqb (service row) "SLURM"
         then ((slurm ++ [row])%list, other)
         else (slurm, (other ++ [row])%list))
      rows ([], []) in
  [("SLURM", slurm); ("OTHER", other)].

Definition get_rows_by_slurm_category (rows : list Row) : Dict.t (list Row) :=
  let '(hardware, nhc, software, other) :=
    fold_left
      (fun (acc : list Row * list Row * list Row * list Row) row =>
         let '(hardware, nhc, software, other) := acc in
         if String.eqb (service row) "SLURM" then
           let additional_info := additional_info row in
           if Py.startswith additional_info (HW_label ++ ":")
           then ((hardware ++ [row])%list, nhc, software, other)
           else if Py.startswith additional_info (NHC_label ++ ":")
           then (hardware, (nhc ++ [row])%list, software, other)
           else if Py.startswith additional_info (SW_label ++ ":")
           then (hardware, nhc, (software ++ [row])%list, other)
           else (hardware, nhc, software, (other ++ [row])%list)
         else acc)
      rows ([], [], [], []) in
  [("HW", hardware); ("NHC", nhc); ("SW", software); ("OTHER", other)].

(** ** Reason grouping *)

(** The reason of a row, as computed in the first loop of
    [get_rows_by_slurm_reason]. *)
Definition slurm_reason (additional_info : string) : string :=
  let reason :=
    if Py.startswith_any additional_info
         [HW_label ++ ":"; NHC_label ++ ":"; SW_label ++ ":"]
    then Py.strip (Py.slice_from additional_info (Py.find additional_info ":" + 1))
    else Py.strip additional_info in
  Py.join " " (Py.split_ws reason).

Definition reasons_step (reasons : Dict.t (list (string * Row))) (row : Row)
  : result (Dict.t (list (string * Row))) :=
  if String.eqb (service row) "SLURM" then
    let reason := slurm_reason (additional_info row) in
    let reasons :=
      if Dict.contains reasons (Py.lower reason) then reasons
      else Dict.set reasons (Py.lower reason) [] in
    Dict.append_at reasons (Py.lower reason) (reason, row)
  else OK reasons.

Definition output_reasons_step (reasons : Dict.t (list (string * Row)))
    (output_reasons : Dict.t (list Row)) (reason : string)
  : result (Dict.t (list Row)) :=
  pairs <- Dict.getitem reasons reason ;;
  match pairs with
  | [] => Raise IndexError   (* pairs[0] *)
  | (new_key, _) :: _ =>
      let output_reasons :=
        if Dict.contains output_reasons new_key then output_reasons
        else Dict.set output_reasons new_key [] in
      foldM (fun out (pair : string * Row) => Dict.append_at out new_key (snd pair))
            pairs output_reasons
  end.

Definition get_rows_by_slurm_reason (rows : list Row) : result (Dict.t (list Row)) :=
  reasons <- foldM reasons_step rows [] ;;
  foldM (output_reasons_step reasons) (Dict.keys reasons) [].

(** ** The change file *)

(** [l[i]] *)
Definition index {A : Type} (l : list A) (i : nat) : result A :=
  match nth_error l i with
  | Some x => OK x
  | None => Raise IndexError
  end.

(** One line of the file: [field_values[FIELDS[field]].strip()] for each
    field, in the order of [FIELDS.keys()]. *)
Definition parse_line (line delimeter : string) : result Row :=
  field_values <- Py.split line delimeter ;;
  f0 <- index field_values 0 ;;
  f1 <- index field_values 1 ;;
  f2 <- index field_values 2 ;;
  f3 <- index field_values 3 ;;
  f4 <- index field_values 4 ;;
  f5 <- index field_values 5 ;;
  f6 <- index field_values 6 ;;
  OK (mkRow (Py.strip f0) (Py.strip f1) (Py.strip f2) (Py.strip f3)
            (Py.strip f4) (Py.strip f5) (Py.strip f6)).

(** The file is given by its lines, as iterating over it yields them. *)
Definition parse_change_file (lines : list string) (delimeter : string)
  : result (list Row) :=
  foldM (fun parsed_file line =>
           parsed_line <- parse_line line delimeter ;;
           OK (parsed_file ++ [parsed_line])%list)
        lines [].

(** The text that reading a file opened with [open(path, "r")] sees:
    with universal newlines, CR LF and a lone CR become a newline. *)
Definition starts_with_newline (s : string) : bool :=
  match s with
  | String c _ => Ascii.eqb c Py.newline
  | "" => false
  end.

Fixpoint universal_newlines (s : string) : string :=
  match s with
  | "" => ""
  | String c rest =>
      if Ascii.eqb c Py.carriage_return
      then if starts_with_newline rest then universal_newlines rest
           else String Py.newline (universal_newlines rest)
      else String c (universal_newlines rest)
  end.

(** [for line in change_file]: every line ends with its newline, but for
    a last line that the text does not end; [cur] is the line read so
    far. *)
Fixpoint lines_from (s cur : string) : list string :=
  match s with
  | "" => if Py.is_empty cur then [] else [cur]
  | String c rest =>
      if Ascii.eqb c Py.newline
      then (cur ++ Py.nl) :: lines_from rest ""
      else lines_from rest (cur ++ String c "")
  end.

(** The lines of a change file with the given contents. *)
Definition file_lines (contents : string) : list string :=
  lines_from (universal_newlines contents) "".

(** ** The two renderers of the SLURM problems *)

Definition th_open : string := "<th colspan=" ++ Py.dq ++ "2" ++ Py.dq ++ ">".

Definition html_clusters (clusters : Dict.t (list Z)) (html : string)
  : result string :=
  foldM (fun html cluster =>
           nodes <- Dict.getitem clusters cluster ;;
           node_list <- get_node_list_string nodes ;;
           OK (html ++ "<b>" ++ cluster ++ "</b>" ++ ": " ++ node_list ++ "<br>"))
        (Py.sorted (fun k => k) String.leb (Dict.keys clusters)) html.

Definition html_reasons (reasons : Dict.t (list Row)) (html : string)
  : result string :=
  foldM (fun html reason =>
           let html := html ++ "<tr>" ++ "<td><b>" ++ reason ++ "</b></td>" in
           rows <- Dict.getitem reasons reason ;;
           clusters <- get_nodes_by_cluster rows ;;
           html <- html_clusters clusters (html ++ "<td>") ;;
           OK (html ++ "</td>" ++ "</tr>"))
        (Py.sorted Py.lower String.leb (Dict.keys reasons)) html.

Definition digest_slurm_problems_html (slurm_rows : Dict.t (list Row))
  : result string :=
  html <-
    foldM (fun html category =>
             slurm_category_rows <- Dict.getitem slurm_rows category ;;
             let html :=
               html ++ "<tr>" ++
               match Dict.get SLURM_CATEGORIES category with
               | Some label => th_open ++ label ++ " Issues</th>"
               | None => th_open ++ "Other Issues</th>"
               end ++ "</tr>" in
             reasons <- get_rows_by_slurm_reason slurm_category_rows ;;
             html_reasons reasons html)
          (Dict.keys slurm_rows)
          ("<h2>SLURM Problems</h2>" ++
           "<table border=" ++ Py.dq ++ "1" ++ Py.dq ++ ">") ;;
  OK (html ++ "</table>").

Definition text_clusters (clusters : Dict.t (list Z)) (text : string)
  : result string :=
  foldM (fun text cluster =>
           nodes <- Dict.getitem clusters cluster ;;
           node_list <- get_node_list_string nodes ;;
           OK (text ++ Py.tb ++ Py.tb ++ Py.tb ++ cluster ++ ": " ++ node_list
                    ++ Py.nl))
        (Py.sorted (fun k => k) String.leb (Dict.keys clusters)) text.

Definition text_reasons (reasons : Dict.t (list Row)) (text : string)
  : result string :=
  foldM (fun text reason =>
           let text := text ++ Py.tb ++ Py.tb ++ reason ++ Py.nl in
           rows <- Dict.getitem reasons reason ;;
           clusters <- get_nodes_by_cluster rows ;;
           text_clusters clusters text)
        (Py.sorted Py.lower String.leb (Dict.keys reasons)) text.

Definition digest_slurm_problems_text (slurm_rows : Dict.t (list Row))
  : result string :=
  foldM (fun text category =>
           slurm_category_rows <- Dict.getitem slurm_rows category ;;
           let text :=
             text ++
             match Dict.get SLURM_CATEGORIES category with
             | Some label => Py.nl ++ Py.tb ++ label ++ " Issues" ++ Py.nl
             | None => Py.tb ++ "Other Issues" ++ Py.nl
             end in
           reasons <- get_rows_by_slurm_reason slurm_category_rows ;;
           text_reasons reasons text)
        (Dict.keys slurm_rows)
        (Py.nl ++ "SLURM Problems" ++ Py.nl).

(** ** The digests *)

Definition phrases : list string :=
  [" new problems:"; " new recoveries:"; " other new changes:"].

Definition len {A : Type} (l : list A) : Z := Z.of_nat (List.length l).

Section Digest.
(** [prettify_html], the pretty-printer of [lxml], is left abstract. *)
Variable prettify_html : string -> string.

Definition html_raw_table (html : string) (rows : list Row) (phrase : string)
  : string :=
  let html := html ++ "<p>There are " ++ Py.str (len rows) ++ phrase ++ "</p>" in
  let html := html ++ "<table>" ++ "<tr>" in
  let html :=
    fold_left (fun html header => html ++ "<th>" ++ header ++ "</th>")
              FIELDS_keys html in
  let html := html ++ "</tr>" in
  let html :=
    fold_left
      (fun html line =>
         fold_left (fun html field => html ++ "<td>" ++ field ++ "</td>")
                   (row_fields line) (html ++ "<tr>") ++ "</tr>")
      rows html in
  html ++ "</table>".

Definition get_digest_html (problem_rows recovery_rows other_rows : list Row)
  : result string :=
  let html := "<html>" ++ "<head></head>" ++ "<body>" ++ "<h1>SLURM Digest</h1>"
              ++ "<hr>" in
  slurm <- Dict.getitem (get_rows_by_service problem_rows) "SLURM" ;;
  let slurm_rows := get_rows_by_slurm_category slurm in
  problems <- digest_slurm_problems_html slurm_rows ;;
  let html := html ++ problems ++ "<hr>" ++ "<h2>Raw Output</h2>" in
  let html :=
    fold_left (fun html (p : list Row * string) =>
                 html_raw_table html (fst p) (snd p))
              (combine [problem_rows; recovery_rows; other_rows] phrases) html in
  OK (prettify_html (html ++ "</body>" ++ "</html>")).

Definition text_raw_table (text : string) (rows : list Row) (phrase : string)
  : string :=
  let text :=
    text ++ Py.nl ++ "There are " ++ Py.str (len rows) ++ phrase ++ Py.nl in
  let text := text ++ Py.join ", " FIELDS_keys ++ Py.nl in
  fold_left (fun text line => text ++ Py.join ", " (row_fields line) ++ Py.nl)
            rows text.

Definition get_digest_text (problem_rows recovery_rows other_rows : list Row)
  : result string :=
  let text := "SLURM Digest" ++ Py.nl in
  slurm <- Dict.getitem (get_rows_by_service problem_rows) "SLURM" ;;
  let slurm_rows := get_rows_by_slurm_category slurm in
  problems <- digest_slurm_problems_text slurm_rows ;;
  let text := text ++ problems ++ Py.nl ++ "Raw Output" ++ Py.nl in
  OK (fold_left (fun text (p : list Row * string) =>
                   text_raw_table text (fst p) (snd p))
                (combine [problem_rows; recovery_rows; other_rows] phrases) text).

(** The body of [main] after its two checks of the file: from the lines
    of the file to the two bodies of the e-mail. *)
Definition digest_of_lines (lines : list string) : result (string * string) :=
  parsed_file <- parse_change_file lines "," ;;
  let host_type_rows := get_rows_by_host_type parsed_file in
  compute <- Dict.getitem host_type_rows "COMPUTE" ;;
  let notification_type_rows := get_rows_by_notification_type compute in
  problem_rows <- Dict.getitem notification_type_rows "PROBLEM" ;;
  recovery_rows <- Dict.getitem notification_type_rows "RECOVERY" ;;
  other_rows <- Dict.getitem notification_type_rows "OTHER" ;;
  email_html <- get_digest_html problem_rows recovery_rows other_rows ;;
  email_text <- get_digest_text problem_rows recovery_rows other_rows ;;
  OK (email_html, email_text).

(** [main] as a whole.  The change file is [None] when there is no file
    at the path and its contents otherwise; [main] leaves at once when
    there is no file or the file is empty, and otherwise hands the two
    bodies to [send_email_html]. *)
Inductive run : Type :=
| Exits
| Sends (email_html email_text : string).

Definition main (change_file : option string) : result run :=
  match change_file with
  | None => OK Exits
  | Some contents =>
      if Py.is_empty contents then OK Exits
      else
        bodies <- digest_of_lines (file_lines contents) ;;
        OK (Sends (fst bodies) (snd bodies))
  end.
End Digest.

(** ** Notions of the specification

    The definitions below are not functions of the script: they state, in
    the words of the specification, what the functions above are
    compared with, or name what the proofs speak of. *)

Fixpoint mapM {A B : Type} (f : A -> result B) (l : list A) : result (list B) :=
  match l with
  | [] => OK []
  | a :: l' => b <- f a ;; bs <- mapM f l' ;; OK (b :: bs)
  end.

Fixpoint all_chars (p : ascii -> bool) (s : string) : bool :=
  match s with
  | "" => true
  | String c s' => p c && all_chars p s'
  end.

Definition str3 (d1 d2 d3 : ascii) : string :=
  String d1 (String d2 (String d3 "")).

(** The compute-node rule as the specification words it: the name ends
    with [n], exactly four digits, a dot and one or more alphanumeric
    characters. *)
Definition spec_compute_shape (h : string) : Prop :=
  exists pre d1 d2 d3 d4 cluster,
    h = pre ++ "n" ++ String d1 (str3 d2 d3 d4) ++ "." ++ cluster /\
    Py.is_digit d1 = true /\ Py.is_digit d2 = true /\
    Py.is_digit d3 = true /\ Py.is_digit d4 = true /\
    cluster <> "" /\ all_chars Py.is_alnum cluster = true.

(** The character class [[a-z0-9]]. *)
Definition is_cluster_char (c : ascii) : bool :=
  Py.in_range "a" "z" c || Py.in_range "0" "9" c.

(** The name ends with [n0], three digits, the character [sep] and one or
    more characters of [[a-z0-9]]. *)
Definition node_shape (sep : ascii) (h : string) : Prop :=
  exists pre d1 d2 d3 cluster,
    h = pre ++ "n0" ++ str3 d1 d2 d3 ++ String sep cluster /\
    Py.is_digit d1 = true /\ Py.is_digit d2 = true /\ Py.is_digit d3 = true /\
    cluster <> "" /\ all_chars is_cluster_char cluster = true.

(** *** Intervals of node numbers *)

(** The sweep of the range compressor over an ascending list, with the
    current interval [(first, last)]. *)
Fixpoint runs (first last : Z) (l : list Z) : list (Z * Z) :=
  match l with
  | [] => [(first, last)]
  | x :: l' =>
      if x =? last + 1 then runs first x l' else (first, last) :: runs x x l'
  end.

Definition compress (node_list : list Z) : list (Z * Z) :=
  match sorted_set node_list with
  | [] => []
  | x :: l => runs x x l
  end.

Definition interval_elements (i : Z * Z) : list Z :=
  map (fun k => fst i + Z.of_nat k) (seq 0 (Z.to_nat (snd i + 1 - fst i))).

Definition expand (intervals : list (Z * Z)) : list Z :=
  flat_map interval_elements intervals.

Definition render_interval (i : Z * Z) : string :=
  if fst i =? snd i then str_form (fst i)
  else str_form (fst i) ++ "-" ++ str_form (snd i).

(** Every interval is non-empty and the next one starts beyond the
    successor of the end of the previous one. *)
Fixpoint separated (intervals : list (Z * Z)) : Prop :=
  match intervals with
  | [] => True
  | i :: rest =>
      fst i <= snd i /\
      match rest with
      | [] => True
      | j :: _ => snd i + 1 < fst j
      end /\
      separated rest
  end.

(** Reading the range notation back: entries are separated by [", "], an
    entry is [n<number>] or [n<number>-n<number>]. *)
Definition expand_entry (entry : string) : result (list Z) :=
  parts <- Py.split entry "-n" ;;
  match parts with
  | [single] =>
      if Py.startswith single "n"
      then n <- Py.int (Py.slice_from single 1) ;; OK [n]
      else Raise ValueError
  | [first; last] =>
      if Py.startswith first "n"
      then lo <- Py.int (Py.slice_from first 1) ;;
           hi <- Py.int last ;;
           OK (interval_elements (lo, hi))
      else Raise ValueError
  | _ => Raise ValueError
  end.

Definition expand_node_list_string (s : string) : result (list Z) :=
  if Py.is_empty s then OK []
  else
    entries <- Py.split s ", " ;;
    numbers <- mapM expand_entry entries ;;
    OK (List.concat numbers).

(** Node numbers that four digits can write, and what [str_form] puts
    after the [n]. *)
Definition four_digit (n : Z) : bool := (0 <=? n) && (n <=? 9999).

Definition padded (n : Z) : string := Py.zfill (Py.str n) NODE_NUM_DIGITS.

Fixpoint has_char (c : ascii) (s : string) : bool :=
  match s with
  | "" => false
  | String c' s' => Ascii.eqb c c' || has_char c s'
  end.

(** The padded number has no dash and no comma, and [int] reads it back. *)
Definition padded_reads_back (n : Z) : bool :=
  negb (has_char "-" (padded n)) && negb (has_char "," (padded n)) &&
  match Py.int (padded n) with
  | OK m => m =? n
  | Raise _ => false
  end.

(** *** The report tree *)

(** The order that [sorted(l, key=key)] puts a list in. *)
Definition key_le {A K : Type} (key : A -> K) (leb : K -> K -> bool) (x y : A) : Prop :=
  leb (key x) (key y) = true.

(** Alphabetical order, and alphabetical order regardless of case. *)
Definition string_le : string -> string -> Prop := key_le (fun k => k) String.leb.
Definition lower_le : string -> string -> Prop := key_le Py.lower String.leb.

Definition cluster_entry : Type := (string * string)%type.
Definition reason_entry : Type := (string * list cluster_entry)%type.
Definition category_entry : Type := (string * list reason_entry)%type.

Definition category_label (category : string) : string :=
  match Dict.get SLURM_CATEGORIES category with
  | Some label => label
  | None => "Other"
  end.

Definition tree_clusters (clusters : Dict.t (list Z)) : result (list cluster_entry) :=
  mapM (fun cluster =>
          nodes <- Dict.getitem clusters cluster ;;
          node_list <- get_node_list_string nodes ;;
          OK (cluster, node_list))
       (Py.sorted (fun k => k) String.leb (Dict.keys clusters)).

Definition tree_reasons (reasons : Dict.t (list Row)) : result (list reason_entry) :=
  mapM (fun reason =>
          rows <- Dict.getitem reasons reason ;;
          clusters <- get_nodes_by_cluster rows ;;
          entries <- tree_clusters clusters ;;
          OK (reason, entries))
       (Py.sorted Py.lower String.leb (Dict.keys reasons)).

(** Category, then reason, then cluster, then compressed node list. *)
Definition report_tree (slurm_rows : Dict.t (list Row)) : result (list category_entry) :=
  mapM (fun category =>
          slurm_category_rows <- Dict.getitem slurm_rows category ;;
          reasons <- get_rows_by_slurm_reason slurm_category_rows ;;
          entries <- tree_reasons reasons ;;
          OK (category_label category, entries))
       (Dict.keys slurm_rows).

Definition cat_strings (l : list string) : string := fold_right append "" l.

Definition html_of_cluster (c : cluster_entry) : string :=
  "<b>" ++ fst c ++ "</b>" ++ ": " ++ snd c ++ "<br>".

Definition html_of_reason (r : reason_entry) : string :=
  "<tr>" ++ "<td><b>" ++ fst r ++ "</b></td>" ++ "<td>" ++
  cat_strings (map html_of_cluster (snd r)) ++ "</td>" ++ "</tr>".

Definition html_of_category (c : category_entry) : string :=
  "<tr>" ++ th_open ++ fst c ++ " Issues</th>" ++ "</tr>" ++
  cat_strings (map html_of_reason (snd c)).

Definition html_of_tree (tree : list category_entry) : string :=
  "<h2>SLURM Problems</h2>" ++ "<table border=" ++ Py.dq ++ "1" ++ Py.dq ++ ">" ++
  cat_strings (map html_of_category tree) ++ "</table>".

Definition text_of_cluster (c : cluster_entry) : string :=
  Py.tb ++ Py.tb ++ Py.tb ++ fst c ++ ": " ++ snd c ++ Py.nl.

Definition text_of_reason (r : reason_entry) : string :=
  Py.tb ++ Py.tb ++ fst r ++ Py.nl ++ cat_strings (map text_of_cluster (snd r)).

(** The plaintext header of the fallback category has no blank line
    before it. *)
Definition text_of_category (c : category_entry) : string :=
  (if String.eqb (fst c) "Other" then Py.tb ++ "Other Issues" ++ Py.nl
   else Py.nl ++ Py.tb ++ fst c ++ " Issues" ++ Py.nl) ++
  cat_strings (map text_of_reason (snd c)).

Definition text_of_tree (tree : list category_entry) : string :=
  Py.nl ++ "SLURM Problems" ++ Py.nl ++ cat_strings (map text_of_category tree).

(** The two documents, given the tree of the SLURM problems. *)
Definition html_page (tree : list category_entry)
    (problem_rows recovery_rows other_rows : list Row) : string :=
  fold_left (fun html (p : list Row * string) => html_raw_table html (fst p) (snd p))
            (combine [problem_rows; recovery_rows; other_rows] phrases)
            ("<html>" ++ "<head></head>" ++ "<body>" ++ "<h1>SLURM Digest</h1>" ++
             "<hr>" ++ html_of_tree tree ++ "<hr>" ++ "<h2>Raw Output</h2>")
  ++ "</body>" ++ "</html>".

Definition text_page (tree : list category_entry)
    (problem_rows recovery_rows other_rows : list Row) : string :=
  fold_left (fun text (p : list Row * string) => text_raw_table text (fst p) (snd p))
            (combine [problem_rows; recovery_rows; other_rows] phrases)
            ("SLURM Digest" ++ Py.nl ++ text_of_tree tree ++ Py.nl ++ "Raw Output" ++
             Py.nl).

(** Clusters in alphabetical order under every reason, reasons in
    alphabetical order regardless of case under every category. *)
Definition tree_ordered (tree : list category_entry) : Prop :=
  Forall (fun c : category_entry =>
            StronglySorted lower_le (map fst (snd c)) /\
            Forall (fun r : reason_entry => StronglySorted string_le (map fst (snd r)))
                   (snd c))
         tree.

(** The rows that [get_digest_html] and [get_digest_text] hand to the
    renderers of the SLURM problems. *)
Definition slurm_buckets (problem_rows : list Row) : Dict.t (list Row) :=
  match Dict.get (get_rows_by_service problem_rows) "SLURM" with
  | Some slurm => get_rows_by_slurm_category slurm
  | None => []
  end.

(** The tree that [main] has the renderers write: the COMPUTE rows of the
    parsed file, of these the PROBLEM rows, of these the SLURM rows. *)
Definition pipeline_tree (parsed_file : list Row) : result (list category_entry) :=
  compute <- Dict.getitem (get_rows_by_host_type parsed_file) "COMPUTE" ;;
  problem_rows <- Dict.getitem (get_rows_by_notification_type compute) "PROBLEM" ;;
  report_tree (slurm_buckets problem_rows).

Definition category_labels : list string := ["Hardware"; "NHC"; "Software"; "Other"].

(** The tree with the four categories and no reason under any. *)
Definition empty_tree : list category_entry :=
  map (fun label => (label, [])) category_labels.

(** *** Batches used as examples *)

(** The plaintext digest of an empty batch, line by line. *)
Definition header_line : string :=
  "NOTIFICATION TYPE, SERVICE, HOST, ADDRESS, STATE, DATE/TIME, ADDITIONAL INFO".

Definition empty_digest_text : string :=
  Py.join Py.nl
    ["SLURM Digest"; "";
     "SLURM Problems"; "";
     Py.tb ++ "Hardware Issues"; "";
     Py.tb ++ "NHC Issues"; "";
     Py.tb ++ "Software Issues";
     Py.tb ++ "Other Issues"; "";
     "Raw Output"; "";
     "There are 0 new problems:"; header_line; "";
     "There are 0 new recoveries:"; header_line; "";
     "There are 0 other new changes:"; header_line; ""].

(** The markup digest of an empty batch, before it is pretty-printed. *)
Definition header_cells : string :=
  "<tr><th>NOTIFICATION TYPE</th><th>SERVICE</th><th>HOST</th><th>ADDRESS</th>" ++
  "<th>STATE</th><th>DATE/TIME</th><th>ADDITIONAL INFO</th></tr>".

Definition empty_digest_html : string :=
  "<html><head></head><body><h1>SLURM Digest</h1><hr>" ++
  "<h2>SLURM Problems</h2><table border=" ++ Py.dq ++ "1" ++ Py.dq ++ ">" ++
  "<tr>" ++ th_open ++ "Hardware Issues</th></tr>" ++
  "<tr>" ++ th_open ++ "NHC Issues</th></tr>" ++
  "<tr>" ++ th_open ++ "Software Issues</th></tr>" ++
  "<tr>" ++ th_open ++ "Other Issues</th></tr>" ++
  "</table><hr><h2>Raw Output</h2>" ++
  "<p>There are 0 new problems:</p><table>" ++ header_cells ++ "</table>" ++
  "<p>There are 0 new recoveries:</p><table>" ++ header_cells ++ "</table>" ++
  "<p>There are 0 other new changes:</p><table>" ++ header_cells ++ "</table>" ++
  "</body></html>".

(** A line of the change file. *)
Definition line_of (fields : list string) : string := Py.join "," fields ++ Py.nl.

(** The rows of the end-to-end scenario, as the specification gives them
    and with the cluster name in lower case. *)
Definition scenario_rows (cluster : string) : list Row :=
  [mkRow "PROBLEM" "SLURM" ("n0010." ++ cluster) "" "DOWN" "t1" "Hardware: Fan failure";
   mkRow "PROBLEM" "SLURM" ("n0011." ++ cluster) "" "DOWN" "t2" "Hardware: fan failure"].

(** The same rows as lines of the change file. *)
Definition scenario_lines (cluster : string) : list string :=
  [line_of ["PROBLEM"; "SLURM"; "n0010." ++ cluster; ""; "DOWN"; "t1";
            "Hardware: Fan failure"];
   line_of ["PROBLEM"; "SLURM"; "n0011." ++ cluster; ""; "DOWN"; "t2";
            "Hardware: fan failure"]].

Definition host_row (h : string) : Row := mkRow "PROBLEM" "SLURM" h "" "DOWN" "t" "".

(** Lines of a change file with six, seven and eight fields. *)
Definition six_fields : string :=
  line_of ["PROBLEM"; "SLURM"; "n0010.lr"; ""; "DOWN"; "t1"].
Definition seven_fields : string :=
  line_of ["PROBLEM"; "SLURM"; "n0010.lr"; ""; "DOWN"; "t1"; "Hardware: Fan failure"].
Definition eight_fields : string :=
  line_of ["PROBLEM"; "SLURM"; "n0010.lr"; ""; "DOWN"; "t1"; "Hardware: Fan failure";
           " again"].

(** The number that the three digits after [n0] write. *)
Definition node_number (d1 d2 d3 : ascii) : Z :=
  100 * Py.digit_value d1 + 10 * Py.digit_value d2 + Py.digit_value d3.

(** A batch with two reasons and two clusters. *)
Definition sample_rows : list Row :=
  [mkRow "PROBLEM" "SLURM" "n0010.lr" "" "DOWN" "t1" "Hardware: Fan failure";
   mkRow "PROBLEM" "SLURM" "n0003.mako" "" "DOWN" "t2" "Hardware:  bad   DIMM";
   mkRow "PROBLEM" "SLURM" "n0011.lr" "" "DOWN" "t3" "Hardware: fan failure";
   mkRow "PROBLEM" "SLURM" "n0004.lr" "" "DOWN" "t4" "Kernel panic"].

Definition sample_tree : list category_entry :=
  [("Hardware", [("bad DIMM", [("mako", "n0003")]);
                 ("Fan failure", [("lr", "n0010-n0011")])]);
   ("NHC", []);
   ("Software", []);
   ("Other", [("Kernel panic", [("lr", "n0004")])])].

(** *** Canonical reasons *)

(** The canonical reason in the words of the specification: the text
    after the first colon when the field starts with a recognized label
    and a colon, the whole field otherwise; whitespace runs collapsed to
    single spaces and the ends trimmed. *)
Fixpoint after_first_colon (s : string) : string :=
  match s with
  | "" => ""
  | String c s' => if Ascii.eqb ":" c then s' else after_first_colon s'
  end.

Definition collapse_whitespace (s : string) : string :=
  Py.join " " (Py.split_ws s).

Definition recognized_labels : list string :=
  [HW_label ++ ":"; NHC_label ++ ":"; SW_label ++ ":"].

Definition canonical_reason (additional_info : string) : string :=
  collapse_whitespace
    (if Py.startswith_any additional_info recognized_labels
     then after_first_colon additional_info
     else additional_info).

Definition no_space (s : string) : bool :=
  all_chars (fun c => negb (Py.is_space c)) s.

(** *** The splits *)

(** The rows held by the buckets of a split. *)
Definition buckets (d : Dict.t (list Row)) : list Row := List.concat (map snd d).

(** The grouping key of a row. *)
Definition reason_key (r : Row) : string :=
  Py.lower (slurm_reason (additional_info r)).

Definition is_slurm (r : Row) : bool := String.eqb (service r) "SLURM".

(** The predicates that decide the bucket of a row in each split. *)
Definition is_compute (r : Row) : bool := is_compute_host (host r).
Definition is_problem (r : Row) : bool := String.eqb (notification_type r) "PROBLEM".
Definition is_recovery (r : Row) : bool := String.eqb (notification_type r) "RECOVERY".
Definition is_hw (r : Row) : bool := Py.startswith (additional_info r) (HW_label ++ ":").
Definition is_nhc (r : Row) : bool := Py.startswith (additional_info r) (NHC_label ++ ":").
Definition is_sw (r : Row) : bool := Py.startswith (additional_info r) (SW_label ++ ":").

(** *** Groups of rows *)

(** What [if k not in d.keys(): d[k] = []] followed by [d[k].append(v)]
    makes of [d]. *)
Fixpoint group_add {V : Type} (d : Dict.t (list V)) (k : string) (v : V)
  : Dict.t (list V) :=
  match d with
  | [] => [(k, [v])]
  | (k', l) :: d' =>
      if String.eqb k k' then (k', (l ++ [v])%list) :: d'
      else (k', l) :: group_add d' k v
  end.

Definition reason_pair (r : Row) : string * Row :=
  (slurm_reason (additional_info r), r).

(** The dictionary [reasons] after the first loop of
    [get_rows_by_slurm_reason]. *)
Definition reasons_of (rows : list Row) (start : Dict.t (list (string * Row)))
  : Dict.t (list (string * Row)) :=
  fold_left (fun d r => if is_slurm r then group_add d (reason_key r) (reason_pair r)
                        else d)
            rows start.

(** The rows of service SLURM whose grouping key is [k], in input order. *)
Definition members (k : string) (rows : list Row) : list Row :=
  filter (fun r => is_slurm r && String.eqb (reason_key r) k) rows.

(** The entry of [output_reasons] made from an entry of [reasons]. *)
Definition new_key (e : string * list (string * Row)) : string :=
  match snd e with
  | [] => ""
  | p :: _ => fst p
  end.

Definition output_entry (e : string * list (string * Row)) : string * list Row :=
  (new_key e, map snd (snd e)).

Definition opt_app {V : Type} (o : option (list V)) (l : list V) : option (list V) :=
  match o, l with
  | None, [] => None
  | None, _ => Some l
  | Some l0, _ => Some (l0 ++ l)%list
  end.

(** *** The end of the compute pattern *)

(** The last two items of [COMPUTE_PATTERN]: [[a-z0-9]+$]. *)
Definition cluster_class : Re.atom := Re.Class [("a", "z"); ("0", "9")]%char.

Definition cluster_tail (t : string) : bool :=
  Re.match_here [Re.Plus cluster_class; Re.EndAnchor] t.

(** *** Notions of the further properties *)

(** A host that is, from its first character to its last, [n0], three
    digits, a dot and a cluster name of [[a-z0-9]]. *)
Definition exact_host (h : string) : Prop :=
  exists d1 d2 d3 cluster,
    h = "n0" ++ str3 d1 d2 d3 ++ String "." cluster /\
    Py.is_digit d1 = true /\ Py.is_digit d2 = true /\ Py.is_digit d3 = true /\
    cluster <> "" /\ all_chars is_cluster_char cluster = true.

(** The number of node numbers that a dictionary of clusters holds. *)
Definition nodes_count (clusters : Dict.t (list Z)) : nat :=
  List.length (List.concat (map snd clusters)).

(** The line that [get_digest_text] writes for a row of the raw output. *)
Definition dump_line (r : Row) : string := Py.join ", " (row_fields r) ++ Py.nl.

(** Every reason of the tree has a cluster, and every cluster a node
    list that is not the empty string. *)
Definition no_empty_leaf (tree : list category_entry) : Prop :=
  Forall (fun c : category_entry =>
            Forall (fun r : reason_entry =>
                      snd r <> [] /\
                      Forall (fun cl : cluster_entry => snd cl <> "") (snd r))
                   (snd c))
         tree.

(** A field as [parse_change_file] leaves it: stripped, and without the
    comma that delimits the fields. *)
Definition clean_field (f : string) : Prop :=
  Py.strip f = f /\ has_char "," f = false.

(** Under every category of the tree, the reasons are the display names
    of the groups that [get_rows_by_slurm_reason] makes of the rows of the
    category, in alphabetical order regardless of case. *)
Definition reasons_in_order (slurm_rows : Dict.t (list Row))
    (tree : list category_entry) : Prop :=
  Forall2 (fun (category : string) (c : category_entry) =>
             exists rows groups,
               Dict.getitem slurm_rows category = OK rows /\
               get_rows_by_slurm_reason rows = OK groups /\
               Permutation (map fst (snd c)) (Dict.keys groups) /\
               StronglySorted lower_le (map fst (snd c)))
          (Dict.keys slurm_rows) tree.

(** A text without a line break of its own. *)
Definition no_line_break (s : string) : bool :=
  negb (has_char Py.newline s) && negb (has_char Py.carriage_return s).

(** Contents made of whole lines: empty, or ended by a newline. *)
Definition whole_lines (contents : string) : Prop :=
  contents = "" \/ exists t, contents = t ++ Py.nl.

(** One line with its newline. *)
Definition one_line (line : string) : Prop :=
  exists body, line = body ++ Py.nl /\ no_line_break body = true.

(** * Properties *)

(** ** The helpers on examples *)

Example strip_example : Py.strip "  a b  " = "a b".
Proof. reflexivity. Qed.

Example split_ws_example : Py.split_ws "  a   b c " = ["a"; "b"; "c"].
Proof. reflexivity. Qed.

Example split_example : Py.split "a,b,,c" "," = OK ["a"; "b"; ""; "c"].
Proof. reflexivity. Qed.

Example split_two_characters : Py.split "a, b, c" ", " = OK ["a"; "b"; "c"].
Proof. reflexivity. Qed.

Example split_empty_separator : Py.split "a" "" = Raise ValueError.
Proof. reflexivity. Qed.

Example str_zero : Py.str 0 = "0".
Proof. reflexivity. Qed.

Example zfill_example : Py.zfill (Py.str 7) 4 = "0007".
Proof. reflexivity. Qed.

Example zfill_negative : Py.zfill (Py.str (-5)) 4 = "-005".
Proof. reflexivity. Qed.

Example zfill_wide : Py.zfill (Py.str 12345) 4 = "12345".
Proof. reflexivity. Qed.

Example int_leading_zeros : Py.int "0007" = OK 7.
Proof. reflexivity. Qed.

Example int_not_a_number : Py.int "dmin0001" = Raise ValueError.
Proof. reflexivity. Qed.

Example int_spaces :
  Py.int (" 7" ++ Py.nl) = OK 7 /\
  Py.int (String (ascii_of_nat 28) "7") = Raise ValueError /\
  Py.strip (String (ascii_of_nat 28) "7") = "7".
Proof. repeat split. Qed.

Example file_lines_example :
  file_lines ("a" ++ String Py.carriage_return Py.nl ++ Py.nl ++ "b"
              ++ String Py.carriage_return "c") =
  ["a" ++ Py.nl; Py.nl; "b" ++ Py.nl; "c"].
Proof. reflexivity. Qed.

Example sorted_is_stable :
  Py.sorted Py.lower String.leb ["b"; "A"; "a"; "B"] = ["A"; "a"; "b"; "B"].
Proof. reflexivity. Qed.

Example search_examples :
  map is_compute_host
      ["n0010.clustera"; "n0010.clusterA"; "n12345.clusterB"; "n1234.abc";
       "n0123xabc"; "admin0001.lr"; "n0007.lr.x"; "n0007."] =
  [true; false; false; false; true; true; false; false].
Proof. reflexivity. Qed.

Example reason_examples :
  map slurm_reason
      ["Hardware: Fan failure"; "Hardware:  fan   failure "; "NHC:check_fs: /tmp full";
       " Kernel  panic"; "Hardware but no colon"; "hardware: lower-case label"] =
  ["Fan failure"; "fan failure"; "check_fs: /tmp full";
   "Kernel panic"; "Hardware but no colon"; "hardware: lower-case label"].
Proof. reflexivity. Qed.

Example node_list_examples :
  map get_node_list_string [[9; 1; 3; 5; 7; 8; 8; 2]; [4]; [10000; 9999]; []] =
  [OK "n0001-n0003, n0005, n0007-n0009"; OK "n0004"; OK "n9999-n10000";
   Raise IndexError].
Proof. reflexivity. Qed.

(** ** Strings and the error monad *)

Lemma append_nil_r (s : string) : s ++ "" = s.
Proof. induction s; simpl; congruence. Qed.

Lemma append_assoc (a b c : string) : (a ++ b) ++ c = a ++ b ++ c.
Proof. induction a; simpl; congruence. Qed.

Lemma has_char_app (c : ascii) (a b : string) :
  has_char c (a ++ b) = has_char c a || has_char c b.
Proof.
  induction a as [|c' a IH]; simpl; [reflexivity|].
  now rewrite IH, orb_assoc.
Qed.

Lemma bind_OK {A B : Type} (m : result A) (k : A -> result B) (b : B) :
  bind m k = OK b -> exists a, m = OK a /\ k a = OK b.
Proof. destruct m; simpl; intros H; [eauto | discriminate]. Qed.

(** ** The splits are filters *)

Section Splits.
Local Open Scope list_scope.

Lemma perm_filter_split (A : Type) (p : A -> bool) (l : list A) :
  Permutation l (filter p l ++ filter (fun x => negb (p x)) l).
Proof.
  induction l as [|x l IH]; simpl; [constructor|].
  destruct (p x); simpl.
  - now constructor.
  - now apply Permutation_cons_app.
Qed.

Lemma filter_andb (A : Type) (p q : A -> bool) (l : list A) :
  filter (fun x => p x && q x) l = filter q (filter p l).
Proof.
  induction l as [|x l IH]; simpl; [reflexivity|].
  destruct (p x); simpl; [destruct (q x)|]; congruence.
Qed.

Lemma get_rows_by_host_type_eq (rows : list Row) :
  get_rows_by_host_type rows =
  [("COMPUTE"%string, filter is_compute rows);
   ("OTHER"%string, filter (fun r => negb (is_compute r)) rows)].
Proof.
  unfold get_rows_by_host_type.
  match goal with
  | |- context [fold_left ?F rows _] =>
      set (step := F);
      assert (H : forall l a b,
                 fold_left step l (a, b) =
                 (a ++ filter is_compute l,
                  b ++ filter (fun r => negb (is_compute r)) l))
  end.
  { induction l as [|r l IH]; intros a b; cbn [fold_left filter].
    - now rewrite !app_nil_r.
    - assert (E : step (a, b) r =
                  if is_compute r then (a ++ [r], b) else (a, b ++ [r]))
        by reflexivity.
      rewrite E. destruct (is_compute r); cbn [negb];
        rewrite IH, <- app_assoc; reflexivity. }
  rewrite H. reflexivity.
Qed.

Lemma get_rows_by_notification_type_eq (rows : list Row) :
  get_rows_by_notification_type rows =
  [("PROBLEM"%string, filter is_problem rows);
   ("RECOVERY"%string, filter (fun r => negb (is_problem r) && is_recovery r) rows);
   ("OTHER"%string,
    filter (fun r => negb (is_problem r) && negb (is_recovery r)) rows)].
Proof.
  unfold get_rows_by_notification_type.
  match goal with
  | |- context [fold_left ?F rows _] =>
      set (step := F);
      assert (H : forall l a b c,
                 fold_left step l (a, b, c) =
                 (a ++ filter is_problem l,
                  b ++ filter (fun r => negb (is_problem r) && is_recovery r) l,
                  c ++ filter (fun r => negb (is_problem r) && negb (is_recovery r)) l))
  end.
  { induction l as [|r l IH]; intros a b c; cbn [fold_left filter].
    - now rewrite !app_nil_r.
    - assert (E : step (a, b, c) r =
                  if is_problem r then (a ++ [r], b, c)
                  else if is_recovery r then (a, b ++ [r], c)
                       else (a, b, c ++ [r]))
        by reflexivity.
      rewrite E. destruct (is_problem r), (is_recovery r); cbn [negb andb];
        rewrite IH, <- ?app_assoc; reflexivity. }
  rewrite H. reflexivity.
Qed.

Lemma get_rows_by_service_eq (rows : list Row) :
  get_rows_by_service rows =
  [("SLURM"%string, filter is_slurm rows);
   ("OTHER"%string, filter (fun r => negb (is_slurm r)) rows)].
Proof.
  unfold get_rows_by_service.
  match goal with
  | |- context [fold_left ?F rows _] =>
      set (step := F);
      assert (H : forall l a b,
                 fold_left step l (a, b) =
                 (a ++ filter is_slurm l,
                  b ++ filter (fun r => negb (is_slurm r)) l))
  end.
  { induction l as [|r l IH]; intros a b; cbn [fold_left filter].
    - now rewrite !app_nil_r.
    - assert (E : step (a, b) r =
                  if is_slurm r then (a ++ [r], b) else (a, b ++ [r]))
        by reflexivity.
      rewrite E. destruct (is_slurm r); cbn [negb];
        rewrite IH, <- app_assoc; reflexivity. }
  rewrite H. reflexivity.
Qed.

Lemma get_rows_by_slurm_category_eq (rows : list Row) :
  get_rows_by_slurm_category rows =
  [("HW"%string, filter (fun r => is_slurm r && is_hw r) rows);
   ("NHC"%string, filter (fun r => is_slurm r && (negb (is_hw r) && is_nhc r)) rows);
   ("SW"%string,
    filter (fun r => is_slurm r && (negb (is_hw r) && (negb (is_nhc r) && is_sw r)))
           rows);
   ("OTHER"%string,
    filter (fun r => is_slurm r &&
                     (negb (is_hw r) && (negb (is_nhc r) && negb (is_sw r))))
           rows)].
Proof.
  unfold get_rows_by_slurm_category.
  match goal with
  | |- context [fold_left ?F rows _] =>
      set (step := F);
      assert (H : forall l a b c d,
                 fold_left step l (a, b, c, d) =
                 (a ++ filter (fun r => is_slurm r && is_hw r) l,
                  b ++ filter (fun r => is_slurm r && (negb (is_hw r) && is_nhc r)) l,
                  c ++ filter (fun r => is_slurm r &&
                                 (negb (is_hw r) && (negb (is_nhc r) && is_sw r))) l,
                  d ++ filter (fun r => is_slurm r &&
                                 (negb (is_hw r) && (negb (is_nhc r) && negb (is_sw r)))) l))
  end.
  { induction l as [|r l IH]; intros a b c d; cbn [fold_left filter].
    - now rewrite !app_nil_r.
    - assert (E : step (a, b, c, d) r =
                  if is_slurm r then
                    if is_hw r then (a ++ [r], b, c, d)
                    else if is_nhc r then (a, b ++ [r], c, d)
                         else if is_sw r then (a, b, c ++ [r], d)
                              else (a, b, c, d ++ [r])
                  else (a, b, c, d))
        by reflexivity.
      rewrite E.
      destruct (is_slurm r), (is_hw r), (is_nhc r), (is_sw r); cbn [negb andb];
        rewrite IH, <- ?app_assoc; reflexivity. }
  rewrite H. reflexivity.
Qed.

Lemma perm_split3 (A : Type) (p q : A -> bool) (l : list A) :
  Permutation l
    (filter p l ++ filter (fun x => negb (p x) && q x) l ++
     filter (fun x => negb (p x) && negb (q x)) l).
Proof.
  rewrite (filter_andb (fun x => negb (p x)) q),
          (filter_andb (fun x => negb (p x)) (fun x => negb (q x))).
  etransitivity; [apply (perm_filter_split p)|].
  apply Permutation_app_head, perm_filter_split.
Qed.

Lemma perm_split4 (A : Type) (p q s : A -> bool) (l : list A) :
  Permutation l
    (filter p l ++ filter (fun x => negb (p x) && q x) l ++
     filter (fun x => negb (p x) && (negb (q x) && s x)) l ++
     filter (fun x => negb (p x) && (negb (q x) && negb (s x))) l).
Proof.
  rewrite (filter_andb (fun x => negb (p x)) q),
          (filter_andb (fun x => negb (p x)) (fun x => negb (q x) && s x)),
          (filter_andb (fun x => negb (p x)) (fun x => negb (q x) && negb (s x))).
  etransitivity; [apply (perm_filter_split p)|].
  apply Permutation_app_head, perm_split3.
Qed.

Lemma slurm_buckets_eq (problem_rows : list Row) :
  slurm_buckets problem_rows =
  get_rows_by_slurm_category (filter is_slurm problem_rows).
Proof. unfold slurm_buckets. rewrite get_rows_by_service_eq. reflexivity. Qed.

(** The buckets of each split, put end to end, are a rearrangement of the
    rows the split accepts. *)
Lemma filter_true (A : Type) (p : A -> bool) (l : list A) :
  (forall x, In x l -> p x = true) -> filter p l = l.
Proof.
  induction l as [|x l IH]; intros H; [reflexivity|].
  cbn [filter]. rewrite (H x (in_eq _ _)). f_equal. apply IH.
  intros y Hy. apply H. now right.
Qed.

Lemma splits_are_partitions (rows : list Row) :
  Permutation rows (buckets (get_rows_by_host_type rows)) /\
  Permutation rows (buckets (get_rows_by_notification_type rows)) /\
  Permutation rows (buckets (get_rows_by_service rows)) /\
  Permutation (filter is_slurm rows) (buckets (get_rows_by_slurm_category rows)).
Proof.
  rewrite get_rows_by_host_type_eq, get_rows_by_notification_type_eq,
          get_rows_by_service_eq, get_rows_by_slurm_category_eq.
  unfold buckets; cbn [map snd List.concat]. rewrite !app_nil_r.
  repeat split.
  - apply perm_filter_split.
  - apply perm_split3.
  - apply perm_filter_split.
  - rewrite !(filter_andb is_slurm). apply perm_split4.
Qed.
End Splits.

(** ** The compute pattern *)

Section ComputePattern.

Lemma cluster_class_matches (c : ascii) :
  Re.atom_matches cluster_class c = is_cluster_char c.
Proof. unfold is_cluster_char; simpl. now rewrite orb_false_r. Qed.

Lemma cluster_tail_cons (c : ascii) (t : string) :
  cluster_tail (String c t) = is_cluster_char c && (Re.at_end t || cluster_tail t).
Proof.
  unfold cluster_tail. cbn [Re.match_here].
  rewrite cluster_class_matches, andb_true_r. reflexivity.
Qed.

Lemma at_end_iff (t : string) : Re.at_end t = true <-> t = "" \/ t = Py.nl.
Proof.
  destruct t as [|c [|c' t]]; simpl.
  - intuition.
  - rewrite Ascii.eqb_eq. unfold Py.nl. split.
    + intros ->. now right.
    + intros [H|H]; [discriminate | now inversion H].
  - split; [discriminate | intros [H|H]; discriminate].
Qed.

Lemma cluster_tail_iff (t : string) :
  cluster_tail t = true <->
  exists cluster,
    cluster <> "" /\ all_chars is_cluster_char cluster = true /\
    (t = cluster \/ t = cluster ++ Py.nl).
Proof.
  induction t as [|c t IH].
  - split; [discriminate|].
    intros (cl & Hne & _ & [H|H]); destruct cl; simpl in H; congruence.
  - rewrite cluster_tail_cons, andb_true_iff, orb_true_iff, at_end_iff, IH.
    split.
    + intros [Hc [[->| ->]|(cl & Hne & Hall & Ht)]].
      * exists (String c ""). simpl. rewrite Hc. repeat split; auto; discriminate.
      * exists (String c ""). simpl. rewrite Hc. repeat split; auto; discriminate.
      * exists (String c cl). simpl. rewrite Hc, Hall.
        repeat split; [discriminate|]. destruct Ht as [->| ->]; auto.
    + intros (cl & Hne & Hall & Ht).
      destruct cl as [|c' cl]; [congruence|].
      simpl in Hall. apply andb_true_iff in Hall as [Hc' Hall].
      assert (c = c' /\ (t = cl \/ t = cl ++ Py.nl)) as [<- Ht'].
      { destruct Ht as [Ht|Ht]; simpl in Ht; inversion Ht; auto. }
      split; [assumption|].
      destruct cl as [|c2 cl].
      * left. simpl in Ht'. exact Ht'.
      * right. exists (String c2 cl). repeat split; auto; discriminate.
Qed.

Lemma match_here_compute (s : string) :
  Re.match_here COMPUTE_PATTERN s = true <->
  exists d1 d2 d3 sep t,
    s = "n0" ++ str3 d1 d2 d3 ++ String sep t /\
    Py.is_digit d1 = true /\ Py.is_digit d2 = true /\ Py.is_digit d3 = true /\
    sep <> Py.newline /\ cluster_tail t = true.
Proof.
  split.
  - intros H.
    destruct s as [|c0 [|c1 [|d1 [|d2 [|d3 [|sep t]]]]]];
      cbn [COMPUTE_PATTERN Re.match_here Re.atom_matches] in H;
      rewrite ?andb_false_r in H; try discriminate.
    repeat (apply andb_true_iff in H as [?H H]).
    match goal with
    | Hn : Ascii.eqb "n" c0 = true, H0 : Ascii.eqb "0" c1 = true |- _ =>
        apply Ascii.eqb_eq in Hn, H0; subst c0 c1
    end.
    exists d1, d2, d3, sep, t. repeat split; auto.
    intros ->. match goal with Hs : negb _ = true |- _ => now rewrite Ascii.eqb_refl in Hs end.
  - intros (d1 & d2 & d3 & sep & t & -> & H1 & H2 & H3 & Hs & Ht).
    cbn [append str3 COMPUTE_PATTERN Re.match_here Re.atom_matches].
    rewrite H1, H2, H3. cbn [andb Ascii.eqb Bool.eqb].
    apply Ascii.eqb_neq in Hs. rewrite Hs. exact Ht.
Qed.

Lemma search_iff (p : Re.pattern) (s : string) :
  Re.search p s = true <->
  exists pre t, s = pre ++ t /\ Re.match_here p t = true.
Proof.
  induction s as [|c s IH]; cbn [Re.search].
  - rewrite orb_false_r. split.
    + intros H. now exists "", "".
    + intros (pre & t & E & H). destruct pre; [|discriminate].
      simpl in E. now subst.
  - rewrite orb_true_iff, IH. split.
    + intros [H|(pre & t & -> & H)].
      * now exists "", (String c s).
      * now exists (String c pre), t.
    + intros (pre & t & E & H). destruct pre as [|c' pre]; simpl in E.
      * left. now subst.
      * right. inversion E; subst. now exists pre, t.
Qed.

(** The hosts that [COMPUTE_PATTERN] finds, exactly. *)
Lemma is_compute_host_iff (h : string) :
  is_compute_host h = true <->
  exists sep h',
    sep <> Py.newline /\ (h = h' \/ h = h' ++ Py.nl) /\ node_shape sep h'.
Proof.
  unfold is_compute_host. rewrite search_iff. split.
  - intros (pre & t & -> & H).
    apply match_here_compute in H
      as (d1 & d2 & d3 & sep & t' & -> & H1 & H2 & H3 & Hs & Ht).
    apply cluster_tail_iff in Ht as (cl & Hne & Hall & Ht).
    exists sep, (pre ++ "n0" ++ str3 d1 d2 d3 ++ String sep cl).
    split; [assumption|]. split.
    + destruct Ht as [->| ->]; [now left|right].
      rewrite !append_assoc. reflexivity.
    + exists pre, d1, d2, d3, cl. auto 10.
  - intros (sep & h' & Hs & Hh & pre & d1 & d2 & d3 & cl & -> & H1 & H2 & H3 & Hne & Hall).
    exists pre. destruct Hh as [->| ->].
    + eexists. split; [reflexivity|].
      apply match_here_compute. exists d1, d2, d3, sep, cl.
      repeat split; auto. apply cluster_tail_iff. exists cl. auto.
    + exists ("n0" ++ str3 d1 d2 d3 ++ String sep (cl ++ Py.nl)). split.
      * rewrite !append_assoc. reflexivity.
      * apply match_here_compute. exists d1, d2, d3, sep, (cl ++ Py.nl).
        repeat split; auto. apply cluster_tail_iff. exists cl. auto.
Qed.

End ComputePattern.

(** ** The order of strings *)

Lemma string_leb_total (a b : string) : String.leb a b = false -> String.leb b a = true.
Proof. intros H. destruct (String.leb_total a b); congruence. Qed.

Lemma string_leb_trans (a b c : string) :
  String.leb a b = true -> String.leb b c = true -> String.leb a c = true.
Proof.
  unfold String.leb. revert b c.
  induction a as [|x a IH]; intros [|y b] [|z c]; cbn [String.compare];
    try reflexivity; try discriminate.
  unfold Ascii.compare.
  destruct (N.compare_spec (N_of_ascii x) (N_of_ascii y)) as [Exy|Lxy|Gxy];
    destruct (N.compare_spec (N_of_ascii y) (N_of_ascii z)) as [Eyz|Lyz|Gyz];
    destruct (N.compare_spec (N_of_ascii x) (N_of_ascii z)) as [Exz|Lxz|Gxz];
    try discriminate; try reflexivity; try (exfalso; lia); try apply IH.
Qed.

(** ** Sorting *)

Section SortedFacts.
Local Open Scope list_scope.
Variables (A K : Type) (key : A -> K) (leb : K -> K -> bool).
Hypothesis leb_total : forall a b, leb a b = false -> leb b a = true.
Hypothesis leb_trans : forall a b c, leb a b = true -> leb b c = true -> leb a c = true.

Lemma insert_sorted_perm (x : A) (l : list A) :
  Permutation (Py.insert_sorted key leb x l) (x :: l).
Proof.
  induction l as [|y l IH]; simpl; [reflexivity|].
  destruct (leb (key y) (key x)); [|reflexivity].
  rewrite IH. apply perm_swap.
Qed.

Lemma sorted_fold_perm (l acc : list A) :
  Permutation (fold_left (fun acc x => Py.insert_sorted key leb x acc) l acc)
              (acc ++ l).
Proof.
  revert acc. induction l as [|x l IH]; intros acc; simpl.
  - now rewrite app_nil_r.
  - rewrite IH, insert_sorted_perm. apply Permutation_middle.
Qed.

Lemma sorted_perm (l : list A) : Permutation (Py.sorted key leb l) l.
Proof. apply (sorted_fold_perm l []). Qed.

Lemma insert_sorted_hd (a x : A) (l : list A) :
  key_le key leb a x -> HdRel (key_le key leb) a l ->
  HdRel (key_le key leb) a (Py.insert_sorted key leb x l).
Proof.
  intros Hax Hal. destruct l as [|y l]; simpl.
  - now constructor.
  - destruct (leb (key y) (key x)); constructor; auto.
    now inversion Hal.
Qed.

Lemma insert_sorted_Sorted (x : A) (l : list A) :
  Sorted (key_le key leb) l -> Sorted (key_le key leb) (Py.insert_sorted key leb x l).
Proof.
  induction 1 as [|y l Hs IH Hhd]; simpl.
  - repeat constructor.
  - destruct (leb (key y) (key x)) eqn:E.
    + constructor; [assumption|]. now apply insert_sorted_hd.
    + constructor; [now constructor|]. constructor. now apply leb_total.
Qed.

Lemma sorted_Sorted (l : list A) : Sorted (key_le key leb) (Py.sorted key leb l).
Proof.
  unfold Py.sorted.
  assert (H : forall acc, Sorted (key_le key leb) acc ->
              Sorted (key_le key leb)
                     (fold_left (fun acc x => Py.insert_sorted key leb x acc) l acc)).
  { induction l as [|x l IH]; intros acc Hacc; simpl; [assumption|].
    apply IH, insert_sorted_Sorted, Hacc. }
  apply H. constructor.
Qed.

Lemma sorted_StronglySorted (l : list A) :
  StronglySorted (key_le key leb) (Py.sorted key leb l).
Proof.
  apply Sorted_StronglySorted; [|apply sorted_Sorted].
  intros a b c. apply leb_trans.
Qed.
End SortedFacts.

(** ** Node ranges *)

Section Ranges.
Local Open Scope list_scope.

Lemma sorted_set_perm (l : list Z) : Permutation (sorted_set l) (nodup Z.eq_dec l).
Proof. apply sorted_perm. Qed.

Lemma sorted_set_In (l : list Z) (x : Z) : In x (sorted_set l) <-> In x l.
Proof.
  split; intros H.
  - apply (nodup_In Z.eq_dec). revert H. apply Permutation_in, sorted_set_perm.
  - apply (nodup_In Z.eq_dec) in H. revert H.
    apply Permutation_in. symmetry. apply sorted_set_perm.
Qed.

Lemma sorted_set_NoDup (l : list Z) : NoDup (sorted_set l).
Proof.
  eapply Permutation_NoDup; [symmetry; apply sorted_set_perm|].
  apply NoDup_nodup.
Qed.

Lemma sorted_set_ascending (l : list Z) : StronglySorted Z.lt (sorted_set l).
Proof.
  assert (Hs : StronglySorted Z.le (sorted_set l)).
  { assert (H0 : StronglySorted (key_le (fun n : Z => n) Z.leb) (sorted_set l)).
    { apply sorted_StronglySorted.
      - intros a b Hab. apply Z.leb_le. apply Z.leb_gt in Hab. lia.
      - intros a b c. rewrite !Z.leb_le. lia. }
    induction H0 as [|a l0 _ IH Hall]; constructor; [assumption|].
    eapply Forall_impl; [|exact Hall]. intros b Hb. apply Z.leb_le. exact Hb. }
  pose proof (sorted_set_NoDup l) as Hn.
  induction Hs as [|a l0 Hs IH Hall]; [constructor|].
  inversion Hn as [|? ? Hnotin Hn']; subst.
  constructor; [now apply IH|].
  rewrite Forall_forall in *. intros x Hx.
  specialize (Hall x Hx). assert (a <> x) by (intros ->; contradiction). lia.
Qed.

Lemma sorted_set_nil (l : list Z) : sorted_set l = [] <-> l = [].
Proof.
  split; [|intros ->; reflexivity].
  intros H. destruct l as [|x l]; [reflexivity|].
  assert (Hin : In x (sorted_set (x :: l))) by (apply sorted_set_In; now left).
  rewrite H in Hin. contradiction.
Qed.

(** The state of the sweep once the loop is over. *)
Lemma sweep_runs (l : list Z) :
  forall entries first last,
    (st <- foldM sweep_step l (entries, Some (first, last)) ;;
     entry <- get_consecutive_string (snd st) ;;
     OK (fst st ++ [entry])) =
    OK (entries ++ map render_interval (runs first last l)).
Proof.
  induction l as [|x l IH]; intros entries first last.
  - reflexivity.
  - cbn [foldM sweep_step runs]. destruct (x =? last + 1).
    + cbn [bind]. apply IH.
    + cbn [bind get_consecutive_string]. rewrite IH, <- app_assoc. reflexivity.
Qed.

Lemma get_node_list_string_eq (l : list Z) :
  get_node_list_string l =
  match sorted_set l with
  | [] => Raise IndexError
  | _ :: _ => OK (Py.join ", " (map render_interval (compress l)))
  end.
Proof.
  unfold get_node_list_string, compress.
  destruct (sorted_set l) as [|x l']; [reflexivity|].
  cbn [foldM sweep_step bind].
  pose proof (sweep_runs l' [] x x) as H.
  destruct (foldM sweep_step l' ([], Some (x, x))) as [st|e]; cbn [bind] in *;
    [|discriminate].
  destruct (get_consecutive_string (snd st)); cbn [bind] in *; [|discriminate].
  inversion H. reflexivity.
Qed.

Lemma interval_elements_single (x : Z) : interval_elements (x, x) = [x].
Proof.
  unfold interval_elements; simpl.
  replace (x + 1 - x) with 1 by lia. simpl. f_equal. lia.
Qed.

Lemma interval_elements_extend (first last : Z) :
  first <= last ->
  interval_elements (first, last + 1) = interval_elements (first, last) ++ [last + 1].
Proof.
  intros H. unfold interval_elements; cbn [fst snd].
  replace (Z.to_nat (last + 1 + 1 - first)) with (S (Z.to_nat (last + 1 - first)))
    by lia.
  rewrite seq_S, map_app. cbn [map plus]. do 2 f_equal. lia.
Qed.

Lemma expand_runs (l : list Z) :
  forall first last,
    first <= last ->
    expand (runs first last l) = interval_elements (first, last) ++ l.
Proof.
  induction l as [|x l IH]; intros first last H; cbn [runs].
  - unfold expand; simpl. reflexivity.
  - destruct (Z.eqb_spec x (last + 1)) as [->|Hne].
    + rewrite IH by lia. rewrite interval_elements_extend by assumption.
      now rewrite <- app_assoc.
    + unfold expand in *. cbn [flat_map]. rewrite IH by lia.
      now rewrite interval_elements_single.
Qed.

Lemma expand_compress (l : list Z) : expand (compress l) = sorted_set l.
Proof.
  unfold compress. destruct (sorted_set l) as [|x l']; [reflexivity|].
  rewrite expand_runs by lia. now rewrite interval_elements_single.
Qed.

Lemma runs_head (l : list Z) (first last : Z) :
  exists last' rest, runs first last l = (first, last') :: rest.
Proof.
  revert first last. induction l as [|x l IH]; intros first last; cbn [runs].
  - eauto.
  - destruct (x =? last + 1); eauto.
Qed.

Lemma runs_separated (l : list Z) :
  forall first last,
    first <= last -> StronglySorted Z.lt (last :: l) ->
    separated (runs first last l).
Proof.
  induction l as [|x l IH]; intros first last Hle Hs; cbn [runs].
  - simpl. auto.
  - inversion Hs as [|? ? Hs' Hall]; subst.
    inversion Hall as [|? ? Hlt _]; subst.
    destruct (Z.eqb_spec x (last + 1)) as [->|Hne].
    + apply IH; [lia|assumption].
    + destruct (runs_head l x x) as (last' & rest & E).
      cbn [separated]. rewrite E. cbn [fst snd].
      split; [assumption|]. split; [lia|].
      rewrite <- E. apply IH; [lia|assumption].
Qed.

Lemma compress_separated (l : list Z) : separated (compress l).
Proof.
  unfold compress. pose proof (sorted_set_ascending l) as Hs.
  destruct (sorted_set l) as [|x l']; [exact I|].
  apply runs_separated; [lia|assumption].
Qed.
End Ranges.

(** ** Reading the range notation back *)

Section RoundTrip.
Local Open Scope list_scope.

Lemma padded_reads_back_all :
  forallb (fun k => padded_reads_back (Z.of_nat k)) (seq 0 (Z.to_nat 10000)) = true.
Proof. vm_compute. reflexivity. Qed.

Lemma padded_facts (n : Z) :
  four_digit n = true ->
  has_char "-" (padded n) = false /\ has_char "," (padded n) = false /\
  Py.int (padded n) = OK n.
Proof.
  unfold four_digit. rewrite andb_true_iff, !Z.leb_le. intros [H0 H1].
  pose proof (proj1 (forallb_forall _ _) padded_reads_back_all (Z.to_nat n)) as H.
  cbv beta in H. rewrite Z2Nat.id in H by assumption.
  assert (Hin : In (Z.to_nat n) (seq 0 (Z.to_nat 10000))) by (apply in_seq; lia).
  specialize (H Hin). unfold padded_reads_back in H.
  apply andb_true_iff in H as [H Hint]. apply andb_true_iff in H as [Hd Hc].
  apply negb_true_iff in Hd, Hc.
  destruct (Py.int (padded n)) as [m|]; [|discriminate].
  apply Z.eqb_eq in Hint. subst. auto.
Qed.

Lemma prefix_two_no (c1 c2 c : ascii) (rest : string) :
  Ascii.eqb c1 c = false ->
  String.prefix (String c1 (String c2 "")) (String c rest) = false.
Proof.
  intros H. cbn [String.prefix]. destruct (ascii_dec c1 c) as [->|]; [|reflexivity].
  now rewrite Ascii.eqb_refl in H.
Qed.

Lemma prefix_two_yes (c1 c2 : ascii) (rest : string) :
  String.prefix (String c1 (String c2 "")) (String c1 (String c2 rest)) = true.
Proof.
  cbn [String.prefix].
  destruct (ascii_dec c1 c1); [|congruence]. destruct (ascii_dec c2 c2); [|congruence].
  destruct rest; reflexivity.
Qed.

Lemma split_two_free (c1 c2 : ascii) (s : string) :
  forall cur,
    has_char c1 s = false ->
    Py.split_from (String c1 (String c2 "")) s 0 cur = [(cur ++ s)%string].
Proof.
  induction s as [|c s IH]; intros cur H; cbn [Py.split_from].
  - now rewrite append_nil_r.
  - cbn [has_char] in H. apply orb_false_iff in H as [Hc Hs].
    rewrite prefix_two_no, IH by assumption. now rewrite append_assoc.
Qed.

Lemma split_two_sep (c1 c2 : ascii) (a b : string) :
  forall cur,
    has_char c1 a = false ->
    Py.split_from (String c1 (String c2 "")) (a ++ String c1 (String c2 b)) 0 cur =
    (cur ++ a)%string :: Py.split_from (String c1 (String c2 "")) b 0 "".
Proof.
  induction a as [|c a IH]; intros cur H; cbn [append].
  - cbn [Py.split_from]. rewrite prefix_two_yes, append_nil_r. reflexivity.
  - cbn [has_char] in H. apply orb_false_iff in H as [Hc Hs].
    cbn [Py.split_from]. rewrite prefix_two_no, IH by assumption.
    now rewrite append_assoc.
Qed.

Lemma split_join_comma (e : string) (es : list string) :
  Forall (fun e => has_char "," e = false) (e :: es) ->
  Py.split_from ", " (Py.join ", " (e :: es)) 0 "" = e :: es.
Proof.
  revert e. induction es as [|e' es IH]; intros e H; inversion H as [|? ? He Hes]; subst.
  - cbn [Py.join]. now rewrite split_two_free.
  - change (Py.join ", " (e :: e' :: es))
      with (e ++ String "," (String " " (Py.join ", " (e' :: es))))%string.
    rewrite split_two_sep by assumption. now rewrite IH.
Qed.

Lemma str_form_padded (n : Z) : str_form n = String "n" (padded n).
Proof. reflexivity. Qed.

Lemma render_interval_no_comma (a b : Z) :
  four_digit a = true -> four_digit b = true ->
  has_char "," (render_interval (a, b)) = false.
Proof.
  intros Ha Hb. destruct (padded_facts a Ha) as (_ & Ca & _).
  destruct (padded_facts b Hb) as (_ & Cb & _).
  unfold render_interval. cbn [fst snd]. rewrite !str_form_padded.
  destruct (a =? b); cbn [append has_char Ascii.eqb Bool.eqb orb];
    rewrite ?has_char_app; cbn [has_char Ascii.eqb Bool.eqb orb];
    now rewrite ?Ca, ?Cb.
Qed.

Lemma startswith_n (rest : string) : Py.startswith (String "n" rest) "n" = true.
Proof. unfold Py.startswith. cbn [String.prefix]. destruct rest; reflexivity. Qed.

Lemma expand_entry_render (a b : Z) :
  a <= b -> four_digit a = true -> four_digit b = true ->
  expand_entry (render_interval (a, b)) = OK (interval_elements (a, b)).
Proof.
  intros Hab Ha Hb. destruct (padded_facts a Ha) as (Da & _ & Ia).
  destruct (padded_facts b Hb) as (Db & _ & Ib).
  unfold render_interval, expand_entry, Py.split. cbn [fst snd Py.is_empty bind].
  rewrite !str_form_padded. destruct (Z.eqb_spec a b) as [<-|Hne].
  - rewrite split_two_free
      by (cbn [has_char Ascii.eqb Bool.eqb orb]; exact Da).
    cbn [append]. rewrite startswith_n.
    change (Py.slice_from (String "n" (padded a)) 1) with (padded a).
    rewrite Ia. cbn [bind]. now rewrite interval_elements_single.
  - change (String "n" (padded a) ++ "-" ++ String "n" (padded b))%string
      with (String "n" (padded a) ++ String "-" (String "n" (padded b)))%string.
    rewrite split_two_sep
      by (cbn [has_char Ascii.eqb Bool.eqb orb]; exact Da).
    rewrite split_two_free by exact Db.
    cbn [append]. rewrite startswith_n.
    change (Py.slice_from (String "n" (padded a)) 1) with (padded a).
    rewrite Ia, Ib. reflexivity.
Qed.

Lemma runs_bounds (l : list Z) :
  forall first last i,
    In i (runs first last l) -> In (fst i) (first :: l) /\ In (snd i) (last :: l).
Proof.
  induction l as [|x l IH]; intros first last i; cbn [runs].
  - intros [<-|[]]. cbn [fst snd]. split; now left.
  - destruct (x =? last + 1).
    + intros H. apply IH in H as [H1 H2]. split.
      * destruct H1 as [<-|H1]; [now left|right; now right].
      * right. exact H2.
    + intros [<-|H].
      * cbn [fst snd]. split; now left.
      * apply IH in H as [H1 H2]. split; right; assumption.
Qed.

Lemma compress_bounds (l : list Z) (i : Z * Z) :
  In i (compress l) -> In (fst i) l /\ In (snd i) l.
Proof.
  unfold compress. destruct (sorted_set l) as [|x l'] eqn:E; [contradiction|].
  intros H. apply runs_bounds in H as [H1 H2].
  rewrite <- E in H1, H2. now rewrite !sorted_set_In in *.
Qed.

Lemma separated_In (ivs : list (Z * Z)) (i : Z * Z) :
  separated ivs -> In i ivs -> fst i <= snd i.
Proof.
  induction ivs as [|j ivs IH]; [contradiction|].
  cbn [separated]. intros (Hj & _ & Hs) [<-|Hin]; auto.
Qed.

Lemma mapM_expand_entries (ivs : list (Z * Z)) :
  (forall i, In i ivs ->
     fst i <= snd i /\ four_digit (fst i) = true /\ four_digit (snd i) = true) ->
  mapM expand_entry (map render_interval ivs) = OK (map interval_elements ivs).
Proof.
  induction ivs as [|[a b] ivs IH]; intros H; [reflexivity|].
  cbn [map mapM]. destruct (H (a, b) (in_eq _ _)) as (Hab & Ha & Hb).
  cbn [fst snd] in *. rewrite expand_entry_render by assumption. cbn [bind].
  rewrite IH; [reflexivity|]. intros i Hi. apply H. now right.
Qed.

(** For node numbers of at most four digits, the string that
    [get_node_list_string] writes reads back as the sorted numbers. *)
Lemma node_list_round_trip (node_list : list Z) :
  node_list <> [] ->
  (forall n, In n node_list -> four_digit n = true) ->
  exists s,
    get_node_list_string node_list = OK s /\
    expand_node_list_string s = OK (sorted_set node_list).
Proof.
  intros Hne H4. eexists. split.
  { rewrite get_node_list_string_eq.
    destruct (sorted_set node_list) eqn:E; [|reflexivity].
    apply (proj1 (sorted_set_nil node_list)) in E. contradiction. }
  assert (Hivs : forall i, In i (compress node_list) ->
                   fst i <= snd i /\ four_digit (fst i) = true /\
                   four_digit (snd i) = true).
  { intros i Hi. split; [apply (separated_In _ _ (compress_separated node_list) Hi)|].
    apply compress_bounds in Hi as [H1 H2]. auto. }
  rewrite <- (expand_compress node_list).
  destruct (compress node_list) as [|[a b] ivs] eqn:E.
  { exfalso. apply Hne, sorted_set_nil. rewrite <- expand_compress, E. reflexivity. }
  unfold expand_node_list_string.
  assert (Hs : Py.is_empty (Py.join ", " (map render_interval ((a, b) :: ivs))) = false).
  { cbn [map]. unfold render_interval at 1. cbn [fst snd]. rewrite !str_form_padded.
    destruct (a =? b), (map render_interval ivs); reflexivity. }
  rewrite Hs. unfold Py.split. cbn [Py.is_empty bind]. cbn [map].
  rewrite split_join_comma.
  - change (render_interval (a, b) :: map render_interval ivs)
      with (map render_interval ((a, b) :: ivs)).
    rewrite mapM_expand_entries by exact Hivs. cbn [bind].
    unfold expand. now rewrite flat_map_concat_map.
  - change (render_interval (a, b) :: map render_interval ivs)
      with (map render_interval ((a, b) :: ivs)).
    apply Forall_forall. intros e He. apply in_map_iff in He as ([a' b'] & <- & Hi).
    destruct (Hivs _ Hi) as (_ & Ha' & Hb'). now apply render_interval_no_comma.
Qed.
End RoundTrip.

(** ** Dictionaries *)

Section DictFacts.
Local Open Scope list_scope.
Variable V : Type.
Implicit Types (d : Dict.t V) (k : string).

Lemma contains_In d k : Dict.contains d k = true <-> In k (Dict.keys d).
Proof.
  unfold Dict.contains. rewrite existsb_exists. split.
  - intros (x & Hx & E). apply String.eqb_eq in E. now subst.
  - intros H. exists k. split; [assumption|apply String.eqb_refl].
Qed.

Lemma contains_false d k : Dict.contains d k = false <-> ~ In k (Dict.keys d).
Proof.
  rewrite <- contains_In. destruct (Dict.contains d k); intuition congruence.
Qed.

Lemma get_None d k : Dict.get d k = None <-> ~ In k (Dict.keys d).
Proof.
  induction d as [|[k' v] d IH]; simpl; [intuition|].
  destruct (String.eqb_spec k k') as [->|Hne].
  - split; [discriminate|]. intros H. exfalso. apply H. now left.
  - rewrite IH. intuition congruence.
Qed.

Lemma get_In d k v : Dict.get d k = Some v -> In (k, v) d.
Proof.
  induction d as [|[k' v'] d IH]; simpl; [discriminate|].
  destruct (String.eqb_spec k k') as [->|Hne].
  - intros [= ->]. now left.
  - intros H. right. now apply IH.
Qed.

Lemma In_get d k v : NoDup (Dict.keys d) -> In (k, v) d -> Dict.get d k = Some v.
Proof.
  induction d as [|[k' v'] d IH]; simpl; [contradiction|].
  intros Hn [E|Hin]; inversion Hn as [|? ? Hnotin Hn']; subst.
  - inversion E; subst. now rewrite String.eqb_refl.
  - destruct (String.eqb_spec k k') as [->|Hne].
    + exfalso. apply Hnotin. change k' with (fst (k', v)). now apply in_map.
    + now apply IH.
Qed.

Lemma set_fresh d k v :
  ~ In k (Dict.keys d) -> Dict.set d k v = d ++ [(k, v)].
Proof.
  induction d as [|[k' v'] d IH]; simpl; intros H; [reflexivity|].
  destruct (String.eqb_spec k k') as [->|Hne].
  - exfalso. apply H. now left.
  - rewrite IH; [reflexivity|]. intuition.
Qed.

Lemma set_last d k v v' :
  ~ In k (Dict.keys d) -> Dict.set (d ++ [(k, v)]) k v' = d ++ [(k, v')].
Proof.
  induction d as [|[k0 v0] d IH]; simpl; intros H.
  - now rewrite String.eqb_refl.
  - destruct (String.eqb_spec k k0) as [->|Hne].
    + exfalso. apply H. now left.
    + rewrite IH; [reflexivity|]. intuition.
Qed.

Lemma get_last d k v :
  ~ In k (Dict.keys d) -> Dict.get (d ++ [(k, v)]) k = Some v.
Proof.
  induction d as [|[k0 v0] d IH]; simpl; intros H.
  - now rewrite String.eqb_refl.
  - destruct (String.eqb_spec k k0) as [->|Hne].
    + exfalso. apply H. now left.
    + apply IH. intuition.
Qed.
End DictFacts.

Section GroupFacts.
Local Open Scope list_scope.
Variable V : Type.
Implicit Types (d : Dict.t (list V)) (k : string).

Lemma append_at_ensure d k (v : V) :
  Dict.append_at (if Dict.contains d k then d else Dict.set d k []) k v =
  OK (group_add d k v).
Proof.
  induction d as [|[k' l] d IH].
  - simpl. unfold Dict.append_at, Dict.getitem. simpl.
    rewrite String.eqb_refl. reflexivity.
  - unfold Dict.contains, Dict.keys in *. cbn [map fst existsb group_add].
    destruct (String.eqb_spec k k') as [->|Hne]; cbn [orb].
    + unfold Dict.append_at, Dict.getitem. cbn [Dict.get Dict.set].
      rewrite String.eqb_refl. reflexivity.
    + assert (E : forall d0, Dict.append_at ((k', l) :: d0) k v =
                            fmap (cons (k', l)) (Dict.append_at d0 k v)).
      { intros d0. unfold Dict.append_at, Dict.getitem. cbn [Dict.get Dict.set].
        destruct (String.eqb_spec k k'); [contradiction|].
        destruct (Dict.get d0 k); reflexivity. }
      destruct (existsb (String.eqb k) (map fst d)) eqn:Hc; cbn [Dict.set].
      * rewrite E, IH. reflexivity.
      * destruct (String.eqb_spec k k'); [contradiction|].
        rewrite E, IH. reflexivity.
Qed.

Lemma get_group_add d k (v : V) k' :
  Dict.get (group_add d k v) k' =
  if String.eqb k' k
  then Some (match Dict.get d k with Some l => l ++ [v] | None => [v] end)
  else Dict.get d k'.
Proof.
  induction d as [|[k0 l] d IH]; cbn [group_add Dict.get].
  - destruct (String.eqb k' k); reflexivity.
  - destruct (String.eqb_spec k k0) as [->|Hne]; cbn [Dict.get].
    + destruct (String.eqb k' k0); reflexivity.
    + rewrite IH. destruct (String.eqb_spec k' k0) as [->|Hne'].
      * destruct (String.eqb_spec k0 k); [congruence|reflexivity].
      * reflexivity.
Qed.

Lemma keys_group_add d k (v : V) :
  Dict.keys (group_add d k v) =
  if Dict.contains d k then Dict.keys d else Dict.keys d ++ [k].
Proof.
  induction d as [|[k0 l] d IH]; [reflexivity|].
  unfold Dict.contains, Dict.keys in *.
  cbn [group_add map fst existsb].
  destruct (String.eqb_spec k k0) as [->|Hne]; cbn [orb]; [reflexivity|].
  cbn [map fst]. rewrite IH.
  destruct (existsb (String.eqb k) (map fst d)); reflexivity.
Qed.

Lemma NoDup_keys_group_add d k (v : V) :
  NoDup (Dict.keys d) -> NoDup (Dict.keys (group_add d k v)).
Proof.
  intros H. rewrite keys_group_add.
  destruct (Dict.contains d k) eqn:E; [assumption|].
  apply contains_false in E.
  apply NoDup_rev in H. rewrite <- (rev_involutive (_ ++ _)).
  apply NoDup_rev. rewrite rev_app_distr. simpl. constructor; [|assumption].
  now rewrite <- in_rev.
Qed.
End GroupFacts.

(** ** Reason groups *)

Section ReasonGrouping.
Local Open Scope list_scope.

Lemma reasons_loop (rows : list Row) :
  forall d, foldM reasons_step rows d = OK (reasons_of rows d).
Proof.
  induction rows as [|r rows IH]; intros d; [reflexivity|].
  unfold reasons_of. cbn [foldM fold_left]. fold (reasons_of rows).
  unfold reasons_step at 1. fold (is_slurm r). cbv zeta.
  destruct (is_slurm r).
  - fold (reason_key r). fold (reason_pair r).
    rewrite append_at_ensure. cbn [bind]. apply IH.
  - cbn [bind]. apply IH.
Qed.

Lemma members_cons (k : string) (r : Row) (rows : list Row) :
  members k (r :: rows) =
  if is_slurm r && String.eqb (reason_key r) k then r :: members k rows
  else members k rows.
Proof. reflexivity. Qed.

Lemma get_reasons_of (rows : list Row) (k : string) :
  forall d,
    Dict.get (reasons_of rows d) k =
    opt_app (Dict.get d k) (map reason_pair (members k rows)).
Proof.
  induction rows as [|r rows IH]; intros d.
  - simpl. destruct (Dict.get d k); simpl; [now rewrite app_nil_r|reflexivity].
  - unfold reasons_of. cbn [fold_left]. fold (reasons_of rows).
    rewrite IH, members_cons. destruct (is_slurm r); cbn [andb]; [|reflexivity].
    rewrite get_group_add, (String.eqb_sym k).
    destruct (String.eqb_spec (reason_key r) k) as [E|E]; [|reflexivity].
    rewrite E. cbn [map]. generalize (map reason_pair (members k rows)); intros X.
    destruct (Dict.get d k); cbn [opt_app]; now rewrite <- ?app_assoc.
Qed.

Lemma NoDup_keys_reasons_of (rows : list Row) :
  forall d, NoDup (Dict.keys d) -> NoDup (Dict.keys (reasons_of rows d)).
Proof.
  induction rows as [|r rows IH]; intros d H; [assumption|].
  unfold reasons_of. cbn [fold_left]. fold (reasons_of rows).
  apply IH. destruct (is_slurm r); [now apply NoDup_keys_group_add|assumption].
Qed.

(** An entry of [reasons] holds the rows of its key, none missing. *)
Lemma reasons_of_entry (rows : list Row) (e : string * list (string * Row)) :
  In e (reasons_of rows []) ->
  Dict.get (reasons_of rows []) (fst e) = Some (snd e) /\
  snd e = map reason_pair (members (fst e) rows) /\
  members (fst e) rows <> [].
Proof.
  intros Hin. destruct e as [k pairs]. cbn [fst snd].
  assert (Hg : Dict.get (reasons_of rows []) k = Some pairs).
  { apply In_get; [|assumption]. apply NoDup_keys_reasons_of. constructor. }
  split; [assumption|].
  rewrite get_reasons_of in Hg. cbn [Dict.get] in Hg.
  destruct (members k rows) as [|r0 ms]; [discriminate|].
  inversion Hg. split; [reflexivity|discriminate].
Qed.

Lemma members_key (k : string) (rows : list Row) (r : Row) :
  In r (members k rows) -> In r rows /\ is_slurm r = true /\ reason_key r = k.
Proof.
  unfold members. rewrite filter_In, andb_true_iff, String.eqb_eq. tauto.
Qed.

Lemma lower_new_key (rows : list Row) (e : string * list (string * Row)) :
  In e (reasons_of rows []) -> Py.lower (new_key e) = fst e.
Proof.
  intros Hin. destruct (reasons_of_entry rows e Hin) as (_ & Hp & Hne).
  unfold new_key. rewrite Hp.
  destruct (members (fst e) rows) as [|r0 ms] eqn:E; [congruence|].
  cbn [map reason_pair fst].
  assert (Hr : In r0 (members (fst e) rows)) by (rewrite E; now left).
  apply members_key in Hr. apply Hr.
Qed.

Lemma append_all (out : Dict.t (list Row)) (nk : string)
      (pairs : list (string * Row)) :
  ~ In nk (Dict.keys out) ->
  forall acc,
    foldM (fun o (p : string * Row) => Dict.append_at o nk (snd p)) pairs
          (out ++ [(nk, acc)]) =
    OK (out ++ [(nk, acc ++ map snd pairs)]).
Proof.
  intros Hnk. induction pairs as [|p pairs IH]; intros acc.
  - simpl. now rewrite app_nil_r.
  - cbn [foldM map]. unfold Dict.append_at at 1, Dict.getitem.
    rewrite get_last by assumption. cbn [bind].
    rewrite set_last by assumption. rewrite IH, <- app_assoc. reflexivity.
Qed.

Lemma output_step (reasons : Dict.t (list (string * Row)))
      (out : Dict.t (list Row)) (e : string * list (string * Row)) :
  Dict.get reasons (fst e) = Some (snd e) ->
  snd e <> [] ->
  ~ In (new_key e) (Dict.keys out) ->
  output_reasons_step reasons out (fst e) = OK (out ++ [output_entry e]).
Proof.
  intros Hg Hne Hnk. unfold output_reasons_step, Dict.getitem.
  rewrite Hg. cbn [bind]. unfold output_entry, new_key in *.
  destruct (snd e) as [|[nk r0] ps]; [congruence|]. cbn [fst] in *.
  apply contains_false in Hnk as Hc. rewrite Hc.
  rewrite set_fresh by assumption.
  now rewrite append_all.
Qed.

Lemma output_loop (reasons : Dict.t (list (string * Row)))
      (es : list (string * list (string * Row))) :
  (forall e, In e es -> Dict.get reasons (fst e) = Some (snd e) /\ snd e <> []) ->
  NoDup (map new_key es) ->
  forall out,
    (forall e, In e es -> ~ In (new_key e) (Dict.keys out)) ->
    foldM (output_reasons_step reasons) (map fst es) out =
    OK (out ++ map output_entry es).
Proof.
  induction es as [|e es IH]; intros Hes Hn out Hout.
  - simpl. now rewrite app_nil_r.
  - cbn [map foldM]. inversion Hn as [|? ? Hnotin Hn']; subst.
    destruct (Hes e (or_introl eq_refl)) as [Hg Hne].
    rewrite output_step; auto using in_eq. cbn [bind].
    rewrite IH; auto using in_cons.
    + now rewrite <- app_assoc.
    + intros e' He'. unfold Dict.keys. rewrite map_app, in_app_iff.
      intros [H|[H|[]]].
      * now apply (Hout e' (in_cons _ _ _ He')).
      * cbn [output_entry fst] in H. apply Hnotin. rewrite H. now apply in_map.
Qed.

(** The dictionary that [get_rows_by_slurm_reason] returns: one entry per
    entry of [reasons], in the same order. *)
Lemma get_rows_by_slurm_reason_eq (rows : list Row) :
  get_rows_by_slurm_reason rows = OK (map output_entry (reasons_of rows [])).
Proof.
  unfold get_rows_by_slurm_reason. rewrite reasons_loop. cbn [bind].
  unfold Dict.keys. rewrite output_loop; auto.
  - intros e He. destruct (reasons_of_entry rows e He) as (Hg & Hp & Hne).
    split; [assumption|]. rewrite Hp.
    destruct (members (fst e) rows); [congruence|discriminate].
  - apply (NoDup_map_inv Py.lower). rewrite map_map.
    erewrite map_ext_in; [apply (NoDup_keys_reasons_of rows []); constructor|].
    intros e He. now apply (lower_new_key rows).
Qed.
End ReasonGrouping.

Section ReasonGroupingSpec.
Local Open Scope list_scope.

Lemma map_snd_reason_pair (l : list Row) : map snd (map reason_pair l) = l.
Proof. rewrite map_map. simpl. apply map_id. Qed.

Lemma groups_entry (rows : list Row) (display : string) (rs : list Row) :
  In (display, rs) (map output_entry (reasons_of rows [])) ->
  rs = members (Py.lower display) rows /\
  exists first rest,
    rs = first :: rest /\ display = slurm_reason (additional_info first).
Proof.
  intros H. apply in_map_iff in H as (e & E & He).
  pose proof (lower_new_key rows e He) as Hl.
  destruct (reasons_of_entry rows e He) as (_ & Hp & Hne).
  unfold output_entry in E. injection E as Hd Hr. subst display rs.
  rewrite Hl, Hp, map_snd_reason_pair.
  split; [reflexivity|].
  unfold new_key. rewrite Hp.
  destruct (members (fst e) rows) as [|r0 ms]; [congruence|].
  exists r0, ms. split; reflexivity.
Qed.

Lemma groups_cover (rows : list Row) (r : Row) :
  In r rows -> is_slurm r = true ->
  exists display rs,
    In (display, rs) (map output_entry (reasons_of rows [])) /\
    Py.lower display = reason_key r /\ In r rs.
Proof.
  intros Hin Hs.
  assert (Hm : In r (members (reason_key r) rows)).
  { unfold members. rewrite filter_In, Hs, String.eqb_refl. auto. }
  pose proof (get_reasons_of rows (reason_key r) []) as Hg. cbn [Dict.get] in Hg.
  destruct (members (reason_key r) rows) as [|r0 ms] eqn:E; [contradiction|].
  cbn [opt_app] in Hg. apply get_In in Hg. rewrite <- E in *.
  set (e := (reason_key r, map reason_pair (members (reason_key r) rows))) in *.
  exists (new_key e), (map snd (snd e)). split; [|split].
  - apply (in_map output_entry) in Hg. exact Hg.
  - apply (lower_new_key rows e Hg).
  - unfold e. cbn [snd]. now rewrite map_snd_reason_pair.
Qed.

Lemma groups_keys_lower (rows : list Row) :
  map Py.lower (Dict.keys (map output_entry (reasons_of rows []))) =
  Dict.keys (reasons_of rows []).
Proof.
  unfold Dict.keys. rewrite !map_map. apply map_ext_in.
  intros e He. cbn [output_entry fst]. apply (lower_new_key rows e He).
Qed.
End ReasonGroupingSpec.

(** The groups, in terms of the reason as the script computes it. *)
Lemma reason_groups (rows : list Row) :
  exists groups,
    get_rows_by_slurm_reason rows = OK groups /\
    (forall r, In r rows -> is_slurm r = true ->
       exists display rs,
         In (display, rs) groups /\ Py.lower display = reason_key r /\ In r rs) /\
    (forall display rs, In (display, rs) groups ->
       rs = members (Py.lower display) rows /\
       exists first rest,
         rs = first :: rest /\ display = slurm_reason (additional_info first)) /\
    NoDup (map Py.lower (Dict.keys groups)) /\
    Permutation (Py.sorted Py.lower String.leb (Dict.keys groups)) (Dict.keys groups) /\
    StronglySorted lower_le (Py.sorted Py.lower String.leb (Dict.keys groups)).
Proof.
  exists (map output_entry (reasons_of rows [])). repeat split.
  - apply get_rows_by_slurm_reason_eq.
  - apply groups_cover.
  - now apply groups_entry in H.
  - now apply groups_entry in H.
  - rewrite groups_keys_lower. apply NoDup_keys_reasons_of. constructor.
  - apply sorted_perm.
  - apply sorted_StronglySorted; [apply string_leb_total|apply string_leb_trans].
Qed.


(** ** The renderers and the report tree *)

Section Renderers.
Local Open Scope list_scope.

Lemma foldM_mapM (A B : Type) (f : A -> result B) (g : B -> string)
      (body : string -> A -> result string) :
  (forall acc a, body acc a = (b <- f a ;; OK (acc ++ g b)%string)) ->
  forall l acc,
    foldM body l acc =
    (bs <- mapM f l ;; OK (acc ++ cat_strings (map g bs))%string).
Proof.
  intros Hbody. induction l as [|a l IH]; intros acc; cbn [foldM mapM bind map].
  - simpl. now rewrite append_nil_r.
  - rewrite Hbody. destruct (f a) as [b|e]; cbn [bind]; [|reflexivity].
    rewrite IH. destruct (mapM f l) as [bs|e]; cbn [bind]; [|reflexivity].
    cbn [map cat_strings fold_right]. now rewrite append_assoc.
Qed.

Lemma mapM_Forall2 (A B : Type) (f : A -> result B) (l : list A) :
  forall bs, mapM f l = OK bs -> Forall2 (fun a b => f a = OK b) l bs.
Proof.
  induction l as [|a l IH]; intros bs H; cbn [mapM] in H.
  - inversion H. constructor.
  - apply bind_OK in H as (b & Hb & H). apply bind_OK in H as (bs' & Hbs & H).
    inversion H; subst. constructor; auto.
Qed.

Lemma mapM_fst (A B : Type) (f : A -> result (string * B)) (h : A -> string)
      (l : list A) (bs : list (string * B)) :
  (forall a b, f a = OK b -> fst b = h a) ->
  mapM f l = OK bs -> map fst bs = map h l.
Proof.
  intros Hf H. apply mapM_Forall2 in H.
  induction H as [|a b l bs Hab _ IH]; [reflexivity|].
  cbn [map]. f_equal; auto.
Qed.

Lemma html_clusters_eq (clusters : Dict.t (list Z)) (html : string) :
  html_clusters clusters html =
  (cs <- tree_clusters clusters ;;
   OK (html ++ cat_strings (map html_of_cluster cs))%string).
Proof.
  apply foldM_mapM. intros acc cluster.
  destruct (Dict.getitem clusters cluster) as [nodes|e]; cbn [bind]; [|reflexivity].
  destruct (get_node_list_string nodes); reflexivity.
Qed.

Lemma text_clusters_eq (clusters : Dict.t (list Z)) (text : string) :
  text_clusters clusters text =
  (cs <- tree_clusters clusters ;;
   OK (text ++ cat_strings (map text_of_cluster cs))%string).
Proof.
  apply foldM_mapM. intros acc cluster.
  destruct (Dict.getitem clusters cluster) as [nodes|e]; cbn [bind]; [|reflexivity].
  destruct (get_node_list_string nodes); reflexivity.
Qed.

Lemma html_reasons_eq (reasons : Dict.t (list Row)) (html : string) :
  html_reasons reasons html =
  (rs <- tree_reasons reasons ;;
   OK (html ++ cat_strings (map html_of_reason rs))%string).
Proof.
  apply foldM_mapM. intros acc reason. cbv zeta.
  destruct (Dict.getitem reasons reason) as [rows|e]; cbn [bind]; [|reflexivity].
  destruct (get_nodes_by_cluster rows) as [clusters|e]; cbn [bind]; [|reflexivity].
  rewrite html_clusters_eq.
  destruct (tree_clusters clusters) as [cs|e]; cbn [bind]; [|reflexivity].
  unfold html_of_reason. cbn [fst snd]. rewrite !append_assoc. reflexivity.
Qed.

Lemma text_reasons_eq (reasons : Dict.t (list Row)) (text : string) :
  text_reasons reasons text =
  (rs <- tree_reasons reasons ;;
   OK (text ++ cat_strings (map text_of_reason rs))%string).
Proof.
  apply foldM_mapM. intros acc reason. cbv zeta.
  destruct (Dict.getitem reasons reason) as [rows|e]; cbn [bind]; [|reflexivity].
  destruct (get_nodes_by_cluster rows) as [clusters|e]; cbn [bind]; [|reflexivity].
  rewrite text_clusters_eq.
  destruct (tree_clusters clusters) as [cs|e]; cbn [bind]; [|reflexivity].
  unfold text_of_reason. cbn [fst snd]. rewrite !append_assoc. reflexivity.
Qed.

Lemma known_label (category label : string) :
  Dict.get SLURM_CATEGORIES category = Some label ->
  String.eqb label "Other" = false.
Proof.
  unfold SLURM_CATEGORIES. cbn [Dict.get].
  repeat (destruct (String.eqb category _); [intros [= <-]; reflexivity|]).
  discriminate.
Qed.

(** The markup renderer writes the report tree, and nothing else. *)
Lemma digest_slurm_problems_html_eq (slurm_rows : Dict.t (list Row)) :
  digest_slurm_problems_html slurm_rows = fmap html_of_tree (report_tree slurm_rows).
Proof.
  unfold digest_slurm_problems_html, report_tree, fmap.
  rewrite (foldM_mapM
             (fun category =>
                slurm_category_rows <- Dict.getitem slurm_rows category ;;
                reasons <- get_rows_by_slurm_reason slurm_category_rows ;;
                entries <- tree_reasons reasons ;;
                OK (category_label category, entries))
             html_of_category).
  - destruct (mapM _ (Dict.keys slurm_rows)) as [tree|e]; cbn [bind]; [|reflexivity].
    unfold html_of_tree. rewrite !append_assoc. reflexivity.
  - intros acc category. cbv zeta.
    destruct (Dict.getitem slurm_rows category) as [rows|e]; cbn [bind]; [|reflexivity].
    destruct (get_rows_by_slurm_reason rows) as [reasons|e]; cbn [bind]; [|reflexivity].
    rewrite html_reasons_eq.
    destruct (tree_reasons reasons) as [rs|e]; cbn [bind]; [|reflexivity].
    unfold html_of_category, category_label. cbn [fst snd].
    destruct (Dict.get SLURM_CATEGORIES category);
      rewrite !append_assoc; reflexivity.
Qed.

(** So does the plaintext renderer. *)
Lemma digest_slurm_problems_text_eq (slurm_rows : Dict.t (list Row)) :
  digest_slurm_problems_text slurm_rows = fmap text_of_tree (report_tree slurm_rows).
Proof.
  unfold digest_slurm_problems_text, report_tree, fmap.
  rewrite (foldM_mapM
             (fun category =>
                slurm_category_rows <- Dict.getitem slurm_rows category ;;
                reasons <- get_rows_by_slurm_reason slurm_category_rows ;;
                entries <- tree_reasons reasons ;;
                OK (category_label category, entries))
             text_of_category).
  - destruct (mapM _ (Dict.keys slurm_rows)) as [tree|e]; cbn [bind]; [|reflexivity].
    unfold text_of_tree. rewrite !append_assoc. reflexivity.
  - intros acc category. cbv zeta.
    destruct (Dict.getitem slurm_rows category) as [rows|e]; cbn [bind]; [|reflexivity].
    destruct (get_rows_by_slurm_reason rows) as [reasons|e]; cbn [bind]; [|reflexivity].
    rewrite text_reasons_eq.
    destruct (tree_reasons reasons) as [rs|e]; cbn [bind]; [|reflexivity].
    unfold text_of_category, category_label. cbn [fst snd].
    destruct (Dict.get SLURM_CATEGORIES category) as [label|] eqn:E.
    + rewrite (known_label _ E), !append_assoc. reflexivity.
    + cbn [String.eqb Ascii.eqb Bool.eqb]. rewrite !append_assoc. reflexivity.
Qed.
End Renderers.

Section TreeFacts.
Local Open Scope list_scope.

Lemma Forall2_Forall_r (A B : Type) (R : A -> B -> Prop) (P : B -> Prop)
      (l : list A) (bs : list B) :
  (forall a b, R a b -> P b) -> Forall2 R l bs -> Forall P bs.
Proof. intros H. induction 1; constructor; eauto. Qed.

Lemma tree_clusters_keys (clusters : Dict.t (list Z)) (cs : list cluster_entry) :
  tree_clusters clusters = OK cs ->
  map fst cs = Py.sorted (fun k => k) String.leb (Dict.keys clusters).
Proof.
  intros H. rewrite <- (map_id (Py.sorted _ _ _)).
  eapply mapM_fst; [|exact H]. cbv beta. intros cluster b Hb.
  apply bind_OK in Hb as (nodes & _ & Hb). apply bind_OK in Hb as (nl & _ & Hb).
  now inversion Hb.
Qed.

Lemma tree_reasons_keys (reasons : Dict.t (list Row)) (rs : list reason_entry) :
  tree_reasons reasons = OK rs ->
  map fst rs = Py.sorted Py.lower String.leb (Dict.keys reasons).
Proof.
  intros H. rewrite <- (map_id (Py.sorted _ _ _)).
  eapply mapM_fst; [|exact H]. cbv beta. intros reason b Hb.
  apply bind_OK in Hb as (rows & _ & Hb). apply bind_OK in Hb as (cl & _ & Hb).
  apply bind_OK in Hb as (es & _ & Hb). now inversion Hb.
Qed.

Lemma report_tree_labels (slurm_rows : Dict.t (list Row)) (tree : list category_entry) :
  report_tree slurm_rows = OK tree ->
  map fst tree = map category_label (Dict.keys slurm_rows).
Proof.
  intros H. eapply mapM_fst; [|exact H]. cbv beta. intros category b Hb.
  apply bind_OK in Hb as (rows & _ & Hb). apply bind_OK in Hb as (rr & _ & Hb).
  apply bind_OK in Hb as (es & _ & Hb). now inversion Hb.
Qed.

Lemma tree_reasons_ordered (reasons : Dict.t (list Row)) (rs : list reason_entry) :
  tree_reasons reasons = OK rs ->
  StronglySorted lower_le (map fst rs) /\
  Forall (fun r : reason_entry => StronglySorted string_le (map fst (snd r))) rs.
Proof.
  intros H. split.
  - rewrite (tree_reasons_keys _ H).
    apply sorted_StronglySorted; [apply string_leb_total|apply string_leb_trans].
  - apply mapM_Forall2 in H. eapply Forall2_Forall_r; [|exact H].
    cbv beta. intros reason b Hb.
    apply bind_OK in Hb as (rows & _ & Hb). apply bind_OK in Hb as (cl & _ & Hb).
    apply bind_OK in Hb as (es & Hes & Hb). inversion Hb; subst. cbn [snd].
    rewrite (tree_clusters_keys _ Hes).
    apply (sorted_StronglySorted (fun k : string => k));
      [apply string_leb_total|apply string_leb_trans].
Qed.

Lemma report_tree_ordered (slurm_rows : Dict.t (list Row)) (tree : list category_entry) :
  report_tree slurm_rows = OK tree -> tree_ordered tree.
Proof.
  intros H. apply mapM_Forall2 in H. eapply Forall2_Forall_r; [|exact H].
  cbv beta. intros category b Hb.
  apply bind_OK in Hb as (rows & _ & Hb). apply bind_OK in Hb as (rr & _ & Hb).
  apply bind_OK in Hb as (es & Hes & Hb). inversion Hb; subst. cbn [snd].
  now apply tree_reasons_ordered in Hes.
Qed.

Lemma slurm_buckets_keys (problem_rows : list Row) :
  map category_label (Dict.keys (slurm_buckets problem_rows)) = category_labels.
Proof.
  rewrite slurm_buckets_eq, get_rows_by_slurm_category_eq. reflexivity.
Qed.

Lemma getitem_SLURM (problem_rows : list Row) :
  Dict.getitem (get_rows_by_service problem_rows) "SLURM" =
  OK (filter is_slurm problem_rows).
Proof. rewrite get_rows_by_service_eq. reflexivity. Qed.

Lemma get_digest_html_eq (prettify_html : string -> string)
      (problem_rows recovery_rows other_rows : list Row) :
  get_digest_html prettify_html problem_rows recovery_rows other_rows =
  fmap (fun tree =>
          prettify_html (html_page tree problem_rows recovery_rows other_rows))
       (report_tree (slurm_buckets problem_rows)).
Proof.
  unfold get_digest_html. rewrite getitem_SLURM. cbn [bind].
  rewrite digest_slurm_problems_html_eq, slurm_buckets_eq.
  destruct (report_tree _); reflexivity.
Qed.

Lemma get_digest_text_eq (problem_rows recovery_rows other_rows : list Row) :
  get_digest_text problem_rows recovery_rows other_rows =
  fmap (fun tree => text_page tree problem_rows recovery_rows other_rows)
       (report_tree (slurm_buckets problem_rows)).
Proof.
  unfold get_digest_text. rewrite getitem_SLURM. cbn [bind].
  rewrite digest_slurm_problems_text_eq, slurm_buckets_eq.
  destruct (report_tree _); reflexivity.
Qed.
(** [main], from the lines of the file to the two bodies of the e-mail. *)
Lemma digest_of_lines_eq (prettify_html : string -> string) (lines : list string) :
  digest_of_lines prettify_html lines =
  (parsed_file <- parse_change_file lines "," ;;
   let compute := filter is_compute parsed_file in
   let problem_rows := filter is_problem compute in
   let recovery_rows :=
     filter (fun r => negb (is_problem r) && is_recovery r) compute in
   let other_rows :=
     filter (fun r => negb (is_problem r) && negb (is_recovery r)) compute in
   tree <- pipeline_tree parsed_file ;;
   OK (prettify_html (html_page tree problem_rows recovery_rows other_rows),
       text_page tree problem_rows recovery_rows other_rows)).
Proof.
  unfold digest_of_lines, pipeline_tree.
  destruct (parse_change_file lines ",") as [parsed_file|e]; cbn [bind]; [|reflexivity].
  rewrite get_rows_by_host_type_eq.
  cbn [Dict.getitem Dict.get String.eqb Ascii.eqb Bool.eqb bind].
  rewrite get_rows_by_notification_type_eq.
  cbn [Dict.getitem Dict.get String.eqb Ascii.eqb Bool.eqb bind].
  rewrite get_digest_html_eq, get_digest_text_eq.
  destruct (report_tree _); reflexivity.
Qed.
End TreeFacts.


(** ** Which categories are written *)

Section Categories.
Local Open Scope list_scope.

Lemma reason_groups_empty (rows : list Row) (groups : Dict.t (list Row)) :
  (forall r, In r rows -> is_slurm r = true) ->
  get_rows_by_slurm_reason rows = OK groups ->
  (groups = [] <-> rows = []).
Proof.
  intros Hs H. rewrite get_rows_by_slurm_reason_eq in H. inversion H; subst.
  split.
  - intros E. destruct rows as [|r rows]; [reflexivity|].
    destruct (groups_cover (r :: rows) r (in_eq _ _) (Hs r (in_eq _ _)))
      as (display & rs & Hin & _).
    rewrite E in Hin. contradiction.
  - intros ->. reflexivity.
Qed.

Lemma tree_reasons_empty (groups : Dict.t (list Row)) (es : list reason_entry) :
  tree_reasons groups = OK es -> (es = [] <-> groups = []).
Proof.
  intros H. apply tree_reasons_keys in H.
  pose proof (sorted_perm Py.lower String.leb (Dict.keys groups)) as Hp.
  rewrite <- H in Hp. split.
  - intros ->. simpl in Hp. apply Permutation_nil in Hp.
    destruct groups; [reflexivity|discriminate].
  - intros ->. simpl in Hp. apply Permutation_sym, Permutation_nil in Hp.
    destruct es; [reflexivity|discriminate].
Qed.

Lemma category_entry_empty (rows : list Row) (category : string) (c : category_entry) :
  (forall r, In r rows -> is_slurm r = true) ->
  (reasons <- get_rows_by_slurm_reason rows ;;
   entries <- tree_reasons reasons ;;
   OK (category_label category, entries)) = OK c ->
  (snd c = [] <-> rows = []).
Proof.
  intros Hs H. apply bind_OK in H as (groups & Hg & H).
  apply bind_OK in H as (es & Hes & H). inversion H; subst. cbn [snd].
  rewrite (tree_reasons_empty _ Hes). now apply reason_groups_empty.
Qed.

Lemma filter_slurm_In (p : Row -> bool) (rows : list Row) (r : Row) :
  In r (filter (fun r => is_slurm r && p r) rows) -> is_slurm r = true.
Proof. rewrite filter_In, andb_true_iff. tauto. Qed.

(** Every category is written; it has no reason exactly when its bucket
    has no row. *)
Lemma report_tree_categories (problem_rows : list Row) (tree : list category_entry) :
  report_tree (slurm_buckets problem_rows) = OK tree ->
  map fst tree = category_labels /\
  Forall2 (fun (bucket : string * list Row) (c : category_entry) =>
             snd c = [] <-> snd bucket = [])
          (slurm_buckets problem_rows) tree.
Proof.
  intros H. split.
  { rewrite (report_tree_labels _ H). apply slurm_buckets_keys. }
  rewrite slurm_buckets_eq, get_rows_by_slurm_category_eq in *.
  apply mapM_Forall2 in H. cbn [Dict.keys map fst] in H.
  repeat match goal with
         | H : Forall2 _ (_ :: _) _ |- _ => inversion H; clear H; subst
         | H : Forall2 _ [] _ |- _ => inversion H; clear H; subst
         end.
  repeat match goal with
         | H : bind (Dict.getitem _ _) _ = OK _ |- _ =>
             cbn [Dict.getitem Dict.get String.eqb Ascii.eqb Bool.eqb bind] in H
         end.
  repeat constructor; cbn [snd];
    (eapply category_entry_empty; [|eassumption]);
    intros r; apply filter_slurm_In.
Qed.
End Categories.

(** ** Clusters and their nodes *)

Section Clusters.
Local Open Scope list_scope.

Lemma foldM_invariant (A S : Type) (body : S -> A -> result S) (P : S -> Prop) :
  (forall s a s', P s -> body s a = OK s' -> P s') ->
  forall l s s', P s -> foldM body l s = OK s' -> P s'.
Proof.
  intros Hbody. induction l as [|a l IH]; intros s s' Hs H; cbn [foldM] in H.
  - now inversion H; subst.
  - apply bind_OK in H as (s1 & H1 & H). eauto.
Qed.

Lemma group_add_nonempty (V : Type) (d : Dict.t (list V)) (k : string) (v : V) :
  (forall k' l, In (k', l) d -> l <> []) ->
  forall k' l, In (k', l) (group_add d k v) -> l <> [].
Proof.
  induction d as [|[k0 l0] d IH]; intros Hd k' l; cbn [group_add].
  - intros [[= <- <-]|[]]. discriminate.
  - destruct (String.eqb k k0).
    + intros [[= <- <-]|Hin].
      * destruct l0; discriminate.
      * eapply Hd. right. exact Hin.
    + intros [[= <- <-]|Hin].
      * eapply Hd. now left.
      * eapply IH; [|exact Hin]. intros k1 l1 H1. eapply Hd. right. exact H1.
Qed.

(** No cluster is entered without a node. *)
Lemma get_nodes_by_cluster_nonempty (rows : list Row) (clusters : Dict.t (list Z)) :
  get_nodes_by_cluster rows = OK clusters ->
  forall cluster nodes, In (cluster, nodes) clusters -> nodes <> [].
Proof.
  unfold get_nodes_by_cluster.
  apply (foldM_invariant get_nodes_by_cluster_step
           (fun d : Dict.t (list Z) => forall k l, In (k, l) d -> l <> [])).
  - intros d row d' Hd Hstep. unfold get_nodes_by_cluster_step in Hstep.
    destruct (is_compute_host (host row)); [|now inversion Hstep; subst].
    apply bind_OK in Hstep as (fields & _ & Hstep).
    destruct (map Py.strip fields) as [|number [|cluster [|]]]; try discriminate.
    apply bind_OK in Hstep as (integer & _ & Hstep). cbv zeta in Hstep.
    rewrite append_at_ensure in Hstep. inversion Hstep; subst.
    now apply group_add_nonempty.
  - intros k l [].
Qed.
End Clusters.

(** ** Canonical reasons *)

Section Canonical.
Local Open Scope list_scope.

Lemma words_from_rstrip (s : string) :
  forall cur, Py.words_from (Py.rstrip s) cur = Py.words_from s cur.
Proof.
  induction s as [|c s IH]; intros cur; [reflexivity|].
  cbn [Py.rstrip]. destruct (Py.is_space c) eqn:Ec; cbn [andb].
  - destruct (Py.rstrip s) as [|c' r] eqn:Er; cbn [Py.is_empty].
    + cbn [Py.words_from]. rewrite Ec, <- !IH. cbn [Py.words_from Py.is_empty].
      destruct (Py.is_empty cur); reflexivity.
    + cbn [Py.words_from]. rewrite Ec, <- !IH. reflexivity.
  - cbn [Py.words_from]. rewrite Ec. apply IH.
Qed.

Lemma split_ws_lstrip (s : string) : Py.split_ws (Py.lstrip s) = Py.split_ws s.
Proof.
  unfold Py.split_ws. induction s as [|c s IH]; [reflexivity|].
  cbn [Py.lstrip]. destruct (Py.is_space c) eqn:Ec; [|reflexivity].
  rewrite IH. cbn [Py.words_from Py.is_empty]. now rewrite Ec.
Qed.

Lemma split_ws_strip (s : string) : Py.split_ws (Py.strip s) = Py.split_ws s.
Proof.
  unfold Py.strip, Py.split_ws at 1. rewrite words_from_rstrip.
  apply split_ws_lstrip.
Qed.

Lemma find_from_ge (s : string) :
  forall i, has_char ":" s = true -> i <= Py.find_from ":" s i.
Proof.
  induction s as [|c s IH]; intros i H; [discriminate|].
  cbn [Py.find_from has_char] in *. destruct (Ascii.eqb ":" c); [lia|].
  specialize (IH (i + 1) H). lia.
Qed.

Lemma drop_find_from (s : string) :
  forall i,
    has_char ":" s = true ->
    Py.drop (Z.to_nat (Py.find_from ":" s i + 1 - i)) s = after_first_colon s.
Proof.
  induction s as [|c s IH]; intros i H; [discriminate|].
  cbn [Py.find_from has_char after_first_colon] in *.
  destruct (Ascii.eqb ":" c).
  - replace (i + 1 - i) with 1 by lia. reflexivity.
  - cbn [orb] in H. pose proof (find_from_ge s (i + 1) H) as Hge.
    replace (Z.to_nat (Py.find_from ":" s (i + 1) + 1 - i))
      with (S (Z.to_nat (Py.find_from ":" s (i + 1) + 1 - (i + 1)))) by lia.
    cbn [Py.drop]. now apply IH.
Qed.

Lemma slice_after_colon (s : string) :
  has_char ":" s = true ->
  Py.slice_from s (Py.find s ":" + 1) = after_first_colon s.
Proof.
  intros H. unfold Py.slice_from, Py.find.
  pose proof (find_from_ge s 0 H) as Hge.
  destruct (Z.ltb_spec (Py.find_from ":" s 0 + 1) 0) as [Hlt|_]; [lia|].
  rewrite <- (drop_find_from s 0 H). f_equal. lia.
Qed.

Lemma prefix_has_char (p s : string) (c : ascii) :
  String.prefix p s = true -> has_char c p = true -> has_char c s = true.
Proof.
  revert s. induction p as [|a p IH]; intros s Hp Hc; [discriminate|].
  destruct s as [|b s]; [discriminate|]. cbn [String.prefix] in Hp.
  destruct (ascii_dec a b) as [<-|]; [|discriminate].
  cbn [has_char] in *. destruct (Ascii.eqb c a); [reflexivity|].
  cbn [orb] in *. now apply IH.
Qed.

Lemma labelled_has_colon (s : string) :
  Py.startswith_any s recognized_labels = true -> has_char ":" s = true.
Proof.
  unfold Py.startswith_any, Py.startswith. intros H.
  apply existsb_exists in H as (p & Hin & Hp).
  apply (prefix_has_char p s). { exact Hp. }
  cbn in Hin. destruct Hin as [<-|[<-|[<-|[]]]]; reflexivity.
Qed.

(** The reason that the script computes is the canonical reason of the
    specification. *)
Lemma slurm_reason_canonical (additional_info : string) :
  slurm_reason additional_info = canonical_reason additional_info.
Proof.
  unfold slurm_reason, canonical_reason, collapse_whitespace.
  fold recognized_labels.
  destruct (Py.startswith_any additional_info recognized_labels) eqn:E.
  - rewrite split_ws_strip, slice_after_colon; [reflexivity|].
    now apply labelled_has_colon.
  - now rewrite split_ws_strip.
Qed.

Lemma words_from_no_space (w : string) :
  forall cur rest,
    no_space w = true ->
    Py.words_from (w ++ rest) cur = Py.words_from rest (cur ++ w).
Proof.
  induction w as [|c w IH]; intros cur rest H; cbn [append].
  - now rewrite append_nil_r.
  - cbn [no_space all_chars] in H. apply andb_true_iff in H as [Hc Hw].
    apply negb_true_iff in Hc. cbn [Py.words_from]. rewrite Hc.
    rewrite IH by exact Hw. now rewrite append_assoc.
Qed.

Lemma words_from_words (s : string) :
  forall cur,
    no_space cur = true ->
    Forall (fun w => w <> ""%string /\ no_space w = true) (Py.words_from s cur).
Proof.
  induction s as [|c s IH]; intros cur Hcur; cbn [Py.words_from].
  - destruct cur; cbn [Py.is_empty]; constructor; [|constructor].
    split; [discriminate|assumption].
  - destruct (Py.is_space c) eqn:Ec.
    + destruct cur; cbn [Py.is_empty]; [now apply IH|].
      constructor; [split; [discriminate|assumption]|now apply IH].
    + apply IH. unfold no_space in *.
      clear IH. induction cur as [|a cur IHc]; cbn [append all_chars] in *.
      * now rewrite Ec.
      * apply andb_true_iff in Hcur as [-> Hcur]. now apply IHc.
Qed.

Lemma split_ws_join (ws : list string) :
  Forall (fun w => w <> ""%string /\ no_space w = true) ws ->
  Py.split_ws (Py.join " " ws) = ws.
Proof.
  unfold Py.split_ws. induction 1 as [|w ws [Hne Hw] Hws IH]; [reflexivity|].
  destruct ws as [|w' ws].
  - cbn [Py.join]. rewrite <- (append_nil_r w) at 1.
    rewrite words_from_no_space by assumption.
    destruct w; [congruence|reflexivity].
  - change (Py.join " " (w :: w' :: ws))
      with (w ++ String " " (Py.join " " (w' :: ws)))%string.
    rewrite words_from_no_space by assumption.
    cbn [Py.words_from append]. change (Py.is_space " ") with true. cbv iota.
    destruct w; [congruence|]. cbn [Py.is_empty]. now rewrite IH.
Qed.

(** Collapsing twice is collapsing once. *)
Lemma collapse_whitespace_idempotent (s : string) :
  collapse_whitespace (collapse_whitespace s) = collapse_whitespace s.
Proof.
  unfold collapse_whitespace. rewrite split_ws_join; [reflexivity|].
  now apply words_from_words.
Qed.
End Canonical.

(** ** Hosts that decompose *)

Section Decomposition.
Local Open Scope list_scope.

Lemma digit_facts (c : ascii) :
  Py.is_digit c = true -> Py.is_space c = false /\ Ascii.eqb "." c = false.
Proof.
  destruct c as [[] [] [] [] [] [] [] []]; intros H; try discriminate H; split; reflexivity.
Qed.

Lemma cluster_char_facts (c : ascii) :
  is_cluster_char c = true -> Py.is_space c = false /\ Ascii.eqb "." c = false.
Proof.
  destruct c as [[] [] [] [] [] [] [] []]; intros H; try discriminate H; split; reflexivity.
Qed.

Lemma cluster_chars_facts (s : string) :
  all_chars is_cluster_char s = true ->
  all_chars (fun c => negb (Py.is_space c)) s = true /\ has_char "." s = false.
Proof.
  induction s as [|c s IH]; cbn [all_chars has_char]; [auto|].
  intros H. apply andb_true_iff in H as [Hc Hs].
  destruct (cluster_char_facts c Hc) as [-> ->]. now apply IH.
Qed.

Lemma prefix_dot (c : ascii) (rest : string) :
  String.prefix "." (String c rest) = Ascii.eqb "." c.
Proof.
  cbn [String.prefix]. destruct (ascii_dec "." c) as [<-|Hne].
  - destruct rest; reflexivity.
  - symmetry. now apply Ascii.eqb_neq.
Qed.

Lemma split_from_dot_free (s cur : string) :
  has_char "." s = false -> Py.split_from "." s 0 cur = [(cur ++ s)%string].
Proof.
  revert cur. induction s as [|c s IH]; intros cur H; cbn [Py.split_from].
  - now rewrite append_nil_r.
  - cbn [has_char] in H. apply orb_false_iff in H as [Hc Hs].
    rewrite prefix_dot, Hc, IH by assumption.
    now rewrite append_assoc.
Qed.

Lemma split_from_dot (a b cur : string) :
  has_char "." a = false ->
  Py.split_from "." (a ++ String "." b) 0 cur =
  (cur ++ a)%string :: Py.split_from "." b 0 "".
Proof.
  revert cur. induction a as [|c a IH]; intros cur H; cbn [append Py.split_from].
  - rewrite prefix_dot, Ascii.eqb_refl, append_nil_r. reflexivity.
  - cbn [has_char] in H. apply orb_false_iff in H as [Hc Hs].
    rewrite prefix_dot, Hc, IH by assumption.
    now rewrite append_assoc.
Qed.

Lemma rstrip_no_space (s : string) :
  all_chars (fun c => negb (Py.is_space c)) s = true -> Py.rstrip s = s.
Proof.
  induction s as [|c s IH]; cbn [all_chars Py.rstrip]; [reflexivity|].
  intros H. apply andb_true_iff in H as [Hc Hs].
  apply negb_true_iff in Hc. rewrite Hc, IH by assumption. reflexivity.
Qed.

Lemma literal_space_is_space (c : ascii) :
  Py.is_literal_space c = true -> Py.is_space c = true.
Proof.
  unfold Py.is_literal_space, Py.is_space. cbv zeta.
  destruct (Nat.eqb_spec (nat_of_ascii c) 32) as [->|_]; [reflexivity|].
  rewrite orb_false_r. intros ->. reflexivity.
Qed.

Lemma skip_no_space (s : string) :
  all_chars (fun c => negb (Py.is_space c)) s = true ->
  Py.skip_right (Py.skip_left s) = s.
Proof.
  intros H.
  assert (Hr : Py.skip_right s = s).
  { induction s as [|c s IH]; cbn [all_chars Py.skip_right] in *; [reflexivity|].
    apply andb_true_iff in H as [Hc Hs]. apply negb_true_iff in Hc.
    destruct (Py.is_literal_space c) eqn:E.
    - apply literal_space_is_space in E. congruence.
    - rewrite IH by assumption. reflexivity. }
  replace (Py.skip_left s) with s; [exact Hr|].
  destruct s as [|c s]; [reflexivity|]. cbn [all_chars] in H.
  apply andb_true_iff in H as [Hc _]. apply negb_true_iff in Hc.
  cbn [Py.skip_left]. destruct (Py.is_literal_space c) eqn:E; [|reflexivity].
  apply literal_space_is_space in E. congruence.
Qed.

Lemma strip_no_space (s : string) :
  all_chars (fun c => negb (Py.is_space c)) s = true -> Py.strip s = s.
Proof.
  intros H. unfold Py.strip.
  replace (Py.lstrip s) with s; [now apply rstrip_no_space|].
  destruct s as [|c s]; [reflexivity|]. cbn [all_chars] in H.
  apply andb_true_iff in H as [Hc _]. apply negb_true_iff in Hc.
  cbn [Py.lstrip]. now rewrite Hc.
Qed.

(** A host that is [n0], three digits, a dot and a cluster name adds the
    number its digits write to the nodes of that cluster. *)
Lemma exact_host_step (clusters : Dict.t (list Z)) (r : Row)
      (d1 d2 d3 : ascii) (cluster : string) :
  host r = ("n0" ++ str3 d1 d2 d3 ++ String "." cluster)%string ->
  Py.is_digit d1 = true -> Py.is_digit d2 = true -> Py.is_digit d3 = true ->
  cluster <> ""%string -> all_chars is_cluster_char cluster = true ->
  get_nodes_by_cluster_step clusters r =
  OK (group_add clusters cluster (node_number d1 d2 d3)).
Proof.
  intros Hhost H1 H2 H3 Hne Hall. unfold get_nodes_by_cluster_step. cbv zeta.
  assert (Hc : is_compute_host (host r) = true).
  { apply is_compute_host_iff. exists "."%char, (host r).
    repeat split; [discriminate|now left|].
    exists ""%string, d1, d2, d3, cluster. now rewrite Hhost. }
  rewrite Hc, Hhost.
  destruct (digit_facts d1 H1) as [S1 D1], (digit_facts d2 H2) as [S2 D2],
           (digit_facts d3 H3) as [S3 D3].
  destruct (cluster_chars_facts cluster Hall) as [Scl Dcl].
  unfold Py.split. cbn [Py.is_empty bind].
  change ("n0" ++ str3 d1 d2 d3 ++ String "." cluster)%string
    with (("n0" ++ str3 d1 d2 d3) ++ String "." cluster)%string.
  rewrite split_from_dot, split_from_dot_free by
      (assumption || (cbn [append str3 has_char]; rewrite D1, D2, D3; reflexivity)).
  cbn [map append].
  rewrite (strip_no_space cluster Scl).
  rewrite (strip_no_space (String "n" (String "0" (str3 d1 d2 d3))))
    by (cbn [str3 all_chars]; rewrite S1, S2, S3; reflexivity).
  change (Py.slice_from (String "n" (String "0" (str3 d1 d2 d3))) 1)
    with (String "0" (str3 d1 d2 d3)).
  unfold Py.int.
  rewrite (skip_no_space (String "0" (str3 d1 d2 d3)))
    by (cbn [str3 all_chars]; rewrite S1, S2, S3; reflexivity).
  cbn [Ascii.eqb Bool.eqb str3 Py.digits_value].
  change (Py.is_digit "0") with true. cbv iota. rewrite H1, H2, H3. cbn [bind].
  rewrite append_at_ensure. unfold node_number.
  change (Py.digit_value "0") with 0. do 2 f_equal. lia.
Qed.
End Decomposition.

(** ** Lines of the change file *)

Section Lines.
Local Open Scope list_scope.

Lemma index_short (A : Type) (l : list A) (i : nat) :
  (List.length l <= i)%nat -> index l i = Raise IndexError.
Proof.
  intros H. unfold index. now rewrite (proj2 (nth_error_None l i) H).
Qed.

(** Fewer than seven fields: the first missing index raises. *)
Lemma parse_line_short (line delimeter : string) (field_values : list string) :
  Py.split line delimeter = OK field_values ->
  (List.length field_values < 7)%nat ->
  parse_line line delimeter = Raise IndexError.
Proof.
  intros Hs Hl. unfold parse_line. rewrite Hs. cbn [bind].
  do 7 (destruct field_values as [|? field_values];
        [reflexivity|cbn [index nth_error bind]]).
  simpl in Hl. lia.
Qed.

(** Seven fields or more: the first seven are kept, the others ignored. *)
Lemma parse_line_long (line delimeter : string) (field_values : list string) :
  Py.split line delimeter = OK field_values ->
  (7 <= List.length field_values)%nat ->
  exists r,
    parse_line line delimeter = OK r /\
    row_fields r = map Py.strip (firstn 7 field_values).
Proof.
  intros Hs Hl. unfold parse_line. rewrite Hs. cbn [bind].
  do 7 (destruct field_values as [|? field_values]; [simpl in Hl; lia|]).
  eexists. split; reflexivity.
Qed.

Lemma split_nonempty_sep (line delimeter : string) :
  delimeter <> ""%string ->
  Py.split line delimeter = OK (Py.split_from delimeter line 0 "").
Proof. intros H. unfold Py.split. destruct delimeter; [congruence|reflexivity]. Qed.

(** One line with fewer than seven fields makes the whole parse raise. *)
Lemma parse_change_file_short (lines : list string) (delimeter : string) :
  delimeter <> ""%string ->
  (exists line field_values,
      In line lines /\ Py.split line delimeter = OK field_values /\
      (List.length field_values < 7)%nat) ->
  parse_change_file lines delimeter = Raise IndexError.
Proof.
  intros Hd. unfold parse_change_file.
  match goal with |- _ -> foldM ?b _ _ = _ => set (body := b) end.
  generalize (@nil Row).
  induction lines as [|l lines IH]; intros acc (line & fv & Hin & Hs & Hl).
  - contradiction.
  - cbn [foldM]. unfold body at 1.
    destruct (Nat.lt_ge_cases (List.length (Py.split_from delimeter l 0 "")) 7)
      as [Hshort|Hlong].
    + rewrite (parse_line_short l delimeter (split_nonempty_sep l Hd) Hshort).
      reflexivity.
    + destruct (parse_line_long l delimeter (split_nonempty_sep l Hd) Hlong)
        as (r & -> & _).
      cbn [bind]. apply IH. destruct Hin as [->|Hin].
      * rewrite (split_nonempty_sep line Hd) in Hs. inversion Hs; subst. lia.
      * now exists line, fv.
Qed.
End Lines.

(** * The claims *)

Lemma spec_compute_shape_dot (h : string) :
  spec_compute_shape h -> has_char "." h = true.
Proof.
  intros (pre & d1 & d2 & d3 & d4 & cl & -> & _).
  rewrite has_char_app. cbn [append str3 has_char].
  rewrite Ascii.eqb_refl, !orb_true_r. reflexivity.
Qed.

(** C1, as stated, fails: the pattern wants [0] as the first digit and
    lower-case letters in the cluster name, and takes any character for
    the dot. *)
Lemma compute_pattern_differs_from_spec :
  (spec_compute_shape "n1234.abc" /\ is_compute_host "n1234.abc" = false) /\
  (spec_compute_shape "n0010.clusterA" /\ is_compute_host "n0010.clusterA" = false) /\
  (~ spec_compute_shape "n0123xabc" /\ is_compute_host "n0123xabc" = true).
Proof.
  repeat split.
  - exists "", "1"%char, "2"%char, "3"%char, "4"%char, "abc". repeat split. discriminate.
  - exists "", "0"%char, "0"%char, "1"%char, "0"%char, "clusterA".
    repeat split. discriminate.
  - intros H. apply spec_compute_shape_dot in H. discriminate.
Qed.

(** C1 (amended).  A host is classified as a compute node if its name ends
    with [n0], three more digits, a dot and one or more characters of
    [a-z0-9], with nothing after; and only if its name, up to one final
    newline, ends with [n0], three digits, one character that is not a
    newline and one or more characters of [a-z0-9].  The COMPUTE bucket
    of the host-type split holds the rows so classified, the OTHER bucket
    the others.  In particular [n12345.clusterB] is not a compute node. *)
Theorem compute_host_classification :
  (forall h, node_shape "." h -> is_compute_host h = true) /\
  (forall h, is_compute_host h = true ->
     exists sep h',
       sep <> Py.newline /\ (h = h' \/ h = h' ++ Py.nl) /\ node_shape sep h') /\
  (forall rows,
     get_rows_by_host_type rows =
     [("COMPUTE", filter (fun r => is_compute_host (host r)) rows);
      ("OTHER", filter (fun r => negb (is_compute_host (host r))) rows)]) /\
  is_compute_host "n12345.clusterB" = false /\
  get_rows_by_host_type [host_row "n12345.clusterB"] =
  [("COMPUTE", []); ("OTHER", [host_row "n12345.clusterB"])].
Proof.
  split; [|split; [|split; [|split]]].
  - intros h H. apply is_compute_host_iff. exists "."%char, h.
    repeat split; [discriminate|now left|assumption].
  - intros h H. now apply is_compute_host_iff.
  - apply get_rows_by_host_type_eq.
  - reflexivity.
  - reflexivity.
Qed.

Lemma compute_host_classification_witness :
  is_compute_host "n0007.lr" = true /\
  exists sep h',
    sep <> Py.newline /\ ("n0007.lr" = h' \/ "n0007.lr" = h' ++ Py.nl) /\
    node_shape sep h'.
Proof.
  assert (H : is_compute_host "n0007.lr" = true).
  { apply (proj1 compute_host_classification).
    exists "", "0"%char, "0"%char, "7"%char, "lr". repeat split. discriminate. }
  split; [exact H|].
  exact (proj1 (proj2 compute_host_classification) "n0007.lr" H).
Defined.

(** C2.  On the empty list [get_node_list_string] raises [IndexError].  On
    every other list it writes, separated by [", "], the intervals of the
    compressed list, each as one padded node or as [<start>-<end>]; these
    intervals are non-empty, ascending and apart, and their elements are
    the numbers of the list, in ascending order and each once.  When the
    numbers have at most four digits the string reads back as exactly
    these numbers.  The nodes 1, 2, 3, 5, 7, 8, 9 give
    [n0001-n0003, n0005, n0007-n0009], which reads back as the same
    numbers. *)
Theorem node_list_string_spec :
  get_node_list_string [] = Raise IndexError /\
  (forall node_list,
     node_list <> [] ->
     get_node_list_string node_list =
     OK (Py.join ", " (map render_interval (compress node_list)))) /\
  (forall node_list,
     separated (compress node_list) /\
     expand (compress node_list) = sorted_set node_list /\
     StronglySorted Z.lt (sorted_set node_list) /\
     NoDup (sorted_set node_list) /\
     (forall n, In n (sorted_set node_list) <-> In n node_list)) /\
  (forall node_list,
     node_list <> [] ->
     (forall n, In n node_list -> four_digit n = true) ->
     exists s,
       get_node_list_string node_list = OK s /\
       expand_node_list_string s = OK (sorted_set node_list)) /\
  get_node_list_string [1; 2; 3; 5; 7; 8; 9] = OK "n0001-n0003, n0005, n0007-n0009" /\
  expand_node_list_string "n0001-n0003, n0005, n0007-n0009" = OK [1; 2; 3; 5; 7; 8; 9].
Proof.
  split; [reflexivity|].
  split; [|split; [|split; [exact node_list_round_trip|split; reflexivity]]].
  - intros l Hl. rewrite get_node_list_string_eq.
    destruct (sorted_set l) eqn:E; [|reflexivity].
    apply (proj1 (sorted_set_nil l)) in E. contradiction.
  - intros l. split; [apply compress_separated|].
    split; [apply expand_compress|].
    split; [apply sorted_set_ascending|].
    split; [apply sorted_set_NoDup|apply sorted_set_In].
Qed.

Lemma node_list_string_spec_witness :
  get_node_list_string [8; 3; 9; 3] =
  OK (Py.join ", " (map render_interval (compress [8; 3; 9; 3]))) /\
  exists s,
    get_node_list_string [8; 3; 9; 3] = OK s /\
    expand_node_list_string s = OK (sorted_set [8; 3; 9; 3]).
Proof.
  destruct node_list_string_spec as (_ & Hrender & _ & Hback & _).
  split.
  - apply Hrender. discriminate.
  - apply Hback; [discriminate|].
    intros n [<-|[<-|[<-|[<-|[]]]]]; reflexivity.
Defined.

(** C3.  Each of the four splits is total and disjoint on the rows it is
    given: the buckets of the host-type, the notification-type and the
    service split, put end to end, are a rearrangement of the rows, so
    every row is in exactly one bucket; and so are the buckets of the
    SLURM sub-category split on rows of service SLURM, which are the rows
    it is made for and the only ones the digest hands to it.  (On other
    rows its buckets rearrange the rows of service SLURM among them.) *)
Theorem splits_total_and_disjoint (rows : list Row) :
  Permutation rows (buckets (get_rows_by_host_type rows)) /\
  Permutation rows (buckets (get_rows_by_notification_type rows)) /\
  Permutation rows (buckets (get_rows_by_service rows)) /\
  ((forall r, In r rows -> is_slurm r = true) ->
   Permutation rows (buckets (get_rows_by_slurm_category rows))) /\
  (exists slurm,
     Dict.getitem (get_rows_by_service rows) "SLURM" = OK slurm /\
     Permutation slurm (buckets (get_rows_by_slurm_category slurm))) /\
  Permutation (filter is_slurm rows) (buckets (get_rows_by_slurm_category rows)).
Proof.
  destruct (splits_are_partitions rows) as (H1 & H2 & H3 & H4).
  assert (Hall : forall l : list Row,
             (forall r, In r l -> is_slurm r = true) ->
             Permutation l (buckets (get_rows_by_slurm_category l))).
  { intros l Hl. destruct (splits_are_partitions l) as (_ & _ & _ & H).
    now rewrite (filter_true is_slurm l Hl) in H. }
  repeat split; try assumption.
  - apply Hall.
  - exists (filter is_slurm rows). split.
    + rewrite get_rows_by_service_eq. reflexivity.
    + apply Hall. intros r Hr. now apply filter_In in Hr.
Qed.

Lemma splits_total_and_disjoint_witness :
  Permutation sample_rows (buckets (get_rows_by_slurm_category sample_rows)).
Proof.
  apply (proj1 (proj2 (proj2 (proj2 (splits_total_and_disjoint sample_rows))))).
  intros r Hr. cbn [In sample_rows] in Hr.
  destruct Hr as [<-|[<-|[<-|[<-|[]]]]]; reflexivity.
Defined.

(** C4.  A line that splits into fewer than seven fields makes the parse
    of that line, and of the file it is in, raise [IndexError]; a line
    that splits into more than seven fields is cut to its first seven
    without any error.  So it is with the lines of six and of eight
    fields. *)
Theorem parse_change_file_field_count :
  (forall line delimeter field_values,
     Py.split line delimeter = OK field_values ->
     (List.length field_values < 7)%nat ->
     parse_line line delimeter = Raise IndexError) /\
  (forall lines delimeter,
     delimeter <> "" ->
     (exists line field_values,
         In line lines /\ Py.split line delimeter = OK field_values /\
         (List.length field_values < 7)%nat) ->
     parse_change_file lines delimeter = Raise IndexError) /\
  (forall line delimeter field_values,
     Py.split line delimeter = OK field_values ->
     (7 < List.length field_values)%nat ->
     exists r,
       parse_line line delimeter = OK r /\
       row_fields r = map Py.strip (firstn 7 field_values)) /\
  parse_change_file [six_fields] "," = Raise IndexError /\
  parse_change_file [seven_fields; six_fields; seven_fields] "," = Raise IndexError /\
  parse_change_file [eight_fields] "," =
  OK [mkRow "PROBLEM" "SLURM" "n0010.lr" "" "DOWN" "t1" "Hardware: Fan failure"] /\
  parse_change_file [seven_fields] "," =
  OK [mkRow "PROBLEM" "SLURM" "n0010.lr" "" "DOWN" "t1" "Hardware: Fan failure"].
Proof.
  split; [exact parse_line_short|].
  split; [exact parse_change_file_short|].
  split; [|repeat split; reflexivity].
  intros line delimeter fv Hs Hl. apply (parse_line_long line delimeter Hs). lia.
Qed.

Lemma parse_change_file_field_count_witness :
  parse_line six_fields "," = Raise IndexError /\
  parse_change_file [seven_fields; six_fields] "," = Raise IndexError /\
  exists r,
    parse_line eight_fields "," = OK r /\
    row_fields r =
    map Py.strip (firstn 7 ["PROBLEM"; "SLURM"; "n0010.lr"; ""; "DOWN"; "t1";
                            "Hardware: Fan failure"; (" again" ++ Py.nl)%string]).
Proof.
  destruct parse_change_file_field_count as (Hshort & Hfile & Hlong & _).
  split; [|split].
  - apply (Hshort six_fields ","
                  ["PROBLEM"; "SLURM"; "n0010.lr"; ""; "DOWN"; ("t1" ++ Py.nl)%string]).
    + reflexivity.
    + simpl. lia.
  - apply Hfile; [discriminate|].
    exists six_fields,
           ["PROBLEM"; "SLURM"; "n0010.lr"; ""; "DOWN"; ("t1" ++ Py.nl)%string].
    split; [right; now left|]. split; [reflexivity|simpl; lia].
  - apply Hlong; [reflexivity|simpl; lia].
Defined.

Lemma tree_reasons_in_order (groups : Dict.t (list Row)) (entries : list reason_entry) :
  tree_reasons groups = OK entries ->
  Permutation (map fst entries) (Dict.keys groups) /\
  StronglySorted lower_le (map fst entries).
Proof.
  intros H. split.
  - rewrite (tree_reasons_keys _ H). apply sorted_perm.
  - now apply tree_reasons_ordered in H.
Qed.

Lemma report_tree_reasons_in_order (slurm_rows : Dict.t (list Row))
      (tree : list category_entry) :
  report_tree slurm_rows = OK tree -> reasons_in_order slurm_rows tree.
Proof.
  intros H. apply mapM_Forall2 in H. unfold reasons_in_order.
  eapply Forall2_impl; [|exact H]. cbv beta. intros category c Hc.
  apply bind_OK in Hc as (rows & Hrows & Hc).
  apply bind_OK in Hc as (groups & Hgroups & Hc).
  apply bind_OK in Hc as (entries & Hentries & Hc). inversion Hc; subst c.
  exists rows, groups. cbn [snd].
  destruct (tree_reasons_in_order _ Hentries). auto.
Qed.

(** C5.  Reason grouping: every row of service SLURM is keyed by the
    lowercase form of its canonical reason (the text after the first colon
    when the field starts with a recognized label and a colon, the whole
    field otherwise, whitespace runs collapsed and ends trimmed); a group
    holds exactly the rows of its key, in input order, so rows whose
    reasons differ only in case share a group; the group is displayed
    under the canonical reason of the first of its rows; no two groups
    have the same key.  The groups are written in alphabetical order of
    their display names regardless of case: what the loop of either
    renderer adds for the groups is the serialization of one entry per
    group, the entries in that order; and whatever [digest_slurm_problems_text]
    or [digest_slurm_problems_html] returns is the serialization of a tree
    that lists, under every category, the groups of its rows in that
    order. *)
Theorem reason_grouping (rows : list Row) :
  (exists groups,
    get_rows_by_slurm_reason rows = OK groups /\
    (forall r, In r rows -> is_slurm r = true ->
       exists display rs,
         In (display, rs) groups /\
         Py.lower display = Py.lower (canonical_reason (additional_info r)) /\
         In r rs) /\
    (forall display rs, In (display, rs) groups ->
       rs = filter (fun r => is_slurm r &&
                             String.eqb (Py.lower (canonical_reason (additional_info r)))
                                        (Py.lower display))
                   rows /\
       exists first rest,
         rs = first :: rest /\ display = canonical_reason (additional_info first)) /\
    NoDup (map Py.lower (Dict.keys groups)) /\
    (forall text0 text,
       text_reasons groups text0 = OK text ->
       exists entries : list reason_entry,
         Permutation (map fst entries) (Dict.keys groups) /\
         StronglySorted lower_le (map fst entries) /\
         text = (text0 ++ cat_strings (map text_of_reason entries))%string) /\
    (forall html0 html,
       html_reasons groups html0 = OK html ->
       exists entries : list reason_entry,
         Permutation (map fst entries) (Dict.keys groups) /\
         StronglySorted lower_le (map fst entries) /\
         html = (html0 ++ cat_strings (map html_of_reason entries))%string)) /\
  (forall slurm_rows text,
     digest_slurm_problems_text slurm_rows = OK text ->
     exists tree, text = text_of_tree tree /\ reasons_in_order slurm_rows tree) /\
  (forall slurm_rows html,
     digest_slurm_problems_html slurm_rows = OK html ->
     exists tree, html = html_of_tree tree /\ reasons_in_order slurm_rows tree).
Proof.
  split; [|split].
  - destruct (reason_groups rows) as (groups & Hg & Hcover & Hentry & Hnd & _).
    exists groups. split; [exact Hg|]. repeat apply conj.
    + intros r Hin Hslurm.
      destruct (Hcover r Hin Hslurm) as (display & rs & H1 & H2 & H3).
      exists display, rs. unfold reason_key in H2.
      rewrite slurm_reason_canonical in H2. auto.
    + intros display rs Hin.
      destruct (Hentry display rs Hin) as (Hrs & first & rest & Hf & Hd).
      split.
      * rewrite Hrs. unfold members. apply filter_ext. intros r.
        unfold reason_key. now rewrite slurm_reason_canonical.
      * exists first, rest. now rewrite <- slurm_reason_canonical.
    + exact Hnd.
    + intros text0 text H. rewrite text_reasons_eq in H.
      apply bind_OK in H as (entries & He & H). inversion H; subst text.
      exists entries. destruct (tree_reasons_in_order _ He). auto.
    + intros html0 html H. rewrite html_reasons_eq in H.
      apply bind_OK in H as (entries & He & H). inversion H; subst html.
      exists entries. destruct (tree_reasons_in_order _ He). auto.
  - intros slurm_rows text H. rewrite digest_slurm_problems_text_eq in H.
    apply bind_OK in H as (tree & Ht & H). inversion H; subst text.
    exists tree. split; [reflexivity|]. now apply report_tree_reasons_in_order.
  - intros slurm_rows html H. rewrite digest_slurm_problems_html_eq in H.
    apply bind_OK in H as (tree & Ht & H). inversion H; subst html.
    exists tree. split; [reflexivity|]. now apply report_tree_reasons_in_order.
Qed.

Lemma reason_grouping_witness :
  (exists groups display rs,
     get_rows_by_slurm_reason (scenario_rows "lr") = OK groups /\
     In (display, rs) groups /\
     Py.lower display = "fan failure" /\
     rs = scenario_rows "lr" /\
     display = "Fan failure") /\
  (exists tree,
     text_of_tree sample_tree = text_of_tree tree /\
     reasons_in_order (slurm_buckets sample_rows) tree) /\
  (exists tree,
     html_of_tree sample_tree = html_of_tree tree /\
     reasons_in_order (slurm_buckets sample_rows) tree).
Proof.
  destruct (reason_grouping (scenario_rows "lr")) as (Hgroups & Htext & Hhtml).
  split; [|split].
  - destruct Hgroups as (groups & Hg & Hcover & Hentry & _).
    destruct (Hcover (hd (host_row "") (scenario_rows "lr")) (or_introl eq_refl) eq_refl)
      as (display & rs & Hin & Hl & _).
    destruct (Hentry display rs Hin) as (Hrs & first & rest & Hfirst & Hd).
    exists groups, display, rs. split; [exact Hg|]. split; [exact Hin|].
    split; [exact Hl|].
    assert (E : rs = scenario_rows "lr") by (rewrite Hrs, Hl; reflexivity).
    split; [exact E|].
    rewrite E in Hfirst. injection Hfirst as <- _. exact Hd.
  - apply (Htext (slurm_buckets sample_rows)). vm_compute. reflexivity.
  - apply (Hhtml (slurm_buckets sample_rows)). vm_compute. reflexivity.
Defined.

(** C6, as stated, fails: [clusterA] has an upper-case letter, so neither
    host is a compute node.  The rows never reach the digest from [main],
    and handed to the digest directly their reason has no cluster. *)
Lemma scenario_clusterA_has_no_nodes :
  (parsed_file <- parse_change_file (scenario_lines "clusterA") "," ;;
   pipeline_tree parsed_file) = OK empty_tree /\
  pipeline_tree (scenario_rows "clusterA") = OK empty_tree /\
  report_tree (slurm_buckets (scenario_rows "clusterA")) =
  OK [("Hardware", [("Fan failure", [])]); ("NHC", []); ("Software", []); ("Other", [])] /\
  pipeline_tree (scenario_rows "clusterA") <>
  OK [("Hardware", [("Fan failure", [("clusterA", "n0010-n0011")])]);
      ("NHC", []); ("Software", []); ("Other", [])].
Proof. repeat split. discriminate. Qed.

(** C6 (amended).  Given the two rows with the hosts [n0010.clustera] and
    [n0011.clustera], the Hardware category holds exactly one reason
    group, displayed as [Fan failure], whose [clustera] node list is
    [n0010-n0011]; so it is in the tree, and in the plaintext body that
    [main] makes of the two lines. *)
Theorem scenario_lower_case_cluster :
  pipeline_tree (scenario_rows "clustera") =
  OK [("Hardware", [("Fan failure", [("clustera", "n0010-n0011")])]);
      ("NHC", []); ("Software", []); ("Other", [])] /\
  parse_change_file (scenario_lines "clustera") "," = OK (scenario_rows "clustera") /\
  fmap snd (digest_of_lines (fun html => html) (scenario_lines "clustera")) =
  OK (Py.join Py.nl
        ["SLURM Digest"; "";
         "SLURM Problems"; "";
         Py.tb ++ "Hardware Issues";
         Py.tb ++ Py.tb ++ "Fan failure";
         Py.tb ++ Py.tb ++ Py.tb ++ "clustera: n0010-n0011"; "";
         Py.tb ++ "NHC Issues"; "";
         Py.tb ++ "Software Issues";
         Py.tb ++ "Other Issues"; "";
         "Raw Output"; "";
         "There are 2 new problems:"; header_line;
         "PROBLEM, SLURM, n0010.clustera, , DOWN, t1, Hardware: Fan failure";
         "PROBLEM, SLURM, n0011.clustera, , DOWN, t2, Hardware: fan failure"; "";
         "There are 0 new recoveries:"; header_line; "";
         "There are 0 other new changes:"; header_line; ""]).
Proof. repeat split; reflexivity. Qed.

(** C7.  On the empty list [get_node_list_string] raises [IndexError]
    instead of returning the empty string; and no cluster of the
    dictionary that [get_nodes_by_cluster] returns has an empty list of
    nodes. *)
Theorem empty_node_list :
  get_node_list_string [] = Raise IndexError /\
  (forall rows clusters,
     get_nodes_by_cluster rows = OK clusters ->
     forall cluster nodes, In (cluster, nodes) clusters -> nodes <> []).
Proof. split; [reflexivity|apply get_nodes_by_cluster_nonempty]. Qed.

Lemma empty_node_list_witness : [10; 11] <> ([] : list Z).
Proof.
  apply (proj2 empty_node_list (scenario_rows "lr") [("lr", [10; 11])] eq_refl "lr").
  now left.
Defined.

(** C8, as stated, fails: on the empty batch the four category headers
    are written all the same. *)
Lemma empty_batch_has_four_categories :
  report_tree (slurm_buckets []) = OK empty_tree /\
  report_tree (slurm_buckets []) <> OK [] /\
  digest_slurm_problems_text (slurm_buckets []) =
  OK (Py.join Py.nl
        [""; "SLURM Problems"; "";
         Py.tb ++ "Hardware Issues"; "";
         Py.tb ++ "NHC Issues"; "";
         Py.tb ++ "Software Issues";
         Py.tb ++ "Other Issues"; ""]).
Proof. repeat split. discriminate. Qed.

(** C8 (amended).  For the empty batch both renderers return, without
    raising, a digest with the four category headers, no reason under any
    of them and count lines of 0.  For every batch, whatever
    [digest_slurm_problems_html] or [digest_slurm_problems_text] returns
    is the serialization of the report tree, in which all four categories
    are written, in the order Hardware, NHC, Software, Other, whether
    their buckets are empty or not; a category has no reason group exactly
    when its bucket has no row. *)
Theorem digest_categories :
  (forall prettify_html,
     get_digest_html prettify_html [] [] [] = OK (prettify_html empty_digest_html)) /\
  get_digest_text [] [] [] = OK empty_digest_text /\
  (forall problem_rows tree,
     report_tree (slurm_buckets problem_rows) = OK tree ->
     map fst tree = category_labels /\
     Forall2 (fun (bucket : string * list Row) (c : category_entry) =>
                snd c = [] <-> snd bucket = [])
             (slurm_buckets problem_rows) tree) /\
  (forall problem_rows html,
     digest_slurm_problems_html (slurm_buckets problem_rows) = OK html ->
     exists tree,
       report_tree (slurm_buckets problem_rows) = OK tree /\
       html = html_of_tree tree /\
       map fst tree = category_labels /\
       Forall2 (fun (bucket : string * list Row) (c : category_entry) =>
                  snd c = [] <-> snd bucket = [])
               (slurm_buckets problem_rows) tree) /\
  (forall problem_rows text,
     digest_slurm_problems_text (slurm_buckets problem_rows) = OK text ->
     exists tree,
       report_tree (slurm_buckets problem_rows) = OK tree /\
       text = text_of_tree tree /\
       map fst tree = category_labels /\
       Forall2 (fun (bucket : string * list Row) (c : category_entry) =>
                  snd c = [] <-> snd bucket = [])
               (slurm_buckets problem_rows) tree).
Proof.
  split; [|split; [|split; [|split]]].
  - intros prettify_html. reflexivity.
  - reflexivity.
  - apply report_tree_categories.
  - intros problem_rows html H. rewrite digest_slurm_problems_html_eq in H.
    apply bind_OK in H as (tree & Ht & H). inversion H; subst html.
    exists tree. destruct (report_tree_categories _ Ht). auto.
  - intros problem_rows text H. rewrite digest_slurm_problems_text_eq in H.
    apply bind_OK in H as (tree & Ht & H). inversion H; subst text.
    exists tree. destruct (report_tree_categories _ Ht). auto.
Qed.

Lemma digest_categories_witness :
  (map fst empty_tree = category_labels /\
   Forall2 (fun (bucket : string * list Row) (c : category_entry) =>
              snd c = [] <-> snd bucket = [])
           (slurm_buckets []) empty_tree) /\
  (exists tree,
     report_tree (slurm_buckets sample_rows) = OK tree /\
     html_of_tree sample_tree = html_of_tree tree /\
     map fst tree = category_labels /\
     Forall2 (fun (bucket : string * list Row) (c : category_entry) =>
                snd c = [] <-> snd bucket = [])
             (slurm_buckets sample_rows) tree) /\
  (exists tree,
     report_tree (slurm_buckets sample_rows) = OK tree /\
     text_of_tree sample_tree = text_of_tree tree /\
     map fst tree = category_labels /\
     Forall2 (fun (bucket : string * list Row) (c : category_entry) =>
                snd c = [] <-> snd bucket = [])
             (slurm_buckets sample_rows) tree).
Proof.
  destruct digest_categories as (_ & _ & Htree & Hhtml & Htext).
  split; [|split].
  - apply (Htree [] empty_tree). reflexivity.
  - apply (Hhtml sample_rows). vm_compute. reflexivity.
  - apply (Htext sample_rows). vm_compute. reflexivity.
Defined.

(** C9.  The two renderers agree on the content they write: each digest
    is a serialization of one and the same report tree (and both fail
    when it cannot be built), whose categories are Hardware, NHC,
    Software and Other in this order, whose reasons are in alphabetical
    order regardless of case, and whose clusters are in alphabetical
    order under each reason, each with one compressed-range string. *)
Theorem renderers_agree (prettify_html : string -> string)
        (problem_rows recovery_rows other_rows : list Row) :
  (forall slurm_rows,
     digest_slurm_problems_html slurm_rows = fmap html_of_tree (report_tree slurm_rows) /\
     digest_slurm_problems_text slurm_rows = fmap text_of_tree (report_tree slurm_rows)) /\
  get_digest_html prettify_html problem_rows recovery_rows other_rows =
  fmap (fun tree => prettify_html (html_page tree problem_rows recovery_rows other_rows))
       (report_tree (slurm_buckets problem_rows)) /\
  get_digest_text problem_rows recovery_rows other_rows =
  fmap (fun tree => text_page tree problem_rows recovery_rows other_rows)
       (report_tree (slurm_buckets problem_rows)) /\
  (forall tree,
     report_tree (slurm_buckets problem_rows) = OK tree ->
     map fst tree = category_labels /\ tree_ordered tree).
Proof.
  split; [|split; [|split]].
  - intros slurm_rows. split.
    + apply digest_slurm_problems_html_eq.
    + apply digest_slurm_problems_text_eq.
  - apply get_digest_html_eq.
  - apply get_digest_text_eq.
  - intros tree H. split.
    + rewrite (report_tree_labels _ H). apply slurm_buckets_keys.
    + apply (report_tree_ordered _ H).
Qed.

Lemma renderers_agree_witness :
  map fst sample_tree = category_labels /\ tree_ordered sample_tree.
Proof.
  apply (proj2 (proj2 (proj2 (renderers_agree (fun s => s) sample_rows [] [])))
               sample_tree).
  reflexivity.
Defined.

(** C10.  A host can match [COMPUTE_PATTERN] and still not decompose:
    [admin0001.lr] matches from its [n] on, and the text before the dot is
    not [n] and a number; [n0123xabc] matches with [x] for the dot, and
    has no dot to split at.  [get_nodes_by_cluster] raises [ValueError] on
    both.  A host that is, from its first character on, [n0], three
    digits, a dot and a cluster name of [a-z0-9] does decompose, into the
    number its digits write and the cluster name as it stands. *)
Theorem compute_host_decomposition :
  (is_compute_host "admin0001.lr" = true /\
   get_nodes_by_cluster [host_row "admin0001.lr"] = Raise ValueError) /\
  (is_compute_host "n0123xabc" = true /\
   get_nodes_by_cluster [host_row "n0123xabc"] = Raise ValueError) /\
  (forall clusters r d1 d2 d3 cluster,
     host r = "n0" ++ str3 d1 d2 d3 ++ String "." cluster ->
     Py.is_digit d1 = true -> Py.is_digit d2 = true -> Py.is_digit d3 = true ->
     cluster <> "" -> all_chars is_cluster_char cluster = true ->
     get_nodes_by_cluster_step clusters r =
     OK (group_add clusters cluster (node_number d1 d2 d3))) /\
  get_nodes_by_cluster [host_row "n0007.lr"] = OK [("lr", [7])].
Proof.
  split; [split; reflexivity|]. split; [split; reflexivity|].
  split; [exact exact_host_step|reflexivity].
Qed.

Lemma compute_host_decomposition_witness :
  get_nodes_by_cluster_step [("lr", [3])] (host_row "n0007.lr") =
  OK (group_add [("lr", [3])] "lr" (node_number "0" "0" "7")).
Proof.
  apply (proj1 (proj2 (proj2 compute_host_decomposition))); try reflexivity.
  discriminate.
Defined.

(** * Further properties of the script *)

(** ** Node lists *)

Section NodeLists.
Local Open Scope list_scope.

Lemma ascending_unique (l1 : list Z) :
  forall l2,
    StronglySorted Z.lt l1 -> StronglySorted Z.lt l2 ->
    (forall n, In n l1 <-> In n l2) -> l1 = l2.
Proof.
  induction l1 as [|a l1 IH]; intros [|b l2] H1 H2 Hin.
  - reflexivity.
  - exfalso. apply (proj2 (Hin b)). now left.
  - exfalso. apply (proj1 (Hin a)). now left.
  - inversion H1 as [|? ? Hs1 Ha]; inversion H2 as [|? ? Hs2 Hb]; subst.
    rewrite Forall_forall in Ha, Hb.
    assert (a = b).
    { destruct (proj1 (Hin a) (in_eq _ _)) as [->|Hab]; [reflexivity|].
      destruct (proj2 (Hin b) (in_eq _ _)) as [->|Hba]; [reflexivity|].
      specialize (Ha _ Hba). specialize (Hb _ Hab). lia. }
    subst b. f_equal. apply IH; try assumption.
    intros n. split; intros Hn.
    + destruct (proj1 (Hin n) (in_cons _ _ _ Hn)) as [->|]; [|assumption].
      specialize (Ha _ Hn). lia.
    + destruct (proj2 (Hin n) (in_cons _ _ _ Hn)) as [->|]; [|assumption].
      specialize (Hb _ Hn). lia.
Qed.

Lemma sorted_set_same_elements (l l' : list Z) :
  (forall n, In n l <-> In n l') -> sorted_set l = sorted_set l'.
Proof.
  intros H. apply ascending_unique; try apply sorted_set_ascending.
  intros n. now rewrite !sorted_set_In.
Qed.

Lemma interval_elements_In (lo hi n : Z) :
  In n (interval_elements (lo, hi)) <-> lo <= n <= hi.
Proof.
  unfold interval_elements. cbn [fst snd]. rewrite in_map_iff. split.
  - intros (k & <- & Hk). apply in_seq in Hk. lia.
  - intros H. exists (Z.to_nat (n - lo)). split; [lia|]. apply in_seq. lia.
Qed.

Lemma shifted_seq_ascending (a : Z) (n : nat) :
  forall s, StronglySorted Z.lt (map (fun k => a + Z.of_nat k) (seq s n)).
Proof.
  induction n as [|n IH]; intros s; cbn [seq map]; constructor.
  - apply IH.
  - apply Forall_forall. intros x Hx. apply in_map_iff in Hx as (k & <- & Hk).
    apply in_seq in Hk. lia.
Qed.

Lemma runs_of_run (n : nat) :
  forall first last,
    runs first last (map (fun k => last + 1 + Z.of_nat k) (seq 0 n)) =
    [(first, last + Z.of_nat n)].
Proof.
  induction n as [|n IH]; intros first last.
  - cbn [seq map runs]. do 2 f_equal. lia.
  - cbn [seq map runs]. replace (last + 1 + Z.of_nat 0) with (last + 1) by lia.
    rewrite Z.eqb_refl, <- seq_shift, map_map.
    rewrite (map_ext _ (fun k => last + 1 + 1 + Z.of_nat k)) by (intros k; lia).
    rewrite IH. do 2 f_equal. lia.
Qed.

Lemma interval_elements_cons (lo hi : Z) :
  lo <= hi ->
  interval_elements (lo, hi) =
  lo :: map (fun k => lo + 1 + Z.of_nat k) (seq 0 (Z.to_nat (hi - lo))).
Proof.
  intros H. unfold interval_elements. cbn [fst snd].
  replace (Z.to_nat (hi + 1 - lo)) with (S (Z.to_nat (hi - lo))) by lia.
  cbn [seq map]. f_equal; [lia|].
  rewrite <- seq_shift, map_map. apply map_ext. intros k. lia.
Qed.

Lemma node_list_of_run (l : list Z) (lo hi : Z) :
  lo <= hi ->
  (forall n, In n l <-> lo <= n <= hi) ->
  get_node_list_string l = OK (render_interval (lo, hi)).
Proof.
  intros Hle Hl.
  assert (E : sorted_set l = interval_elements (lo, hi)).
  { apply ascending_unique.
    - apply sorted_set_ascending.
    - apply shifted_seq_ascending.
    - intros n. now rewrite sorted_set_In, interval_elements_In. }
  rewrite get_node_list_string_eq. unfold compress. rewrite E.
  rewrite interval_elements_cons by assumption.
  rewrite runs_of_run. cbn [map Py.join]. do 3 f_equal. lia.
Qed.
End NodeLists.

(** X1.  The string that [get_node_list_string] returns depends only on
    the set of the node numbers: neither their order nor their repeats
    change it. *)
Theorem node_list_string_of_set (l l' : list Z) :
  (forall n, In n l <-> In n l') ->
  get_node_list_string l = get_node_list_string l'.
Proof.
  intros H. unfold get_node_list_string.
  now rewrite (sorted_set_same_elements l l' H).
Qed.

Lemma node_list_string_of_set_witness :
  get_node_list_string [7; 3; 7; 4] = get_node_list_string [3; 4; 7].
Proof.
  apply node_list_string_of_set. intros n. cbn [In]. tauto.
Defined.

(** X2.  A list whose node numbers are exactly those from [lo] to [hi]
    gives a single entry: the padded node when [lo = hi], the range
    [<lo>-<hi>] otherwise. *)
Theorem node_list_string_of_run (l : list Z) (lo hi : Z) :
  lo <= hi ->
  (forall n, In n l <-> lo <= n <= hi) ->
  get_node_list_string l =
  OK (if lo =? hi then str_form lo else Py.join "-" [str_form lo; str_form hi]).
Proof. intros Hle Hl. now rewrite (node_list_of_run l Hle Hl). Qed.

Lemma node_list_string_of_run_witness :
  get_node_list_string [12; 10; 11; 12] =
  OK (if 10 =? 12 then str_form 10 else Py.join "-" [str_form 10; str_form 12]).
Proof.
  apply node_list_string_of_run; [lia|].
  intros n. cbn [In]. lia.
Defined.

Lemma padded_four_digits_all :
  forallb (fun k => Nat.eqb (String.length (padded (Z.of_nat k))) 4 &&
                    all_chars Py.is_digit (padded (Z.of_nat k)))
          (seq 0 (Z.to_nat 10000)) = true.
Proof. vm_compute. reflexivity. Qed.

(** X3.  A node number of at most four digits is written as [n] and
    exactly four digits, and two such numbers are written alike only when
    they are equal. *)
Theorem str_form_four_digits (a b : Z) :
  four_digit a = true -> four_digit b = true ->
  str_form a = String "n" (padded a) /\
  String.length (padded a) = 4%nat /\
  all_chars Py.is_digit (padded a) = true /\
  (str_form a = str_form b -> a = b).
Proof.
  intros Ha Hb. split; [reflexivity|].
  assert (H : Nat.eqb (String.length (padded a)) 4 &&
              all_chars Py.is_digit (padded a) = true).
  { pose proof (proj1 (forallb_forall _ _) padded_four_digits_all (Z.to_nat a)) as H.
    cbv beta in H. unfold four_digit in Ha.
    apply andb_true_iff in Ha as [H0 H1]. apply Z.leb_le in H0, H1.
    rewrite Z2Nat.id in H by assumption. apply H. apply in_seq. lia. }
  apply andb_true_iff in H as [Hlen Hdig]. apply Nat.eqb_eq in Hlen.
  split; [assumption|]. split; [assumption|].
  intros E. rewrite !str_form_padded in E. injection E as E.
  destruct (padded_facts a Ha) as (_ & _ & Ia).
  destruct (padded_facts b Hb) as (_ & _ & Ib).
  rewrite E in Ia. rewrite Ia in Ib. now inversion Ib.
Qed.

Lemma str_form_four_digits_witness :
  str_form 42 = String "n" (padded 42) /\
  String.length (padded 42) = 4%nat /\
  all_chars Py.is_digit (padded 42) = true /\
  (str_form 42 = str_form 42 -> 42 = 42).
Proof. apply str_form_four_digits; reflexivity. Defined.

(** ** Hosts *)

Section Hosts.
Local Open Scope list_scope.

Lemma append_last_inj (a : string) :
  forall b c d, (a ++ String c "" = b ++ String d "")%string -> c = d.
Proof.
  induction a as [|x a IH]; intros [|y b] c d H; cbn [append] in H.
  - now inversion H.
  - inversion H as [[Hc Hrest]]. destruct b; discriminate.
  - inversion H as [[Hc Hrest]]. destruct a; discriminate.
  - inversion H. eauto.
Qed.

Lemma all_chars_last (p : ascii -> bool) (s : string) :
  s <> ""%string -> all_chars p s = true ->
  exists init c, s = (init ++ String c "")%string /\ p c = true.
Proof.
  induction s as [|x s IH]; intros Hne H; [congruence|].
  cbn [all_chars] in H. apply andb_true_iff in H as [Hx Hs].
  destruct s as [|y s].
  - exists ""%string, x. auto.
  - destruct IH as (init & c & E & Hc); [discriminate|assumption|].
    exists (String x init), c. cbn [append]. now rewrite <- E.
Qed.

Lemma compute_host_prefix (pre h : string) :
  is_compute_host h = true -> is_compute_host (pre ++ h) = true.
Proof.
  unfold is_compute_host. rewrite !search_iff.
  intros (pre' & t & -> & H). exists (pre ++ pre')%string, t.
  now rewrite append_assoc.
Qed.

Lemma compute_host_last (h : string) (c : ascii) :
  is_cluster_char c = false -> c <> Py.newline ->
  is_compute_host (h ++ String c "") = false.
Proof.
  intros Hc Hnl. destruct (is_compute_host (h ++ String c "")) eqn:E; [|reflexivity].
  exfalso. apply is_compute_host_iff in E
    as (sep & h' & _ & Hh & pre & d1 & d2 & d3 & cl & -> & _ & _ & _ & Hne & Hall).
  destruct (all_chars_last is_cluster_char Hne Hall) as (init & c' & -> & Hc').
  destruct Hh as [Hh|Hh].
  - replace (pre ++ "n0" ++ str3 d1 d2 d3 ++ String sep (init ++ String c' ""))%string
      with ((pre ++ "n0" ++ str3 d1 d2 d3 ++ String sep init) ++ String c' "")%string
      in Hh by (cbn [append str3]; rewrite !append_assoc; reflexivity).
    apply append_last_inj in Hh. congruence.
  - apply append_last_inj in Hh. contradiction.
Qed.

Lemma int_raises (s : string) (e : exn) : Py.int s = Raise e -> e = ValueError.
Proof.
  unfold Py.int.
  destruct (Py.skip_right (Py.skip_left s)) as [|c t]; [now intros [= <-]|].
  destruct (Ascii.eqb c "-"); [|destruct (Ascii.eqb c "+")];
    match goal with
    | |- context [Py.digits_value ?x ?a ?b] => destruct (Py.digits_value x a b)
    end; intros H; inversion H; reflexivity.
Qed.

Lemma step_not_compute (d : Dict.t (list Z)) (r : Row) :
  is_compute r = false -> get_nodes_by_cluster_step d r = OK d.
Proof. unfold is_compute, get_nodes_by_cluster_step. now intros ->. Qed.

(** What a step of [get_nodes_by_cluster] can do. *)
Lemma step_cases (d : Dict.t (list Z)) (r : Row) :
  (is_compute r = false /\ get_nodes_by_cluster_step d r = OK d) \/
  (is_compute r = true /\ get_nodes_by_cluster_step d r = Raise ValueError) \/
  (is_compute r = true /\
   exists cluster integer,
     get_nodes_by_cluster_step d r = OK (group_add d cluster integer)).
Proof.
  destruct (is_compute r) eqn:E; [right|left; split; auto using step_not_compute].
  unfold is_compute in E. unfold get_nodes_by_cluster_step. rewrite E.
  unfold Py.split. cbn [Py.is_empty bind].
  destruct (map Py.strip (Py.split_from "." (host r) 0 "")) as [|number [|cluster [|]]];
    auto.
  destruct (Py.int (Py.slice_from number 1)) as [integer|e] eqn:Ei; cbn [bind].
  - right. split; [reflexivity|]. exists cluster, integer. cbv zeta.
    apply append_at_ensure.
  - left. apply int_raises in Ei. now subst.
Qed.

Lemma nodes_count_group_add (d : Dict.t (list Z)) (k : string) (v : Z) :
  nodes_count (group_add d k v) = S (nodes_count d).
Proof.
  unfold nodes_count. induction d as [|[k' l] d IH]; [reflexivity|].
  cbn [group_add]. destruct (String.eqb k k'); cbn [map snd List.concat].
  - rewrite !length_app. cbn [List.length]. lia.
  - rewrite !length_app, IH. lia.
Qed.

Lemma get_nodes_by_cluster_filter (rows : list Row) :
  forall d,
    foldM get_nodes_by_cluster_step rows d =
    foldM get_nodes_by_cluster_step (filter is_compute rows) d.
Proof.
  induction rows as [|r rows IH]; intros d; [reflexivity|].
  cbn [filter]. destruct (is_compute r) eqn:E; cbn [foldM].
  - destruct (get_nodes_by_cluster_step d r); cbn [bind]; auto.
  - rewrite step_not_compute by assumption. cbn [bind]. apply IH.
Qed.

Lemma get_nodes_by_cluster_raises (rows : list Row) :
  forall d e, foldM get_nodes_by_cluster_step rows d = Raise e -> e = ValueError.
Proof.
  induction rows as [|r rows IH]; intros d e H; [discriminate|].
  cbn [foldM] in H.
  destruct (step_cases d r) as [[_ E]|[[_ E]|[_ (c & n & E)]]]; rewrite E in H;
    cbn [bind] in H; eauto. now inversion H.
Qed.

Lemma get_nodes_by_cluster_count (rows : list Row) :
  forall d d',
    NoDup (Dict.keys d) ->
    foldM get_nodes_by_cluster_step rows d = OK d' ->
    NoDup (Dict.keys d') /\
    nodes_count d' = (nodes_count d + List.length (filter is_compute rows))%nat.
Proof.
  induction rows as [|r rows IH]; intros d d' Hd H; cbn [foldM filter] in *.
  - inversion H; subst. split; [assumption|]. cbn [List.length]. lia.
  - destruct (step_cases d r) as [[Hc E]|[[Hc E]|[Hc (c & n & E)]]]; rewrite E in H;
      cbn [bind] in H; rewrite Hc.
    + now apply IH.
    + discriminate.
    + apply IH in H; [|now apply NoDup_keys_group_add].
      rewrite nodes_count_group_add in H. cbn [List.length].
      destruct H as [H1 H2]. split; [assumption|lia].
Qed.
End Hosts.

(** X4.  The compute pattern is looked for anywhere in the host, so
    whatever is put before a compute host leaves it a compute host; and it
    is anchored at the end, so a host that ends with a character that is
    neither of [a-z0-9] nor a newline is no compute host. *)
Theorem compute_host_anchoring :
  (forall pre h, is_compute_host h = true -> is_compute_host (pre ++ h) = true) /\
  (forall h c,
     is_cluster_char c = false -> c <> Py.newline ->
     is_compute_host (h ++ String c "") = false).
Proof. split; [exact compute_host_prefix|exact compute_host_last]. Qed.

Lemma compute_host_anchoring_witness :
  is_compute_host ("login-" ++ "n0001.lr") = true /\
  is_compute_host ("n0001.lr" ++ String "." "") = false.
Proof.
  split.
  - apply (proj1 compute_host_anchoring). reflexivity.
  - apply (proj2 compute_host_anchoring); [reflexivity|discriminate].
Defined.

(** X5.  [get_nodes_by_cluster] passes over the rows whose host is no
    compute host: it returns, or raises, what it does on the compute rows
    alone. *)
Theorem get_nodes_by_cluster_skips (rows : list Row) :
  get_nodes_by_cluster rows = get_nodes_by_cluster (filter is_compute rows).
Proof. apply get_nodes_by_cluster_filter. Qed.

(** X6.  [get_nodes_by_cluster] raises nothing but [ValueError]; when it
    returns, no cluster is entered twice and every compute row has added
    exactly one node number, repeats included. *)
Theorem get_nodes_by_cluster_outcome (rows : list Row) :
  (forall e, get_nodes_by_cluster rows = Raise e -> e = ValueError) /\
  (forall clusters,
     get_nodes_by_cluster rows = OK clusters ->
     NoDup (Dict.keys clusters) /\
     nodes_count clusters = List.length (filter is_compute rows)).
Proof.
  split.
  - intros e. apply get_nodes_by_cluster_raises.
  - intros clusters H.
    apply get_nodes_by_cluster_count in H; [exact H|constructor].
Qed.

Lemma get_nodes_by_cluster_outcome_witness :
  ValueError = ValueError /\
  NoDup (Dict.keys [("lr", [10; 4; 10]); ("mako", [3])]) /\
  nodes_count [("lr", [10; 4; 10]); ("mako", [3])] = 4%nat.
Proof.
  split.
  - apply (proj1 (get_nodes_by_cluster_outcome [host_row "admin0001.lr"])).
    reflexivity.
  - apply (proj2 (get_nodes_by_cluster_outcome
                    [host_row "n0010.lr"; host_row "n0003.mako"; host_row "gateway";
                     host_row "n0004.lr"; host_row "n0010.lr"])).
    reflexivity.
Defined.

(** ** Reasons *)

Section Reasons.
Local Open Scope list_scope.

Lemma group_add_values (V : Type) (d : Dict.t (list V)) (k : string) (v : V) :
  Permutation (List.concat (map snd (group_add d k v)))
              (List.concat (map snd d) ++ [v]).
Proof.
  induction d as [|[k' l] d IH]; [reflexivity|].
  cbn [group_add]. destruct (String.eqb k k'); cbn [map snd List.concat].
  - rewrite <- !app_assoc. apply Permutation_app_head, Permutation_app_comm.
  - rewrite IH. now rewrite app_assoc.
Qed.

Lemma reasons_of_values (rows : list Row) :
  forall d,
    Permutation (List.concat (map snd (reasons_of rows d)))
                (List.concat (map snd d) ++ map reason_pair (filter is_slurm rows)).
Proof.
  induction rows as [|r rows IH]; intros d.
  - simpl. now rewrite app_nil_r.
  - unfold reasons_of. cbn [fold_left filter]. fold (reasons_of rows).
    rewrite IH. destruct (is_slurm r); [|reflexivity].
    rewrite group_add_values, <- app_assoc. reflexivity.
Qed.

Lemma groups_values (rows : list Row) :
  Permutation (filter is_slurm rows)
              (buckets (map output_entry (reasons_of rows []))).
Proof.
  unfold buckets. rewrite map_map. cbn [output_entry snd].
  rewrite <- (map_map snd (map snd)), <- concat_map.
  rewrite (reasons_of_values rows []). cbn [map List.concat app].
  now rewrite map_snd_reason_pair.
Qed.

Lemma collapse_words (s : string) :
  Forall (fun w => w <> ""%string /\ no_space w = true) (Py.split_ws s).
Proof. now apply words_from_words. Qed.

Lemma label_exclusive (s : string) :
  (Py.startswith s (HW_label ++ ":") = true ->
   Py.startswith s (NHC_label ++ ":") = false /\
   Py.startswith s (SW_label ++ ":") = false) /\
  (Py.startswith s (NHC_label ++ ":") = true ->
   Py.startswith s (SW_label ++ ":") = false).
Proof.
  unfold Py.startswith. destruct s as [|c s]; [split; discriminate|].
  cbn [HW_label NHC_label SW_label append String.prefix].
  split.
  - destruct (ascii_dec "H" c) as [<-|]; [|discriminate]. intros _.
    split; reflexivity.
  - destruct (ascii_dec "N" c) as [<-|]; [|discriminate]. intros _. reflexivity.
Qed.

Lemma category_tests (r : Row) :
  negb (is_hw r) && is_nhc r = is_nhc r /\
  negb (is_hw r) && (negb (is_nhc r) && is_sw r) = is_sw r /\
  negb (is_hw r) && (negb (is_nhc r) && negb (is_sw r)) =
  negb (is_hw r || is_nhc r || is_sw r).
Proof.
  unfold is_hw, is_nhc, is_sw.
  destruct (label_exclusive (additional_info r)) as [H1 H2].
  destruct (Py.startswith (additional_info r) (HW_label ++ ":")).
  - destruct (H1 eq_refl) as [-> ->]. repeat split.
  - destruct (Py.startswith (additional_info r) (NHC_label ++ ":")).
    + rewrite (H2 eq_refl). repeat split.
    + destruct (Py.startswith (additional_info r) (SW_label ++ ":")); repeat split.
Qed.
End Reasons.

(** X7.  The groups that [get_rows_by_slurm_reason] returns hold the rows
    of service SLURM, each exactly once; the rows of any other service are
    in no group. *)
Theorem reason_groups_partition (rows : list Row) :
  exists groups,
    get_rows_by_slurm_reason rows = OK groups /\
    Permutation (filter is_slurm rows) (buckets groups).
Proof.
  exists (map output_entry (reasons_of rows [])). split.
  - apply get_rows_by_slurm_reason_eq.
  - apply groups_values.
Qed.

(** X8.  The reason that [get_rows_by_slurm_reason] computes for a row is
    a sequence of words joined by single spaces, each word non-empty and
    free of whitespace; its two calls of [strip] change nothing, since the
    reason is the words of the text after the label, or of the whole
    field; and collapsing the reason again leaves it as it is. *)
Theorem slurm_reason_normal_form (additional_info : string) :
  (exists words,
     slurm_reason additional_info = Py.join " " words /\
     Forall (fun w => w <> "" /\ no_space w = true) words) /\
  slurm_reason additional_info =
  Py.join " "
    (Py.split_ws
       (if Py.startswith_any additional_info recognized_labels
        then Py.slice_from additional_info (Py.find additional_info ":" + 1)
        else additional_info)) /\
  Py.join " " (Py.split_ws (slurm_reason additional_info)) =
  slurm_reason additional_info.
Proof.
  assert (E : slurm_reason additional_info =
              Py.join " "
                (Py.split_ws
                   (if Py.startswith_any additional_info recognized_labels
                    then Py.slice_from additional_info (Py.find additional_info ":" + 1)
                    else additional_info))).
  { unfold slurm_reason. fold recognized_labels.
    destruct (Py.startswith_any additional_info recognized_labels);
      now rewrite split_ws_strip. }
  split; [|split; [exact E|]].
  - eexists. split; [exact E|]. apply collapse_words.
  - rewrite E at 1. rewrite split_ws_join by apply collapse_words.
    now rewrite <- E.
Qed.

(** X9.  The three labels exclude one another, so the order of the tests
    in [get_rows_by_slurm_category] does not matter: each of the buckets
    HW, NHC and SW holds, in input order, the rows of service SLURM whose
    additional information starts with its label and a colon, and OTHER
    holds the SLURM rows that start with none. *)
Theorem slurm_category_buckets (rows : list Row) :
  get_rows_by_slurm_category rows =
  [("HW", filter (fun r => is_slurm r && is_hw r) rows);
   ("NHC", filter (fun r => is_slurm r && is_nhc r) rows);
   ("SW", filter (fun r => is_slurm r && is_sw r) rows);
   ("OTHER",
    filter (fun r => is_slurm r && negb (is_hw r || is_nhc r || is_sw r)) rows)].
Proof.
  rewrite get_rows_by_slurm_category_eq.
  assert (E : forall (p q : Row -> bool),
             (forall r, p r = q r) ->
             filter (fun r => is_slurm r && p r) rows =
             filter (fun r => is_slurm r && q r) rows).
  { intros p q H. apply filter_ext. intros r. now rewrite H. }
  rewrite (E (fun r => negb (is_hw r) && is_nhc r) is_nhc)
    by (intros r; apply category_tests).
  rewrite (E (fun r => negb (is_hw r) && (negb (is_nhc r) && is_sw r)) is_sw)
    by (intros r; apply category_tests).
  rewrite (E (fun r => negb (is_hw r) && (negb (is_nhc r) && negb (is_sw r)))
             (fun r => negb (is_hw r || is_nhc r || is_sw r)))
    by (intros r; apply category_tests).
  reflexivity.
Qed.

(** X10.  [get_rows_by_notification_type] and [get_rows_by_service] keep
    the input order within each bucket and compare the field exactly, case
    included: PROBLEM holds the rows whose notification type is
    [PROBLEM], RECOVERY those whose type is [RECOVERY], OTHER the rest;
    SLURM holds the rows whose service is [SLURM], OTHER the rest. *)
Theorem notification_and_service_buckets (rows : list Row) :
  get_rows_by_notification_type rows =
  [("PROBLEM", filter (fun r => String.eqb (notification_type r) "PROBLEM") rows);
   ("RECOVERY", filter (fun r => String.eqb (notification_type r) "RECOVERY") rows);
   ("OTHER",
    filter (fun r => negb (String.eqb (notification_type r) "PROBLEM") &&
                     negb (String.eqb (notification_type r) "RECOVERY")) rows)] /\
  get_rows_by_service rows =
  [("SLURM", filter (fun r => String.eqb (service r) "SLURM") rows);
   ("OTHER", filter (fun r => negb (String.eqb (service r) "SLURM")) rows)].
Proof.
  split; [|apply get_rows_by_service_eq].
  rewrite get_rows_by_notification_type_eq.
  rewrite (filter_ext (fun r => negb (is_problem r) && is_recovery r)
                      (fun r => String.eqb (notification_type r) "RECOVERY"));
    [reflexivity|].
  intros r. unfold is_problem, is_recovery.
  destruct (String.eqb_spec (notification_type r) "PROBLEM") as [->|]; reflexivity.
Qed.

(** ** The change file and the raw output *)

Section ChangeFile.
Local Open Scope list_scope.

Lemma parse_change_file_mapM (lines : list string) (delimeter : string) :
  parse_change_file lines delimeter = mapM (fun line => parse_line line delimeter) lines.
Proof.
  unfold parse_change_file.
  assert (H : forall acc,
             foldM (fun parsed_file line =>
                      parsed_line <- parse_line line delimeter ;;
                      OK (parsed_file ++ [parsed_line]))
                   lines acc =
             (rs <- mapM (fun line => parse_line line delimeter) lines ;;
              OK (acc ++ rs))).
  { induction lines as [|l lines IH]; intros acc; cbn [foldM mapM].
    - cbn [bind]. now rewrite app_nil_r.
    - destruct (parse_line l delimeter) as [r|e]; cbn [bind]; [|reflexivity].
      rewrite IH. destruct (mapM _ lines); cbn [bind]; [|reflexivity].
      now rewrite <- app_assoc. }
  rewrite H. destruct (mapM _ lines); reflexivity.
Qed.

Lemma mapM_app (A B : Type) (f : A -> result B) (l1 l2 : list A) :
  mapM f (l1 ++ l2) = (a <- mapM f l1 ;; b <- mapM f l2 ;; OK (a ++ b)).
Proof.
  induction l1 as [|x l1 IH]; cbn [app mapM bind].
  - destruct (mapM f l2); reflexivity.
  - destruct (f x); cbn [bind]; [|reflexivity]. rewrite IH.
    destruct (mapM f l1); cbn [bind]; [|reflexivity].
    destruct (mapM f l2); reflexivity.
Qed.

Lemma Forall2_mapM (A B : Type) (f : A -> result B) (l : list A) (bs : list B) :
  Forall2 (fun a b => f a = OK b) l bs -> mapM f l = OK bs.
Proof.
  induction 1 as [|a b l bs Hab _ IH]; [reflexivity|].
  cbn [mapM]. now rewrite Hab, IH.
Qed.

Lemma prefix_one (c0 c : ascii) (rest : string) :
  String.prefix (String c0 "") (String c rest) = Ascii.eqb c0 c.
Proof.
  cbn [String.prefix]. destruct (ascii_dec c0 c) as [<-|Hne].
  - rewrite Ascii.eqb_refl. destruct rest; reflexivity.
  - symmetry. now apply Ascii.eqb_neq.
Qed.

Lemma split_one_free (c0 : ascii) (s : string) :
  forall cur,
    has_char c0 s = false ->
    Py.split_from (String c0 "") s 0 cur = [(cur ++ s)%string].
Proof.
  induction s as [|c s IH]; intros cur H; cbn [Py.split_from].
  - now rewrite append_nil_r.
  - cbn [has_char] in H. apply orb_false_iff in H as [Hc Hs].
    rewrite prefix_one, Hc, IH by assumption. now rewrite append_assoc.
Qed.

Lemma split_one_sep (c0 : ascii) (a b : string) :
  forall cur,
    has_char c0 a = false ->
    Py.split_from (String c0 "") (a ++ String c0 b) 0 cur =
    (cur ++ a)%string :: Py.split_from (String c0 "") b 0 "".
Proof.
  induction a as [|c a IH]; intros cur H; cbn [append Py.split_from].
  - rewrite prefix_one, Ascii.eqb_refl, append_nil_r. reflexivity.
  - cbn [has_char] in H. apply orb_false_iff in H as [Hc Hs].
    rewrite prefix_one, Hc, IH by assumption. now rewrite append_assoc.
Qed.

Lemma split_one_pieces (c0 : ascii) (s : string) :
  forall cur,
    has_char c0 cur = false ->
    Forall (fun piece => has_char c0 piece = false)
           (Py.split_from (String c0 "") s 0 cur).
Proof.
  induction s as [|c s IH]; intros cur Hcur; cbn [Py.split_from].
  - now repeat constructor.
  - rewrite prefix_one. destruct (Ascii.eqb c0 c) eqn:E.
    + constructor; [assumption|]. now apply IH.
    + apply IH. rewrite has_char_app. cbn [has_char]. now rewrite Hcur, E.
Qed.

Lemma rstrip_app_nl (s : string) : Py.rstrip (s ++ Py.nl) = Py.rstrip s.
Proof.
  induction s as [|c s IH]; [reflexivity|].
  cbn [append Py.rstrip]. now rewrite IH.
Qed.

Lemma strip_app_nl (s : string) : Py.strip (s ++ Py.nl) = Py.strip s.
Proof.
  unfold Py.strip. induction s as [|c s IH]; [reflexivity|].
  cbn [append Py.lstrip]. destruct (Py.is_space c); [exact IH|].
  apply (rstrip_app_nl (String c s)).
Qed.

Lemma strip_space_cons (s : string) : Py.strip (String " " s) = Py.strip s.
Proof. reflexivity. Qed.

Lemma rstrip_idempotent (s : string) : Py.rstrip (Py.rstrip s) = Py.rstrip s.
Proof.
  induction s as [|c s IH]; [reflexivity|].
  cbn [Py.rstrip]. destruct (Py.is_space c && Py.is_empty (Py.rstrip s)) eqn:E;
    [reflexivity|].
  cbn [Py.rstrip]. now rewrite IH, E.
Qed.

Lemma lstrip_head (s : string) :
  Py.lstrip s = ""%string \/
  exists c t, Py.lstrip s = String c t /\ Py.is_space c = false.
Proof.
  induction s as [|c s IH]; [now left|].
  cbn [Py.lstrip]. destruct (Py.is_space c) eqn:E; [exact IH|].
  right. now exists c, s.
Qed.

Lemma strip_idempotent (s : string) : Py.strip (Py.strip s) = Py.strip s.
Proof.
  unfold Py.strip.
  replace (Py.lstrip (Py.rstrip (Py.lstrip s))) with (Py.rstrip (Py.lstrip s));
    [apply rstrip_idempotent|].
  destruct (lstrip_head s) as [->|(c & t & -> & Hc)]; [reflexivity|].
  cbn [Py.rstrip]. rewrite Hc. cbn [andb Py.lstrip]. now rewrite Hc.
Qed.

Lemma lstrip_has_char (c : ascii) (s : string) :
  has_char c s = false -> has_char c (Py.lstrip s) = false.
Proof.
  induction s as [|x s IH]; [auto|].
  cbn [Py.lstrip]. destruct (Py.is_space x); [|auto].
  cbn [has_char]. intros H. apply orb_false_iff in H as [_ H]. auto.
Qed.

Lemma rstrip_has_char (c : ascii) (s : string) :
  has_char c s = false -> has_char c (Py.rstrip s) = false.
Proof.
  induction s as [|x s IH]; [auto|].
  cbn [Py.rstrip has_char]. intros H. apply orb_false_iff in H as [Hx H].
  destruct (Py.is_space x && Py.is_empty (Py.rstrip s)); [reflexivity|].
  cbn [has_char]. now rewrite Hx, IH.
Qed.

Lemma strip_clean (piece : string) :
  has_char "," piece = false -> clean_field (Py.strip piece).
Proof.
  intros H. split; [apply strip_idempotent|].
  unfold Py.strip. now apply rstrip_has_char, lstrip_has_char.
Qed.

Lemma index_In (A : Type) (l : list A) (i : nat) (x : A) :
  index l i = OK x -> In x l.
Proof.
  unfold index. destruct (nth_error l i) eqn:E; [|discriminate].
  intros [= <-]. eapply nth_error_In; eauto.
Qed.

Lemma parse_line_clean (line : string) (r : Row) :
  parse_line line "," = OK r -> Forall clean_field (row_fields r).
Proof.
  unfold parse_line, Py.split. cbn [Py.is_empty bind]. intros H.
  pose proof (split_one_pieces "," line "" eq_refl) as Hp.
  rewrite Forall_forall in Hp.
  repeat match type of H with
         | bind (index ?l ?i) _ = OK _ =>
             let f := fresh "f" in
             let Hf := fresh "Hf" in
             destruct (index l i) as [f|] eqn:Hf; cbn [bind] in H;
             [apply index_In, Hp in Hf|discriminate]
         end.
  inversion H; subst. cbn [row_fields notification_type service host address state
                             date_time additional_info].
  repeat constructor; now apply strip_clean.
Qed.

Lemma dump_line_parse (r : Row) :
  Forall clean_field (row_fields r) -> parse_line (dump_line r) "," = OK r.
Proof.
  destruct r as [f0 f1 f2 f3 f4 f5 f6]. intros H.
  unfold row_fields in H. simpl in H.
  repeat match goal with
         | H : Forall _ (_ :: _) |- _ => inversion H; clear H; subst
         | H : Forall _ [] |- _ => clear H
         | H : clean_field _ |- _ => destruct H
         end.
  unfold parse_line, dump_line, Py.split. cbn [Py.is_empty bind row_fields
    notification_type service host address state date_time additional_info Py.join].
  replace ((f0 ++ ", " ++ f1 ++ ", " ++ f2 ++ ", " ++ f3 ++ ", " ++ f4 ++ ", " ++ f5 ++
            ", " ++ f6) ++ Py.nl)%string
    with (f0 ++ String "," (String " " f1 ++ String "," (String " " f2 ++
          String "," (String " " f3 ++ String "," (String " " f4 ++ String ","
          (String " " f5 ++ String "," (String " " (f6 ++ Py.nl))))))))%string
    by (repeat (progress (cbn [append]; rewrite ?append_assoc)); reflexivity).
  repeat rewrite split_one_sep
    by (cbn [has_char Ascii.eqb Bool.eqb orb]; assumption).
  rewrite split_one_free
    by (cbn [has_char Ascii.eqb Bool.eqb orb]; rewrite has_char_app;
        match goal with H : has_char "," f6 = false |- _ => rewrite H end;
        reflexivity).
  cbn [index nth_error bind append].
  rewrite !strip_space_cons, strip_app_nl.
  repeat match goal with H : Py.strip _ = _ |- _ => rewrite H; clear H end.
  reflexivity.
Qed.
End ChangeFile.

(** *** The lines of a file *)

Section FileLines.
Local Open Scope list_scope.

Lemma universal_newlines_ends (t : string) :
  exists w, universal_newlines (t ++ Py.nl) = (w ++ Py.nl)%string.
Proof.
  induction t as [|c t IH]; cbn [append universal_newlines].
  - exists ""%string. reflexivity.
  - destruct IH as (w & IH). destruct (Ascii.eqb c Py.carriage_return).
    + destruct (starts_with_newline (t ++ Py.nl)).
      * exists w. exact IH.
      * exists (String Py.newline w). now rewrite IH.
    + exists (String c w). now rewrite IH.
Qed.

Lemma starts_with_newline_app (t u : string) :
  starts_with_newline ((t ++ Py.nl) ++ u) = starts_with_newline (t ++ Py.nl).
Proof. destruct t; reflexivity. Qed.

Lemma universal_newlines_app (t u : string) :
  universal_newlines ((t ++ Py.nl) ++ u) =
  (universal_newlines (t ++ Py.nl) ++ universal_newlines u)%string.
Proof.
  induction t as [|c t IH]; cbn [append universal_newlines].
  - reflexivity.
  - rewrite starts_with_newline_app, IH.
    destruct (Ascii.eqb c Py.carriage_return);
      [destruct (starts_with_newline (t ++ Py.nl))|]; reflexivity.
Qed.

Lemma lines_from_app (a b cur : string) :
  lines_from ((a ++ Py.nl) ++ b) cur = lines_from (a ++ Py.nl) cur ++ lines_from b "".
Proof.
  revert cur. induction a as [|c a IH]; intros cur; cbn [append lines_from].
  - reflexivity.
  - destruct (Ascii.eqb c Py.newline); now rewrite IH.
Qed.

Lemma file_lines_app (contents1 contents2 : string) :
  whole_lines contents1 ->
  file_lines (contents1 ++ contents2) = file_lines contents1 ++ file_lines contents2.
Proof.
  intros [->|(t & ->)]; [reflexivity|]. unfold file_lines.
  rewrite universal_newlines_app.
  destruct (universal_newlines_ends t) as (w & ->). apply lines_from_app.
Qed.

Lemma universal_newlines_plain (s : string) :
  has_char Py.carriage_return s = false -> universal_newlines s = s.
Proof.
  induction s as [|c s IH]; cbn [has_char universal_newlines]; [reflexivity|].
  intros H. apply orb_false_iff in H as [Hc Hs].
  rewrite Ascii.eqb_sym, Hc, IH by assumption. reflexivity.
Qed.

Lemma lines_from_one (body cur : string) :
  has_char Py.newline body = false ->
  lines_from (body ++ Py.nl) cur = [(cur ++ body ++ Py.nl)%string].
Proof.
  revert cur. induction body as [|c body IH]; intros cur; cbn [has_char append lines_from].
  - reflexivity.
  - intros H. apply orb_false_iff in H as [Hc Hs].
    rewrite Ascii.eqb_sym, Hc, IH by assumption.
    now rewrite append_assoc.
Qed.

Lemma file_lines_one (line : string) : one_line line -> file_lines line = [line].
Proof.
  intros (body & -> & H). unfold no_line_break in H.
  apply andb_true_iff in H as [Hn Hc]. apply negb_true_iff in Hn, Hc.
  unfold file_lines. rewrite universal_newlines_plain.
  - now apply lines_from_one.
  - rewrite has_char_app, Hc. reflexivity.
Qed.

Lemma one_line_whole (line : string) : one_line line -> whole_lines line.
Proof. intros (body & -> & _). right. now exists body. Qed.

Lemma no_line_break_app (a b : string) :
  no_line_break (a ++ b) = no_line_break a && no_line_break b.
Proof.
  unfold no_line_break. rewrite !has_char_app.
  destruct (has_char Py.newline a), (has_char Py.newline b),
           (has_char Py.carriage_return a), (has_char Py.carriage_return b);
    reflexivity.
Qed.

Lemma no_line_break_join (l : list string) :
  Forall (fun f => no_line_break f = true) l ->
  no_line_break (Py.join ", " l) = true.
Proof.
  induction 1 as [|f l Hf Hl IH]; [reflexivity|].
  destruct l as [|g l]; [exact Hf|].
  change (Py.join ", " (f :: g :: l))
    with (f ++ ", " ++ Py.join ", " (g :: l))%string.
  rewrite !no_line_break_app, Hf, IH. reflexivity.
Qed.

Lemma dump_line_one_line (r : Row) :
  Forall (fun f => no_line_break f = true) (row_fields r) -> one_line (dump_line r).
Proof.
  intros H. exists (Py.join ", " (row_fields r)). split; [reflexivity|].
  now apply no_line_break_join.
Qed.

Lemma is_empty_app (a b : string) :
  Py.is_empty (a ++ b) = Py.is_empty a && Py.is_empty b.
Proof. destruct a; reflexivity. Qed.

Lemma is_empty_false (s : string) : s <> ""%string -> Py.is_empty s = false.
Proof. destruct s; [congruence|reflexivity]. Qed.
End FileLines.

(** X11.  [parse_change_file] makes one row of each line, in the order of
    the lines: it returns a list of rows exactly when every line parses to
    the row at its place, so the rows are as many as the lines.  When the
    contents of a file are empty or end with a newline, the parse of these
    contents followed by further contents is the parse of the first
    followed by the parse of the second. *)
Theorem parse_change_file_line_by_line (delimeter : string) :
  (forall lines rows,
     parse_change_file lines delimeter = OK rows <->
     Forall2 (fun line r => parse_line line delimeter = OK r) lines rows) /\
  (forall lines rows,
     parse_change_file lines delimeter = OK rows ->
     List.length rows = List.length lines) /\
  (forall contents1 contents2,
     whole_lines contents1 ->
     parse_change_file (file_lines (contents1 ++ contents2)) delimeter =
     (rows1 <- parse_change_file (file_lines contents1) delimeter ;;
      rows2 <- parse_change_file (file_lines contents2) delimeter ;;
      OK (rows1 ++ rows2)%list)).
Proof.
  split; [|split].
  - intros lines rows. rewrite parse_change_file_mapM. split.
    + apply mapM_Forall2.
    + apply Forall2_mapM.
  - intros lines rows H. rewrite parse_change_file_mapM in H.
    apply mapM_Forall2, Forall2_length in H. now symmetry.
  - intros contents1 contents2 H. rewrite (file_lines_app contents2 H).
    rewrite !parse_change_file_mapM. apply mapM_app.
Qed.

Lemma parse_change_file_line_by_line_witness :
  List.length [mkRow "PROBLEM" "SLURM" "n0010.lr" "" "DOWN" "t1" "Hardware: Fan failure"] =
  List.length [seven_fields] /\
  parse_change_file (file_lines (seven_fields ++ "a,b,c,d,e,f,g")) "," =
  (rows1 <- parse_change_file (file_lines seven_fields) "," ;;
   rows2 <- parse_change_file (file_lines "a,b,c,d,e,f,g") "," ;;
   OK (rows1 ++ rows2)%list).
Proof.
  split.
  - apply (proj1 (proj2 (parse_change_file_line_by_line ","))). reflexivity.
  - apply (proj2 (proj2 (parse_change_file_line_by_line ","))).
    right. eexists. reflexivity.
Defined.

(** X12.  The line that [get_digest_text] writes for a row in the raw
    output is a line of the change file: when the fields of the row are
    stripped and hold neither a comma nor a line break, a file with this
    text has this one line, and [parse_change_file], with the comma as
    delimiter, reads it back as the same row. *)
Theorem raw_output_line_parses_back (r : Row) :
  Forall clean_field (row_fields r) ->
  Forall (fun f => no_line_break f = true) (row_fields r) ->
  file_lines (dump_line r) = [dump_line r] /\
  parse_change_file (file_lines (dump_line r)) "," = OK [r].
Proof.
  intros H Hb.
  assert (E : file_lines (dump_line r) = [dump_line r])
    by now apply file_lines_one, dump_line_one_line.
  split; [exact E|]. rewrite E, parse_change_file_mapM. cbn [mapM].
  now rewrite (dump_line_parse H).
Qed.

Lemma raw_output_line_parses_back_witness :
  file_lines
    (dump_line (mkRow "PROBLEM" "SLURM" "n0010.lr" "" "DOWN" "t1" "Hardware: Fan failure")) =
  [dump_line (mkRow "PROBLEM" "SLURM" "n0010.lr" "" "DOWN" "t1" "Hardware: Fan failure")] /\
  parse_change_file
    (file_lines
       (dump_line
          (mkRow "PROBLEM" "SLURM" "n0010.lr" "" "DOWN" "t1" "Hardware: Fan failure")))
    "," =
  OK [mkRow "PROBLEM" "SLURM" "n0010.lr" "" "DOWN" "t1" "Hardware: Fan failure"].
Proof.
  apply raw_output_line_parses_back; repeat constructor.
Defined.

(** X13.  The rows that [parse_change_file] returns, with the comma as
    delimiter, have stripped fields without a comma; so the raw output of
    these rows parses back to the same rows. *)
Theorem parsed_rows_parse_back (lines : list string) (rows : list Row) :
  parse_change_file lines "," = OK rows ->
  Forall (fun r => Forall clean_field (row_fields r)) rows /\
  parse_change_file (map dump_line rows) "," = OK rows.
Proof.
  rewrite !parse_change_file_mapM. intros H. apply mapM_Forall2 in H.
  assert (Hclean : Forall (fun r => Forall clean_field (row_fields r)) rows).
  { eapply Forall2_Forall_r; [|exact H]. cbv beta. intros line r.
    apply parse_line_clean. }
  split; [exact Hclean|].
  apply Forall2_mapM. clear H.
  induction Hclean as [|r rows Hr _ IH]; cbn [map]; constructor; auto.
  now apply dump_line_parse.
Qed.

Lemma parsed_rows_parse_back_witness :
  Forall (fun r => Forall clean_field (row_fields r)) (scenario_rows "lr") /\
  parse_change_file (map dump_line (scenario_rows "lr")) "," = OK (scenario_rows "lr").
Proof.
  apply (parsed_rows_parse_back (scenario_lines "lr")). reflexivity.
Defined.

(** ** The digest as a whole *)

Section WholeDigest.
Local Open Scope list_scope.

Lemma mapM_raises (A B : Type) (f : A -> result B) (l : list A) (e : exn) :
  mapM f l = Raise e -> exists a, In a l /\ f a = Raise e.
Proof.
  induction l as [|a l IH]; [discriminate|].
  cbn [mapM]. destruct (f a) as [b|e'] eqn:E; cbn [bind].
  - destruct (mapM f l) as [bs|e'']; cbn [bind]; [discriminate|].
    intros [= <-]. destruct IH as (a' & Hin & Ha'); [reflexivity|].
    exists a'. auto using in_cons.
  - intros [= <-]. exists a. auto using in_eq.
Qed.

Lemma mapM_total (A B : Type) (f : A -> result B) (l : list A) :
  (forall a, In a l -> exists b, f a = OK b) -> exists bs, mapM f l = OK bs.
Proof.
  induction l as [|a l IH]; intros H; [now exists []|].
  destruct (H a (in_eq _ _)) as (b & Hb).
  destruct IH as (bs & Hbs); [intros a' Ha'; apply H; now right|].
  exists (b :: bs). cbn [mapM]. now rewrite Hb, Hbs.
Qed.

Lemma Forall2_In_r (A B : Type) (R : A -> B -> Prop) (P : B -> Prop)
      (l : list A) (bs : list B) :
  (forall a b, In a l -> R a b -> P b) -> Forall2 R l bs -> Forall P bs.
Proof.
  intros H HF. induction HF as [|a b l bs Hab _ IH]; constructor.
  - apply (H a b); [now left|assumption].
  - apply IH. intros a' b' Ha'. apply H. now right.
Qed.

Lemma getitem_of_key (V : Type) (d : Dict.t V) (k : string) :
  In k (Dict.keys d) -> exists v, Dict.getitem d k = OK v /\ In (k, v) d.
Proof.
  intros H. unfold Dict.getitem. destruct (Dict.get d k) as [v|] eqn:E.
  - exists v. split; [reflexivity|now apply get_In].
  - apply get_None in E. contradiction.
Qed.

Lemma sorted_In (A K : Type) (key : A -> K) (leb : K -> K -> bool)
      (l : list A) (x : A) :
  In x (Py.sorted key leb l) -> In x l.
Proof. apply Permutation_in, sorted_perm. Qed.

Lemma join_head (sep : string) (c : ascii) (x : string) (rest : list string) :
  exists tail, Py.join sep (String c x :: rest) = String c tail.
Proof. destruct rest; cbn [Py.join append]; eauto. Qed.

Lemma node_list_string_nonempty (nodes : list Z) :
  nodes <> [] ->
  exists s, get_node_list_string nodes = OK s /\ s <> ""%string.
Proof.
  intros H. rewrite get_node_list_string_eq. unfold compress.
  destruct (sorted_set nodes) as [|x l] eqn:E.
  - apply (proj1 (sorted_set_nil nodes)) in E. contradiction.
  - eexists. split; [reflexivity|].
    destruct (runs_head l x x) as (last & rest & ->). cbn [map].
    assert (Hr : exists t, render_interval (x, last) = String "n" t).
    { unfold render_interval. cbn [fst snd]. rewrite !str_form_padded.
      destruct (x =? last); cbn [append]; eauto. }
    destruct Hr as (t & ->).
    destruct (join_head ", " "n" t (map render_interval rest)) as (tail & ->).
    discriminate.
Qed.

Lemma tree_clusters_total (clusters : Dict.t (list Z)) :
  (forall k l, In (k, l) clusters -> l <> []) ->
  exists cs,
    tree_clusters clusters = OK cs /\
    Forall (fun cl : cluster_entry => snd cl <> ""%string) cs.
Proof.
  intros Hne.
  assert (Hf : forall k, In k (Py.sorted (fun k => k) String.leb (Dict.keys clusters)) ->
                 exists b : cluster_entry,
                   (nodes <- Dict.getitem clusters k ;;
                    node_list <- get_node_list_string nodes ;;
                    OK (k, node_list)) = OK b /\ snd b <> ""%string).
  { intros k Hk. apply sorted_In in Hk.
    destruct (getitem_of_key clusters k Hk) as (nodes & -> & Hin). cbn [bind].
    destruct (node_list_string_nonempty (Hne k nodes Hin)) as (s & -> & Hs).
    cbn [bind]. now exists (k, s). }
  destruct (mapM_total
              (fun k => nodes <- Dict.getitem clusters k ;;
                        node_list <- get_node_list_string nodes ;;
                        OK (k, node_list))
              (Py.sorted (fun k => k) String.leb (Dict.keys clusters))) as (cs & Hcs).
  { intros k Hk. destruct (Hf k Hk) as (b & Hb & _). eauto. }
  exists cs. split; [exact Hcs|].
  apply mapM_Forall2 in Hcs. eapply Forall2_In_r; [|exact Hcs].
  cbv beta. intros k b Hk Hb.
  destruct (Hf k Hk) as (b' & Hb' & Hs).
  rewrite Hb in Hb'. now inversion Hb'; subst.
Qed.
Lemma getitem_In (V : Type) (d : Dict.t V) (k : string) (v : V) :
  Dict.getitem d k = OK v -> In (k, v) d.
Proof.
  unfold Dict.getitem. destruct (Dict.get d k) eqn:E; [|discriminate].
  intros [= <-]. now apply get_In.
Qed.

Lemma tree_reasons_raises (reasons : Dict.t (list Row)) (e : exn) :
  tree_reasons reasons = Raise e -> e = ValueError.
Proof.
  intros H. apply mapM_raises in H as (reason & Hin & H). apply sorted_In in Hin.
  destruct (getitem_of_key reasons reason Hin) as (rows & Hg & _).
  rewrite Hg in H. cbn [bind] in H.
  destruct (get_nodes_by_cluster rows) as [clusters|e'] eqn:E; cbn [bind] in H.
  - destruct (tree_clusters_total clusters) as (cs & Hcs & _).
    { exact (get_nodes_by_cluster_nonempty rows E). }
    rewrite Hcs in H. discriminate.
  - inversion H; subst. unfold get_nodes_by_cluster in E.
    exact (get_nodes_by_cluster_raises rows [] E).
Qed.

Lemma report_tree_raises (slurm_rows : Dict.t (list Row)) (e : exn) :
  report_tree slurm_rows = Raise e -> e = ValueError.
Proof.
  intros H. apply mapM_raises in H as (category & Hin & H).
  destruct (getitem_of_key slurm_rows category Hin) as (rows & Hg & _).
  rewrite Hg in H. cbn [bind] in H.
  rewrite get_rows_by_slurm_reason_eq in H. cbn [bind] in H.
  destruct (tree_reasons (map output_entry (reasons_of rows []))) eqn:E;
    cbn [bind] in H; [discriminate|].
  inversion H; subst. now apply tree_reasons_raises in E.
Qed.

Lemma get_nodes_by_cluster_total (rows : list Row) :
  (forall r, In r rows -> is_compute r = true -> exact_host (host r)) ->
  forall d, exists d', foldM get_nodes_by_cluster_step rows d = OK d'.
Proof.
  induction rows as [|r rows IH]; intros H d; [now exists d|].
  cbn [foldM]. destruct (is_compute r) eqn:E.
  - destruct (H r (in_eq _ _) E) as (d1 & d2 & d3 & cl & Hh & H1 & H2 & H3 & Hne & Hall).
    rewrite (@exact_host_step d r d1 d2 d3 cl Hh H1 H2 H3 Hne Hall). cbn [bind].
    apply IH. intros r' Hr'. apply H. now right.
  - rewrite step_not_compute by assumption. cbn [bind].
    apply IH. intros r' Hr'. apply H. now right.
Qed.

Lemma tree_reasons_total (groups : Dict.t (list Row)) :
  (forall k rows r,
     In (k, rows) groups -> In r rows -> is_compute r = true -> exact_host (host r)) ->
  exists rs, tree_reasons groups = OK rs.
Proof.
  intros H. apply mapM_total. intros reason Hin. apply sorted_In in Hin.
  destruct (getitem_of_key groups reason Hin) as (rows & -> & Hrows). cbn [bind].
  destruct (get_nodes_by_cluster_total rows (fun r => H reason rows r Hrows) [])
    as (clusters & E).
  fold (get_nodes_by_cluster rows) in E. rewrite E. cbn [bind].
  destruct (tree_clusters_total clusters) as (cs & -> & _).
  { exact (get_nodes_by_cluster_nonempty rows E). }
  cbn [bind]. eauto.
Qed.

Lemma group_rows_In (rows : list Row) (display : string) (rs : list Row) (r : Row) :
  In (display, rs) (map output_entry (reasons_of rows [])) -> In r rs ->
  In r rows /\ is_slurm r = true.
Proof.
  intros Hin Hr. apply groups_entry in Hin as (-> & _).
  apply members_key in Hr. tauto.
Qed.

Lemma report_tree_total (slurm_rows : Dict.t (list Row)) :
  (forall k rows r,
     In (k, rows) slurm_rows -> In r rows -> is_slurm r = true ->
     is_compute r = true -> exact_host (host r)) ->
  exists tree, report_tree slurm_rows = OK tree.
Proof.
  intros H. apply mapM_total. intros category Hin.
  destruct (getitem_of_key slurm_rows category Hin) as (rows & -> & Hrows). cbn [bind].
  rewrite get_rows_by_slurm_reason_eq. cbn [bind].
  destruct (tree_reasons_total (map output_entry (reasons_of rows []))) as (rs & ->).
  { intros k rs r Hk Hr. destruct (group_rows_In rows k rs r Hk Hr) as [Hr' Hs].
    now apply (H category rows r). }
  cbn [bind]. eauto.
Qed.

Lemma slurm_buckets_rows (problem_rows : list Row) (k : string) (rows : list Row) (r : Row) :
  In (k, rows) (slurm_buckets problem_rows) -> In r rows -> In r problem_rows.
Proof.
  rewrite slurm_buckets_eq, get_rows_by_slurm_category_eq.
  intros [E|[E|[E|[E|[]]]]] Hr; inversion E; subst;
    apply filter_In in Hr as [Hr _]; apply filter_In in Hr; tauto.
Qed.

Lemma tree_reasons_leaves (groups : Dict.t (list Row)) (rs : list reason_entry) :
  (forall k rows,
     In (k, rows) groups -> rows <> [] /\ forall r, In r rows -> is_compute r = true) ->
  tree_reasons groups = OK rs ->
  Forall (fun r : reason_entry =>
            snd r <> [] /\ Forall (fun cl : cluster_entry => snd cl <> ""%string) (snd r))
         rs.
Proof.
  intros H Hrs. apply mapM_Forall2 in Hrs.
  eapply Forall2_Forall_r; [|exact Hrs]. cbv beta. intros reason b Hb.
  apply bind_OK in Hb as (rows & Hg & Hb). apply getitem_In in Hg.
  apply bind_OK in Hb as (clusters & Hc & Hb).
  apply bind_OK in Hb as (entries & He & Hb). inversion Hb; subst. cbn [snd].
  destruct (H reason rows Hg) as [Hne Hcompute].
  destruct (tree_clusters_total clusters) as (cs & Hcs & Hall).
  { exact (get_nodes_by_cluster_nonempty rows Hc). }
  rewrite He in Hcs. inversion Hcs; subst cs. split; [|exact Hall].
  intros ->. apply tree_clusters_keys in He. cbn [map] in He.
  pose proof (sorted_perm (fun k : string => k) String.leb (Dict.keys clusters)) as Hp.
  rewrite <- He in Hp. apply Permutation_nil in Hp.
  unfold get_nodes_by_cluster in Hc.
  apply get_nodes_by_cluster_count in Hc as [_ Hcount]; [|constructor].
  rewrite (filter_true is_compute rows Hcompute) in Hcount.
  destruct clusters; [|discriminate]. destruct rows; [congruence|discriminate].
Qed.

Lemma report_tree_leaves (slurm_rows : Dict.t (list Row)) (tree : list category_entry) :
  (forall k rows r, In (k, rows) slurm_rows -> In r rows -> is_compute r = true) ->
  report_tree slurm_rows = OK tree -> no_empty_leaf tree.
Proof.
  intros H Ht. apply mapM_Forall2 in Ht.
  eapply Forall2_Forall_r; [|exact Ht]. cbv beta. intros category b Hb.
  apply bind_OK in Hb as (rows & Hg & Hb). apply getitem_In in Hg.
  rewrite get_rows_by_slurm_reason_eq in Hb. cbn [bind] in Hb.
  apply bind_OK in Hb as (rs & Hrs & Hb). inversion Hb; subst. cbn [snd].
  apply (@tree_reasons_leaves (map output_entry (reasons_of rows [])) rs); [|exact Hrs].
  intros display grp Hin. split.
  - apply groups_entry in Hin as (_ & first & rest & -> & _). discriminate.
  - intros r Hr. destruct (group_rows_In rows display grp r Hin Hr) as [Hr' _].
    now apply (H category rows r).
Qed.

Lemma pipeline_tree_eq (parsed_file : list Row) :
  pipeline_tree parsed_file =
  report_tree (slurm_buckets (filter is_problem (filter is_compute parsed_file))).
Proof.
  unfold pipeline_tree. rewrite get_rows_by_host_type_eq.
  cbn [Dict.getitem Dict.get String.eqb Ascii.eqb Bool.eqb bind].
  rewrite get_rows_by_notification_type_eq. reflexivity.
Qed.
End WholeDigest.

(** ** The digest as a whole *)

Section DigestOutcome.
Local Open Scope list_scope.
Variable prettify_html : string -> string.

(** X14. [get_digest_html] and [get_digest_text] succeed together or fail
    together, and the only exception either lets out is the [ValueError] of
    [get_nodes_by_cluster]: the look-ups by key never raise [KeyError] and
    [get_node_list_string] is never given an empty list, so its [IndexError]
    cannot occur. *)
Theorem digest_succeeds_or_value_error
        (problem_rows recovery_rows other_rows : list Row) :
  (exists email_html email_text,
      get_digest_html prettify_html problem_rows recovery_rows other_rows =
      OK email_html /\
      get_digest_text problem_rows recovery_rows other_rows = OK email_text) \/
  (get_digest_html prettify_html problem_rows recovery_rows other_rows =
   Raise ValueError /\
   get_digest_text problem_rows recovery_rows other_rows = Raise ValueError).
Proof.
  rewrite get_digest_html_eq, get_digest_text_eq.
  destruct (report_tree (slurm_buckets problem_rows)) as [tree|e] eqn:E; cbn [fmap].
  - left. eexists _, _. split; reflexivity.
  - right. apply report_tree_raises in E. subst e. split; reflexivity.
Qed.

(** X15. When every SLURM problem row whose host passes [is_compute_host]
    has a host of exactly the form n0ddd.cluster, both bodies of the e-mail
    are produced: nothing raises, whatever the other fields and the recovery
    and other rows hold. *)
Theorem digest_of_exact_hosts
        (problem_rows recovery_rows other_rows : list Row) :
  (forall r, In r problem_rows -> is_slurm r = true -> is_compute r = true ->
             exact_host (host r)) ->
  exists email_html email_text,
    get_digest_html prettify_html problem_rows recovery_rows other_rows =
    OK email_html /\
    get_digest_text problem_rows recovery_rows other_rows = OK email_text.
Proof.
  intros H. rewrite get_digest_html_eq, get_digest_text_eq.
  destruct (report_tree_total (slurm_buckets problem_rows)) as (tree & ->).
  { intros k rows r Hk Hr Hs Hc. apply H; [|assumption|assumption].
    exact (slurm_buckets_rows problem_rows k rows r Hk Hr). }
  cbn [fmap]. eexists _, _. split; reflexivity.
Qed.

Lemma digest_of_lines_skip (lines1 lines2 : list string) (line : string) (r : Row) :
  parse_line line "," = OK r ->
  is_compute r = false ->
  digest_of_lines prettify_html (lines1 ++ line :: lines2) =
  digest_of_lines prettify_html (lines1 ++ lines2).
Proof.
  intros Hline Hr. rewrite !digest_of_lines_eq, !parse_change_file_mapM, !mapM_app.
  cbn [mapM]. rewrite Hline. cbn [bind].
  destruct (mapM _ lines1) as [a|e]; cbn [bind]; [|reflexivity].
  destruct (mapM _ lines2) as [b|e]; cbn [bind]; [|reflexivity].
  rewrite !pipeline_tree_eq, !filter_app. cbn [filter]. rewrite Hr. reflexivity.
Qed.

(** X16. A line of the change file whose host is no compute host changes
    nothing, as long as the file is not empty without it: when the
    contents before the line are empty or end with a newline, [main] hands
    the same two bodies to [send_email_html] (or raises the same
    exception) with the line as without it. *)
Theorem non_compute_line_is_ignored (before line after : string) (r : Row) :
  whole_lines before ->
  one_line line ->
  (before ++ after)%string <> ""%string ->
  parse_line line "," = OK r ->
  is_compute r = false ->
  main prettify_html (Some (before ++ line ++ after)%string) =
  main prettify_html (Some (before ++ after)%string).
Proof.
  intros Hbefore Hline Hne Hparse Hr. unfold main.
  rewrite (is_empty_false Hne).
  rewrite !is_empty_app.
  destruct Hline as (body & Hbody & Hbreak).
  assert (E : Py.is_empty line = false)
    by (rewrite Hbody, is_empty_app, andb_false_r; reflexivity).
  rewrite E, andb_false_l, andb_false_r.
  assert (Hone : one_line line) by (exists body; auto).
  rewrite !(file_lines_app _ Hbefore), (file_lines_app _ (one_line_whole Hone)),
          (file_lines_one Hone).
  cbn [app].
  now rewrite (@digest_of_lines_skip (file_lines before) (file_lines after) line r
                                      Hparse Hr).
Qed.

(** X17. In the digest that [main] builds from a change file, every reason
    is followed by at least one cluster, and the node list of every cluster
    is a non-empty string: only rows of compute hosts reach the renderers. *)
Theorem digest_of_lines_has_no_empty_leaf
        (lines : list string) (parsed_file : list Row) (tree : list category_entry) :
  parse_change_file lines "," = OK parsed_file ->
  pipeline_tree parsed_file = OK tree ->
  no_empty_leaf tree /\
  exists problem_rows recovery_rows other_rows,
    digest_of_lines prettify_html lines =
    OK (prettify_html (html_page tree problem_rows recovery_rows other_rows),
        text_page tree problem_rows recovery_rows other_rows).
Proof.
  intros Hp Ht. split.
  - rewrite pipeline_tree_eq in Ht. revert Ht. apply report_tree_leaves.
    intros k rows r Hk Hr. apply (slurm_buckets_rows _ _ _ _ Hk) in Hr.
    apply filter_In in Hr as [Hr _]. now apply filter_In in Hr.
  - rewrite digest_of_lines_eq, Hp. cbn [bind]. rewrite Ht. cbn [bind].
    eexists _, _, _. reflexivity.
Qed.
End DigestOutcome.

Lemma digest_of_exact_hosts_witness :
  exists email_html email_text,
    get_digest_html (fun html => html) sample_rows [] [] = OK email_html /\
    get_digest_text sample_rows [] [] = OK email_text.
Proof.
  apply (digest_of_exact_hosts (fun html => html) sample_rows [] []).
  intros r Hin _ _. cbn [In sample_rows] in Hin.
  destruct Hin as [<-|[<-|[<-|[<-|[]]]]]; cbn [host].
  - exists "0"%char, "1"%char, "0"%char, "lr".
    repeat split; try reflexivity; discriminate.
  - exists "0"%char, "0"%char, "3"%char, "mako".
    repeat split; try reflexivity; discriminate.
  - exists "0"%char, "1"%char, "1"%char, "lr".
    repeat split; try reflexivity; discriminate.
  - exists "0"%char, "0"%char, "4"%char, "lr".
    repeat split; try reflexivity; discriminate.
Defined.

Lemma non_compute_line_is_ignored_witness :
  main (fun html => html)
       (Some (seven_fields ++
              line_of ["PROBLEM"; "SLURM"; "admin1.lr"; ""; "DOWN"; "t2"; "Disk full"] ++
              seven_fields)%string) =
  main (fun html => html) (Some (seven_fields ++ seven_fields)%string).
Proof.
  apply (@non_compute_line_is_ignored (fun html => html) seven_fields
           (line_of ["PROBLEM"; "SLURM"; "admin1.lr"; ""; "DOWN"; "t2"; "Disk full"])
           seven_fields
           (mkRow "PROBLEM" "SLURM" "admin1.lr" "" "DOWN" "t2" "Disk full")).
  - right. eexists. reflexivity.
  - eexists. split; reflexivity.
  - discriminate.
  - reflexivity.
  - reflexivity.
Defined.

Lemma digest_of_lines_has_no_empty_leaf_witness :
  no_empty_leaf [("Hardware", [("Fan failure", [("lr", "n0010-n0011")])]);
                 ("NHC", []); ("Software", []); ("Other", [])] /\
  exists problem_rows recovery_rows other_rows,
    digest_of_lines (fun html => html) (scenario_lines "lr") =
    OK (html_page [("Hardware", [("Fan failure", [("lr", "n0010-n0011")])]);
                   ("NHC", []); ("Software", []); ("Other", [])]
                  problem_rows recovery_rows other_rows,
        text_page [("Hardware", [("Fan failure", [("lr", "n0010-n0011")])]);
                   ("NHC", []); ("Software", []); ("Other", [])]
                  problem_rows recovery_rows other_rows).
Proof.
  apply (@digest_of_lines_has_no_empty_leaf (fun html => html) (scenario_lines "lr")
           (scenario_rows "lr"));
    vm_compute; reflexivity.
Defined.
